(** * Allen calcium-imaging pseudo-mouse datasets

    A shallow embedding of [cebra/datasets/allen/ca_movie.py] and
    [cebra/datasets/allen/ca_movie_decoding.py]: the cross-session neuron
    alignment, the pseudo-mouse assembly, the seeded neuron sampling and the
    train/test split, followed by the properties proved about them.

    Python exceptions are values of [PyError]; a computation that may raise
    returns a [result].  numpy arrays are rectangular lists of rows that carry
    their column count, so that an array with no row still has a shape. *)

From Stdlib Require Import ZArith String Ascii List Lia.
From Stdlib Require Import DecimalString DecimalNat DecimalFacts.
From stdpp Require Import base tactics option list numbers sorting gmap sets strings.

Local Open Scope Z_scope.
Local Open Scope nat_scope.

(** ** Exceptions *)

Inductive PyError : Set :=
  | ValueError
  | IndexError
  | KeyError
  | FileNotFoundError.

Inductive result (A : Type) : Type :=
  | Ok (a : A)
  | Raise (e : PyError).
Arguments Ok {A} a.
Arguments Raise {A} e.

#[global] Instance result_ret : MRet result := λ A, @Ok A.
#[global] Instance result_bind : MBind result := λ A B f m,
  match m with Ok a => f a | Raise e => Raise e end.
#[global] Instance result_fmap : FMap result := λ A B f m,
  match m with Ok a => Ok (f a) | Raise e => Raise e end.

(** [o] or else raise [e]. *)
Definition or_raise {A} (e : PyError) (o : option A) : result A :=
  match o with Some a => Ok a | None => Raise e end.

(** A list comprehension whose body may raise: the first exception wins. *)
Fixpoint comprehension {A B} (f : A → result B) (l : list A) : result (list B) :=
  match l with
  | [] => Ok []
  | x :: l' => y ← f x; ys ← comprehension f l'; Ok (y :: ys)
  end.

(** ** Python lists *)

(** [l.index(x)]: the first position of [x], [ValueError] when absent. *)
Definition py_index (l : list Z) (x : Z) : result nat :=
  match list_find (λ y, y = x) l with
  | Some (i, _) => Ok i
  | None => Raise ValueError
  end.

(** [l[i]] on a list of length [n]: a negative index counts from the end. *)
Definition py_norm_index (n : nat) (i : Z) : option nat :=
  if decide (0 ≤ i < Z.of_nat n)%Z then Some (Z.to_nat i)
  else if decide (- Z.of_nat n ≤ i < 0)%Z then Some (Z.to_nat (i + Z.of_nat n))
  else None.

Definition py_getitem {A} (l : list A) (i : Z) : result A :=
  or_raise IndexError (n ← py_norm_index (length l) i; l !! n).

(** A slice bound on a sequence of length [n]: negative bounds count from the
    end and every bound is clamped into [0, n]. *)
Definition py_slice_bound (n : nat) (i : Z) : nat :=
  if decide (i < 0)%Z then Z.to_nat (Z.max 0 (i + Z.of_nat n))
  else Nat.min (Z.to_nat i) n.

(** [l[start:stop]]. *)
Definition py_slice {A} (start stop : Z) (l : list A) : list A :=
  let a := py_slice_bound (length l) start in
  let b := py_slice_bound (length l) stop in
  take (b - a) (drop a l).

(** [l.sort()] on a list of positions. *)
Definition py_sort (l : list nat) : list nat := merge_sort (≤) l.

(** ** Strings

    A character is a code point below 256.  Among these the decimal digits
    are 0 to 9 and the white space is the tab to carriage return range, the
    four separators 28 to 31, the space, and the code points 133 and 160. *)

(** [pat in s]: [s] has [pat] as a substring. *)
Fixpoint str_contains (pat s : string) : bool :=
  String.prefix pat s ||
  match s with
  | EmptyString => false
  | String _ s' => str_contains pat s'
  end.

(** White space, as [str.split()] sees it. *)
Definition is_space (c : ascii) : bool :=
  let n := nat_of_ascii c in
  (n =? 32) || ((9 <=? n) && (n <=? 13)) || ((28 <=? n) && (n <=? 31))
  || (n =? 133) || (n =? 160).

(** [s.replace(c, empty)] for a one-character [c]. *)
Fixpoint str_remove (c : ascii) (s : string) : string :=
  match s with
  | EmptyString => EmptyString
  | String c' s' =>
      if Ascii.eqb c' c then str_remove c s' else String c' (str_remove c s')
  end.

(** [s.split()]: the maximal runs of characters that are not white space.
    [cur] is the run being read, reversed. *)
Fixpoint str_split_aux (cur : list ascii) (s : string) : list (list ascii) :=
  match s with
  | EmptyString => match cur with [] => [] | _ => [reverse cur] end
  | String c s' =>
      if is_space c
      then match cur with
           | [] => str_split_aux [] s'
           | _ => reverse cur :: str_split_aux [] s'
           end
      else str_split_aux (c :: cur) s'
  end.

Definition str_split (s : string) : list (list ascii) := str_split_aux [] s.

Definition digit_of (c : ascii) : option Z :=
  let n := nat_of_ascii c in
  if (48 <=? n) && (n <=? 57) then Some (Z.of_nat (n - 48)) else None.

(** The value of a run of decimal digits in which one underscore may stand
    between two digits; [prev] tells that the character before was a digit.
    A run that is empty, or that starts or ends with an underscore, or has
    two underscores in a row, has no value. *)
Fixpoint digits_value (acc : Z) (prev : bool) (l : list ascii) : option Z :=
  match l with
  | [] => if prev then Some acc else None
  | c :: l' =>
      match digit_of c with
      | Some d => digits_value (10 * acc + d)%Z true l'
      | None =>
          if Ascii.eqb c "_"%char && prev then digits_value acc false l' else None
      end
  end.

(** [int(tok)] on a token without white space: an optional sign and a run of
    digits; [ValueError] otherwise. *)
Definition py_int (tok : list ascii) : result Z :=
  let unsigned (l : list ascii) : result Z :=
    or_raise ValueError (digits_value 0 false l) in
  match tok with
  | c :: l' =>
      if Ascii.eqb c "-"%char then Z.opp <$> unsigned l'
      else if Ascii.eqb c "+"%char then unsigned l'
      else unsigned tok
  | [] => Raise ValueError
  end.

(** ** numpy arrays *)

(** A two-dimensional array: its rows, and its column count [shape[1]]. *)
Record ndarray (A : Type) : Type := mk_ndarray {
  nd_rows : list (list A);
  nd_cols : nat
}.
Arguments mk_ndarray {A} nd_rows nd_cols.
Arguments nd_rows {A} n.
Arguments nd_cols {A} n.

Definition shape0 {A} (m : ndarray A) : nat := length (nd_rows m).
Definition shape1 {A} (m : ndarray A) : nat := nd_cols m.

(** Every row has [shape[1]] entries. *)
Definition nd_wf {A} (m : ndarray A) : Prop :=
  Forall (λ r, length r = nd_cols m) (nd_rows m).

(** [np.arange(n)]. *)
Definition arange (n : nat) : list nat := seq 0 n.

(** [m[idx, :]] for a list of row positions: [IndexError] out of range. *)
Definition take_rows {A} (m : ndarray A) (idx : list nat) : result (ndarray A) :=
  rows ← comprehension (λ i, or_raise IndexError (nd_rows m !! i)) idx;
  Ok (mk_ndarray rows (nd_cols m)).

(** [m[:, start:stop]]. *)
Definition col_slice {A} (start stop : Z) (m : ndarray A) : ndarray A :=
  mk_ndarray (py_slice start stop <$> nd_rows m)
             (py_slice_bound (nd_cols m) stop - py_slice_bound (nd_cols m) start).

(** [m.T]. *)
Definition transpose {A} (m : ndarray A) : ndarray A :=
  mk_ndarray ((λ j, omap (λ r, r !! j) (nd_rows m)) <$> seq 0 (nd_cols m))
             (length (nd_rows m)).

(** [Tensor.float()]: the conversion of a number to a 32-bit float, a
    rounding within the numbers [A]. *)
Class TorchFloat (A : Type) : Type := float : A → A.

(** [torch.from_numpy(m).float()]: every entry converted. *)
Definition from_numpy_float `{TorchFloat A} (m : ndarray A) : ndarray A :=
  mk_ndarray ((λ row : list A, float <$> row) <$> nd_rows m) (nd_cols m).

(** [np.concatenate(blocks)] along the first axis: [ValueError] on an empty
    list and when two blocks differ in column count. *)
Definition concatenate {A} (blocks : list (ndarray A)) : result (ndarray A) :=
  match blocks with
  | [] => Raise ValueError
  | m :: rest =>
      if forallb (λ m', nd_cols m' =? nd_cols m) rest
      then Ok (mk_ndarray (concat (nd_rows <$> blocks)) (nd_cols m))
      else Raise ValueError
  end.

(** [np.vstack(blocks)] of two-dimensional blocks. *)
Definition vstack {A} (blocks : list (ndarray A)) : result (ndarray A) :=
  concatenate blocks.

(** [t.repeat(r, c)] of a two-dimensional tensor: tiled [r] times down and
    [c] times across. *)
Definition tensor_repeat {B} (r c : nat) (t : ndarray B) : ndarray B :=
  mk_ndarray (concat (replicate r ((λ row, concat (replicate c row)) <$> nd_rows t)))
             (c * nd_cols t).

(** Cuts [l] into consecutive pieces of the given sizes. *)
Fixpoint split_sizes {A} (sizes : list nat) (l : list A) : list (list A) :=
  match sizes with
  | [] => []
  | s :: sizes' => take s l :: split_sizes sizes' (drop s l)
  end.

(** [np.array_split(ary, sections)]: the first [len mod sections] pieces get
    one element more. *)
Definition array_split {A} (ary : list A) (sections : nat) : result (list (list A)) :=
  if decide (sections = 0) then Raise ValueError
  else
    let Neach := length ary / sections in
    let extras := length ary mod sections in
    Ok (split_sizes (replicate extras (Neach + 1) ++ replicate (sections - extras) Neach) ary).

(** [np.array(keys).argsort()] on strings: the positions in ascending order of
    their key, ties in their original order. *)
Fixpoint insert_key (x : nat * string) (l : list (nat * string)) : list (nat * string) :=
  match l with
  | [] => [x]
  | y :: l' => if String.leb x.2 y.2 then x :: l else y :: insert_key x l'
  end.

Definition argsort (keys : list string) : list nat :=
  fst <$> foldr insert_key [] (imap (λ i k, (i, k)) keys).

(** [enumerate(l)]. *)
Definition enumerate {A} (l : list A) : list (nat * A) := imap (λ i x, (i, x)) l.

(** ** Unspecified behaviour of the runtime *)

(** Iterating a Python set visits each element once, in an order the
    language does not fix. *)
Class PySetIter : Type := {
  set_iter : gset Z → list Z;
  set_iter_perm : ∀ X, set_iter X ≡ₚ elements X
}.

(** [numpy.random]: a bit generator seeded by [PCG64], the bounded draws
    behind [Generator.choice] and [Generator.permutation]. *)
Class NumpyRandom : Type := {
  BitGenerator : Type;
  PCG64 : nat → BitGenerator;
  integers : BitGenerator → nat → nat → list nat;
  integers_length : ∀ g high size, length (integers g high size) = size;
  integers_lt : ∀ g high size, 0 < high → Forall (λ i, i < high) (integers g high size);
  permutation : BitGenerator → nat → list nat;
  permutation_perm : ∀ g n, permutation g n ≡ₚ seq 0 n
}.

(** [Generator(bit_generator)]. *)
Definition Generator `{NumpyRandom} (g : BitGenerator) : BitGenerator := g.

(** [sampler.choice(a, size=size)], with replacement: [size] entries of [a]
    at drawn positions; [ValueError] when [a] is empty and [size] is not 0. *)
Definition choice `{NumpyRandom} (sampler : BitGenerator) (a : list nat) (size : nat)
    : result (list nat) :=
  let pop_size := length a in
  if decide (pop_size = 0) then
    if decide (size = 0) then Ok [] else Raise ValueError
  else comprehension (λ i, or_raise IndexError (a !! i)) (integers sampler pop_size size).

(** ** The metadata table [data_summary.csv] *)

Record SummaryRow : Type := mk_row {
  exp : Z;
  target : string;
  cre_line : string;
  session_type : string;
  neurons : string
}.

(** [series.iloc[i]] for a position [i]. *)
Definition iloc {A} (l : list A) (i : nat) : result A :=
  or_raise IndexError (l !! i).

(** ** [ca_movie.py]: [AllenCaMovieDataset] *)

Module AllenCaMovieDataset.
Section pseudo_mice.
Context `{PySetIter} `{NumpyRandom} {A : Type}.

(** The inner function [_convert_to_nums] of [_get_pseudo_mice]. *)
Definition _convert_to_nums (s : string) : result (list Z) :=
  comprehension py_int
    (str_split (str_remove "]" (str_remove "[" (str_remove "010" s)))).

(** The row mask that defines [area_filtered].  The three patterns given to
    [str.contains] have no special character, so that each is a plain
    substring test. *)
Definition area_filter (exp_containers : list Z) (area : string) (r : SummaryRow) : bool :=
  bool_decide (exp r ∈ exp_containers)
  && String.eqb (target r) area
  && negb (str_contains "SSt" (cre_line r))
  && negb (str_contains "Pvalb" (cre_line r))
  && negb (str_contains "Vip" (cre_line r)).

(** [common_neurons] and [indices] of one container, from the column
    [neurons] of its rows. *)
Definition common_neurons (ids1 ids2 ids3 : list Z) : gset Z :=
  list_to_set ids1 ∩ list_to_set ids2 ∩ list_to_set ids3.

Definition session_indices (ids : list Z) (common : gset Z) : result (list nat) :=
  py_sort <$> comprehension (py_index ids) (set_iter common).

Definition container_indices (neurons : list string) : result (list (list nat)) :=
  ids1 ← iloc neurons 0 ≫= _convert_to_nums;
  ids2 ← iloc neurons 1 ≫= _convert_to_nums;
  ids3 ← iloc neurons 2 ≫= _convert_to_nums;
  let common := common_neurons ids1 ids2 ids3 in
  indices1 ← session_indices ids1 common;
  indices2 ← session_indices ids2 common;
  indices3 ← session_indices ids3 common;
  Ok [indices1; indices2; indices3].

(** The body of the loop over containers: the blocks it appends to
    [pseudo_mouse].  [traces] maps a container to the sessions stored under
    [filtered_traces_days_events] in its file. *)
Definition container_blocks (summary : list SummaryRow)
    (traces : gmap Z (list (ndarray A))) (exp_container : Z)
    : result (list (ndarray A)) :=
  let rows := filter (λ r, exp r = exp_container) summary in
  let seq_sessions := argsort (session_type <$> rows) in
  indices ← container_indices (neurons <$> rows);
  mat ← or_raise FileNotFoundError (traces !! exp_container);
  comprehension
    (λ '(n, i), m ← iloc mat n; idx ← iloc indices i; take_rows m idx)
    (enumerate seq_sessions).

Definition _get_pseudo_mice (area : string) (exp_containers : list Z)
    (summary : list SummaryRow) (traces : gmap Z (list (ndarray A)))
    : result (ndarray A) :=
  let area_filtered := filter (λ r, area_filter exp_containers area r) summary in
  pseudo_mouse ←
    comprehension (container_blocks summary traces)
      (set_iter (list_to_set (exp <$> area_filtered)));
  concatenate (concat pseudo_mouse).

(** [neurons_indices] as [__init__] draws it. *)
Definition neurons_indices (seed num_neurons : nat) (pseudo_data : ndarray A)
    : result (list nat) :=
  let sampler := Generator (PCG64 seed) in
  choice sampler (arange (shape0 pseudo_data)) num_neurons.

End pseudo_mice.

(** The attributes of a constructed dataset. *)
Record Dataset (A B : Type) : Type := mk_dataset {
  neural : ndarray A;
  index : ndarray B
}.
Arguments mk_dataset {A B} neural index.
Arguments neural {A B} d.
Arguments index {A B} d.

Section init.
Context `{PySetIter} `{NumpyRandom} {A B : Type}.
Context `{TorchFloat A}.

(** [PCA().fit_transform] of scikit-learn. *)
Variable fit_transform : ndarray A → ndarray A.

Definition _get_index (frame_feature : ndarray B) : ndarray B :=
  tensor_repeat 10 1 frame_feature.

(** [__init__].  The line with its parameters is not in the source file;
    they are the names its body reads.  [frame_feature] is what [torch.load]
    returns for [frame_feature_path] and [load] the [neural] entry of the
    preloaded file, when one is given; what is built from the source is
    converted by [.float()], what is preloaded is stored as it is. *)
Definition __init__ (area : string) (exp_containers : list Z)
    (summary : list SummaryRow) (traces : gmap Z (list (ndarray A)))
    (frame_feature : ndarray B) (num_neurons seed : nat) (pca : bool)
    (load : option (ndarray A)) : result (Dataset A B) :=
  neural ←
    match load with
    | None =>
        pseudo_data ← _get_pseudo_mice area exp_containers summary traces;
        neurons_indices ← neurons_indices seed num_neurons pseudo_data;
        if pca then
          sampled_neural ← take_rows pseudo_data neurons_indices;
          let neural := col_slice 0 32 (fit_transform (transpose sampled_neural)) in
          Ok (from_numpy_float neural)
        else
          sampled ← take_rows pseudo_data neurons_indices;
          let neural := transpose sampled in
          Ok (from_numpy_float neural)
    | Some data => Ok data
    end;
  Ok (mk_dataset neural (_get_index frame_feature)).

(** [__len__]. *)
Definition __len__ (d : Dataset A B) : nat := shape0 (neural d).

(** [continuous_index]. *)
Definition continuous_index (d : Dataset A B) : ndarray B := index d.

(** [input_dimension]. *)
Definition input_dimension (d : Dataset A B) : nat := shape1 (neural d).

End init.
End AllenCaMovieDataset.

(** ** [ca_movie.py]: [AllenCaMoviePreLoadDataset] *)

Module AllenCaMoviePreLoadDataset.
Section init.
Context `{PySetIter} `{NumpyRandom} {A B : Type}.
Context `{TorchFloat A}.
Variable fit_transform : ndarray A → ndarray A.

(** [__init__].  [preload_file] is the [neural] entry of the file at the
    preload path when [os.path.isfile] finds it.  The arguments that the call
    of the parent constructor leaves to their defaults are parameters, the
    defaults not being in the source file. *)
Definition __init__ (num_neurons seed : nat) (preload_file : option (ndarray A))
    (area : string) (exp_containers : list Z) (summary : list SummaryRow)
    (traces : gmap Z (list (ndarray A))) (frame_feature : ndarray B) (pca : bool)
    : result (AllenCaMovieDataset.Dataset A B) :=
  let preload := preload_file in
  AllenCaMovieDataset.__init__ fit_transform area exp_containers summary traces
    frame_feature num_neurons seed pca preload.

End init.
End AllenCaMoviePreLoadDataset.

(** ** [ca_movie_decoding.py]: [AllenCaMoviesDataset] *)

Module AllenCaMoviesDataset.

(** The constructor's arguments that the object keeps. *)
Record Config : Type := mk_config {
  num_neurons : nat;
  seed : nat;
  split_flag : string;
  test_repeat : Z
}.

(** The attributes of a constructed dataset; [movie_len] and
    [neurons_indices] are set only when the data is built from the source. *)
Record Dataset (A B : Type) : Type := mk_dataset {
  config : Config;
  movie_len : option nat;
  neurons_indices : option (list nat);
  neural : ndarray A;
  index : ndarray B
}.
Arguments mk_dataset {A B} config movie_len neurons_indices neural index.
Arguments config {A B} d.
Arguments movie_len {A B} d.
Arguments neurons_indices {A B} d.
Arguments neural {A B} d.
Arguments index {A B} d.

Section dataset.
Context `{PySetIter} `{NumpyRandom} {A B : Type}.
Context `{TorchFloat A}.

Definition _sample_neurons (self : Config) (pseudo_mice : ndarray A)
    : result (list nat) :=
  let sampler := Generator (PCG64 (seed self)) in
  choice sampler (arange (shape0 pseudo_mice)) (num_neurons self).

(** The columns of repeat [j] (counted from 1) in a row. *)
Definition repeat_columns (movie_len : nat) (j : Z) (row : list A) : list A :=
  py_slice ((j - 1) * Z.of_nat movie_len) (j * Z.of_nat movie_len) row.

(** Modelled from the spec: the statements of [_split] that compute [neural]
    in the train branch are not in the source file.  The train block is the
    nine repeat blocks other than the held-out one, in chronological order;
    a held-out repeat outside 1..10 is refused. *)
Definition train_block (test_repeat : Z) (movie_len : nat)
    (neurons_indices : list nat) (pseudo_mice : ndarray A) : result (ndarray A) :=
  if decide (1 ≤ test_repeat ≤ 10)%Z then
    sampled ← take_rows pseudo_mice neurons_indices;
    let kept := filter (λ j, j ≠ test_repeat) (seqZ 1 10) in
    Ok (mk_ndarray
          ((λ row, concat ((λ j, repeat_columns movie_len j row) <$> kept))
             <$> nd_rows sampled)
          (sum_list ((λ j, nd_cols (col_slice ((j - 1) * Z.of_nat movie_len)
                                              (j * Z.of_nat movie_len) sampled))
                       <$> kept)))
  else Raise ValueError.

(** [_split]: the pair of [self.neural] and [self.index] it assigns.  Of the
    test branch the source file has the slice up to the factor
    [self.test_repeat *]; the line that continues it is missing and the
    other factor is taken to be [self.movie_len], as in the lower bound.
    After either branch [self.neural] is the transposed block, converted by
    [torch.from_numpy(neural.T).float()]. *)
Definition _split (self : Config) (movie_len : nat) (neurons_indices : list nat)
    (pseudo_mice : ndarray A) (frame_feature : ndarray B)
    : result (ndarray A * ndarray B) :=
  if String.eqb (split_flag self) "train" then
    neural ← train_block (test_repeat self) movie_len neurons_indices pseudo_mice;
    let index := tensor_repeat 9 1 frame_feature in
    Ok (from_numpy_float (transpose neural), index)
  else if String.eqb (split_flag self) "test" then
    sampled ← take_rows pseudo_mice neurons_indices;
    let neural :=
      col_slice ((test_repeat self - 1) * Z.of_nat movie_len)
                (test_repeat self * Z.of_nat movie_len) sampled in
    let index := tensor_repeat 1 1 frame_feature in
    Ok (from_numpy_float (transpose neural), index)
  else Raise ValueError.

Definition _get_pseudo_mice (area : string) (exp_containers : list Z)
    (summary : list SummaryRow) (traces : gmap Z (list (ndarray A)))
    : result (ndarray A) :=
  AllenCaMovieDataset._get_pseudo_mice area exp_containers summary traces.

(** [__init__].  [frame_feature] is what [_get_video_features] loads and
    [preload] the [neural] entry of the preloaded file, when one is given.
    The line with the condition of the branch on the selector in the preload
    case is not in the source file; its two arms are, and the arm with nine
    repeats is taken for the selector train.  [int(shape[1] / 10)] is the
    quotient of the division by 10 for every column count that a float
    holds exactly. *)
Definition __init__ (self : Config) (cortex : string) (exp_containers : list Z)
    (summary : list SummaryRow) (traces : gmap Z (list (ndarray A)))
    (frame_feature : ndarray B) (preload : option (ndarray A))
    : result (Dataset A B) :=
  match preload with
  | None =>
      pseudo_mice ← _get_pseudo_mice cortex exp_containers summary traces;
      let movie_len := shape1 pseudo_mice / 10 in
      neurons_indices ← _sample_neurons self pseudo_mice;
      '(neural, index) ← _split self movie_len neurons_indices pseudo_mice frame_feature;
      Ok (mk_dataset self (Some movie_len) (Some neurons_indices) neural index)
  | Some data =>
      let index :=
        if String.eqb (split_flag self) "train"
        then tensor_repeat 9 1 frame_feature
        else tensor_repeat 1 1 frame_feature in
      Ok (mk_dataset self None None data index)
  end.

(** [__len__]. *)
Definition __len__ (d : Dataset A B) : nat := shape0 (neural d).

(** [continuous_index]. *)
Definition continuous_index (d : Dataset A B) : ndarray B := index d.

(** [input_dimension]. *)
Definition input_dimension (d : Dataset A B) : nat := shape1 (neural d).

End dataset.
End AllenCaMoviesDataset.

(** ** [ca_movie_decoding.py]: [AllenCaMoviesDisjointDataset] *)

(** What a [.mat] file stores under one key: a grid of session matrices, or
    one array neuron x time x session given by its slices along the last
    axis. *)
Inductive mat_var (A : Type) : Type :=
  | CellGrid (cells : list (list (ndarray A)))
  | Array3 (sessions : list (ndarray A)).
Arguments CellGrid {A} cells.
Arguments Array3 {A} sessions.

Module AllenCaMoviesDisjointDataset.
Section dataset.
Context `{NumpyRandom} {A : Type}.

Definition _sample_neurons (seed num_neurons : nat) (group : Z)
    (pseudo_mice : ndarray A) : result (list nat) :=
  let sampler := Generator (PCG64 seed) in
  let permuted_neurons := permutation sampler (shape0 pseudo_mice) in
  halves ← array_split permuted_neurons 2;
  half ← py_getitem halves group;
  Ok (take num_neurons half).

(** The branch on [num_movie] that sets [mat_key] and [mat_index] is only
    partly in the source file: its result is a parameter. *)
Variable movie_entry : string → result (string * option (Z * Z)).

(** The inner function [_get_neural_data]: an entry of the grid when
    [mat_index] is a pair, the slice 0 along the last axis when it is [None].
    A variable of the other kind is outside what the files hold and is
    given as an error. *)
Definition _get_neural_data (num_movie : string) (mat : gmap string (mat_var A))
    : result (ndarray A) :=
  '(mat_key, mat_index) ← movie_entry num_movie;
  var ← or_raise KeyError (mat !! mat_key);
  match mat_index, var with
  | Some (i, j), CellGrid cells =>
      row ← py_getitem cells i; py_getitem row j
  | None, Array3 sessions => py_getitem sessions 0
  | _, _ => Raise IndexError
  end.

Definition _get_pseudo_mice (area : string) (num_movie : string)
    (list_mice : list (gmap string (mat_var A))) : result (ndarray A) :=
  blocks ← comprehension (_get_neural_data num_movie) list_mice;
  vstack blocks.

End dataset.

(** The attributes of a constructed dataset: those of the parent class and
    [group]. *)
Record Dataset (A B : Type) : Type := mk_dataset {
  base : AllenCaMoviesDataset.Dataset A B;
  group : Z
}.
Arguments mk_dataset {A B} base group.
Arguments base {A B} d.
Arguments group {A B} d.

Section init.
Context `{NumpyRandom} {A B : Type}.
Context `{TorchFloat A}.
Variable movie_entry : string → result (string * option (Z * Z)).

(** [__init__]: always built from the files; [_split] is the parent's. *)
Definition __init__ (num_movie cortex : string) (group : Z)
    (self : AllenCaMoviesDataset.Config)
    (list_mice : list (gmap string (mat_var A))) (frame_feature : ndarray B)
    : result (Dataset A B) :=
  pseudo_mice ← _get_pseudo_mice movie_entry cortex num_movie list_mice;
  let movie_len := shape1 pseudo_mice / 10 in
  neurons_indices ←
    _sample_neurons (AllenCaMoviesDataset.seed self)
      (AllenCaMoviesDataset.num_neurons self) group pseudo_mice;
  '(neural, index) ←
    AllenCaMoviesDataset._split self movie_len neurons_indices pseudo_mice frame_feature;
  Ok (mk_dataset
        (AllenCaMoviesDataset.mk_dataset self (Some movie_len) (Some neurons_indices)
           neural index)
        group).

End init.
End AllenCaMoviesDisjointDataset.

(** ** Executable instances

    One iteration order and one generator, so that the definitions above can
    be run on concrete inputs. *)

(** Sets iterated in the order of [elements]. *)
Definition elements_iter : PySetIter :=
  {| set_iter := elements; set_iter_perm := λ X, reflexivity (elements X) |}.

(** Sets iterated in the opposite order. *)
Definition reverse_iter : PySetIter :=
  {| set_iter := λ X, reverse (elements X);
     set_iter_perm := λ X, reverse_Permutation (elements X) |}.

(** The conversion of a natural number below 2^128 to a 32-bit float: 24
    significant bits are kept, the rest is rounded to the nearest, a tie to
    the even one. *)
Definition round_binary32 (n : Z) : Z :=
  let e := (Z.log2 n - 23)%Z in
  if (e <=? 0)%Z then n
  else
    let q := (n / 2 ^ e)%Z in
    let r := (n mod 2 ^ e)%Z in
    let half := (2 ^ (e - 1))%Z in
    let q' := if (r <? half)%Z then q
              else if (half <? r)%Z then (q + 1)%Z
              else if Z.even q then q else (q + 1)%Z in
    (q' * 2 ^ e)%Z.

#[global] Instance nat_float : TorchFloat nat :=
  λ n, Z.to_nat (round_binary32 (Z.of_nat n)).

(** A linear congruential sequence on [nat]. *)
Definition lcg_step (g : nat) : nat := (g * 75 + 74) mod 4093.

Fixpoint lcg_draws (g high size : nat) : list nat :=
  match size with
  | 0 => []
  | S size' => (lcg_step g mod high) :: lcg_draws (lcg_step g) high size'
  end.

(** [seq 0 n] rotated by an amount drawn from the state. *)
Definition lcg_permutation (g n : nat) : list nat :=
  drop (lcg_step g mod n) (seq 0 n) ++ take (lcg_step g mod n) (seq 0 n).

Lemma lcg_draws_length g high size : length (lcg_draws g high size) = size.
Proof. revert g; induction size as [|size IH]; intros g; simpl; [done|by rewrite IH]. Qed.

Lemma lcg_draws_lt g high size :
  0 < high → Forall (λ i, i < high) (lcg_draws g high size).
Proof.
  intros Hhigh; revert g; induction size as [|size IH]; intros g; simpl.
  - constructor.
  - constructor; [apply Nat.mod_upper_bound; lia | apply IH].
Qed.

Lemma lcg_permutation_perm g n : lcg_permutation g n ≡ₚ seq 0 n.
Proof.
  unfold lcg_permutation.
  rewrite Permutation_app_comm. by rewrite take_drop.
Qed.

Definition lcg_random : NumpyRandom :=
  {| BitGenerator := nat;
     PCG64 := λ seed, seed;
     integers := lcg_draws;
     integers_length := lcg_draws_length;
     integers_lt := lcg_draws_lt;
     permutation := lcg_permutation;
     permutation_perm := lcg_permutation_perm |}.

(** ** Concrete inputs *)

Local Open Scope string_scope.

(** The container of section 8 of the specification: sessions A = [1,2,5,7],
    B = [2,5,7,9] and C = [1,2,5,7,9], listed in the table in the order B, A, C. *)
Definition summary_8 : list SummaryRow :=
  [ mk_row 7 "VISp" "Cux2-CreERT2" "three_session_B" "[2 5 7 9]";
    mk_row 7 "VISp" "Cux2-CreERT2" "three_session_A" "[1 2 5 7]";
    mk_row 7 "VISp" "Cux2-CreERT2" "three_session_C" "[1 2 5 7 9]" ].

(** Traces of two time steps: neuron [i] of session [s] holds [100 s + 10 i]
    and [100 s + 10 i + 1]. *)
Definition session_traces (s n : nat) : ndarray nat :=
  mk_ndarray ((λ i, [100 * s + 10 * i; 100 * s + 10 * i + 1]) <$> seq 0 n) 2.

Definition traces_8 : gmap Z (list (ndarray nat)) :=
  {[ 7%Z := [session_traces 1 4; session_traces 2 4; session_traces 3 5] ]}.

(** The same table with one more container, 9, whose only row is of an
    excluded line. *)
Definition summary_excluded : list SummaryRow :=
  summary_8 ++ [ mk_row 9 "VISp" "Vip-IRES-Cre" "three_session_A" "[1 2]" ].

(** The table of section 8 with a second container, 3, of two neurons
    recorded in every session, and the traces of both. *)
Definition summary_two : list SummaryRow :=
  summary_8 ++
  [ mk_row 3 "VISp" "Cux2-CreERT2" "three_session_A" "[1 2]";
    mk_row 3 "VISp" "Cux2-CreERT2" "three_session_B" "[2 1]";
    mk_row 3 "VISp" "Cux2-CreERT2" "three_session_C" "[1 2]" ].

Definition traces_two : gmap Z (list (ndarray nat)) :=
  <[ 3%Z := [session_traces 4 2; session_traces 5 2; session_traces 6 2] ]> traces_8.

(** A pseudo-mouse of two neurons and 23 time steps, a feature table of two
    frames, and the traces of container 7 over 23 time steps. *)
Definition pseudo_mice_23 : ndarray nat := mk_ndarray [seq 0 23; seq 100 23] 23.

Definition frame_feature_2 : ndarray nat := mk_ndarray [[7]; [8]] 1.

Definition traces_23 : gmap Z (list (ndarray nat)) :=
  {[ 7%Z := (λ s, mk_ndarray ((λ i, seq (1000 * s + 100 * i) 23) <$> seq 0 5) 23)
              <$> [1; 2; 3] ]}.

(** One choice of keys for the branch on [num_movie], with the three
    values of [mat_index] that the source shows. *)
Definition movie_entry_keys (num_movie : string) : result (string * option (Z * Z)) :=
  if String.eqb num_movie "one" then Ok ("united", None)
  else if String.eqb num_movie "two" then Ok ("filtered", Some (2, 1)%Z)
  else if String.eqb num_movie "three" then Ok ("filtered", Some (0, 1)%Z)
  else Raise ValueError.

(** Two files, each with three sessions of the first movie. *)
Definition list_mice_2 : list (gmap string (mat_var nat)) :=
  [ {[ "united" := Array3 [session_traces 1 4; session_traces 2 3; session_traces 3 5] ]};
    {[ "united" := Array3 [session_traces 4 2; session_traces 5 2; session_traces 6 2] ]} ].

Local Close Scope string_scope.

(** ** Notions used in the statements *)

(** Position [i] of the two position lists refers to the same neuron id. *)
Definition same_neuron (ids_a ids_b : list Z) (indices_a indices_b : list nat) : Prop :=
  ∀ i pa pb, indices_a !! i = Some pa → indices_b !! i = Some pb →
             ids_a !! pa = ids_b !! pb.

(** The positions of [ids], counted from [k], at which an id of [common]
    occurs for the first time. *)
Fixpoint first_positions (common : gset Z) (k : nat) (ids : list Z) : list nat :=
  match ids with
  | [] => []
  | x :: ids' =>
      if decide (x ∈ common) then k :: first_positions (common ∖ {[x]}) (S k) ids'
      else first_positions common (S k) ids'
  end.

(** The ids of [common] in the order of their first occurrence in [ids]. *)
Fixpoint first_common (common : gset Z) (ids : list Z) : list Z :=
  match ids with
  | [] => []
  | x :: ids' =>
      if decide (x ∈ common) then x :: first_common (common ∖ {[x]}) ids'
      else first_common common ids'
  end.

(** The common-neuron set of container [c]: the intersection that
    [_get_pseudo_mice] computes from the first three rows of the container. *)
Definition container_common (summary : list SummaryRow) (c : Z) : result (gset Z) :=
  let neurons := neurons <$> filter (λ r, exp r = c) summary in
  ids1 ← iloc neurons 0 ≫= AllenCaMovieDataset._convert_to_nums;
  ids2 ← iloc neurons 1 ≫= AllenCaMovieDataset._convert_to_nums;
  ids3 ← iloc neurons 2 ≫= AllenCaMovieDataset._convert_to_nums;
  Ok (AllenCaMovieDataset.common_neurons ids1 ids2 ids3).

(** The containers that [_get_pseudo_mice] loops over, in the order of the
    loop. *)
Definition included_containers `{PySetIter} (area : string) (exp_containers : list Z)
    (summary : list SummaryRow) : list Z :=
  set_iter (list_to_set
    (exp <$> filter (λ r, AllenCaMovieDataset.area_filter exp_containers area r) summary)).

(** The genetic-line tag of the row contains one of the excluded markers. *)
Definition excluded_line (r : SummaryRow) : bool :=
  str_contains "SSt" (cre_line r)
  || str_contains "Pvalb" (cre_line r)
  || str_contains "Vip" (cre_line r).

(** [ev] is one of the session matrices stored in the file [mat]. *)
Definition stored_session {A} (mat : gmap string (mat_var A)) (ev : ndarray A) : Prop :=
  ∃ key, (∃ cells row, mat !! key = Some (CellGrid cells) ∧ row ∈ cells ∧ ev ∈ row)
         ∨ (∃ sessions, mat !! key = Some (Array3 sessions) ∧ ev ∈ sessions).

(** Every character of the string satisfies [p]. *)
Fixpoint str_all (p : ascii → bool) (s : string) : bool :=
  match s with
  | EmptyString => true
  | String c s' => p c && str_all p s'
  end.

(** A decimal digit. *)
Definition is_digit (c : ascii) : bool :=
  match digit_of c with Some _ => true | None => false end.

(** White space that is not a new line. *)
Definition is_blank (c : ascii) : bool := is_space c && negb (Ascii.eqb c "010").

(** The decimal digits of a number. *)
Definition show_nat (n : nat) : string := NilEmpty.string_of_uint (Nat.to_uint n).

(** A list of ids written as the table holds them: in brackets, every id
    after the white space that is paired with it, and [trail] before the
    closing bracket. *)
Definition show_ids (items : list (string * nat)) (trail : string) : string :=
  String "["
    (String.append
       (foldr (λ '(gap, n) s, String.append gap (String.append (show_nat n) s))
              EmptyString items)
       (String.append trail (String "]" EmptyString))).

(** * Properties *)

(** ** Exceptions and comprehensions *)

Lemma bind_Ok {A B} (m : result A) (f : A → result B) (b : B) :
  m ≫= f = Ok b ↔ ∃ a, m = Ok a ∧ f a = Ok b.
Proof.
  destruct m as [a|e]; simpl; split.
  - eauto.
  - by intros (a' & [= <-] & ?).
  - done.
  - by intros (a' & ? & ?).
Qed.

Lemma fmap_Ok {A B} (m : result A) (f : A → B) (b : B) :
  f <$> m = Ok b ↔ ∃ a, m = Ok a ∧ b = f a.
Proof.
  destruct m as [a|e]; simpl; split.
  - intros [= <-]; eauto.
  - by intros (a' & [= <-] & ->).
  - done.
  - by intros (a' & ? & ?).
Qed.

Lemma comprehension_Ok {A B} (f : A → result B) (l : list A) (k : list B) :
  comprehension f l = Ok k ↔ Forall2 (λ x y, f x = Ok y) l k.
Proof.
  revert k; induction l as [|x l IH]; intros k; simpl.
  - split; [intros [= <-]; constructor | by inversion 1].
  - split.
    + intros (y & Hy & (ys & Hys & [= <-])%bind_Ok)%bind_Ok.
      constructor; [done | by apply IH].
    + inversion 1 as [|? y ? ys Hy Hys]; subst.
      apply IH in Hys. by rewrite Hy, Hys.
Qed.

Lemma comprehension_total {A B} (f : A → result B) (g : A → B) (l : list A) :
  Forall (λ x, f x = Ok (g x)) l → comprehension f l = Ok (g <$> l).
Proof.
  intros Hl. apply comprehension_Ok.
  induction Hl; constructor; done.
Qed.

Lemma comprehension_length {A B} (f : A → result B) (l : list A) (k : list B) :
  comprehension f l = Ok k → length k = length l.
Proof. intros Hk%comprehension_Ok. symmetry. by eapply Forall2_length. Qed.

Lemma comprehension_ext {A B} (f g : A → result B) (l : list A) :
  Forall (λ x, f x = g x) l → comprehension f l = comprehension g l.
Proof. induction 1 as [|x l Hx _ IH]; simpl; [done | by rewrite Hx, IH]. Qed.

(** ** Positions of the common neurons *)

Lemma py_index_elem_of ids x :
  x ∈ ids → ∃ p, py_index ids x = Ok p ∧ ids !! p = Some x.
Proof.
  intros Hx. unfold py_index.
  destruct (list_find (λ y, y = x) ids) as [[p y]|] eqn:Hfind.
  - apply list_find_Some in Hfind as (Hp & -> & _). eauto.
  - apply list_find_None in Hfind.
    rewrite Forall_forall in Hfind. by destruct (Hfind x).
Qed.

Lemma py_index_Ok ids x p :
  py_index ids x = Ok p ↔ ids !! p = Some x ∧ ∀ q, q < p → ids !! q ≠ Some x.
Proof.
  unfold py_index.
  destruct (list_find (λ y, y = x) ids) as [[i y]|] eqn:Hfind.
  - apply list_find_Some in Hfind as (Hi & -> & Hfirst). split.
    + intros [= <-]. split; [done|]. intros q Hq Hqx. by eapply Hfirst.
    + intros [Hp Hmin]. f_equal.
      destruct (Nat.lt_trichotomy i p) as [Hlt|[->|Hlt]]; [|done|].
      * by destruct (Hmin i Hlt).
      * by destruct (Hfirst p x Hp Hlt).
  - apply list_find_None in Hfind. rewrite Forall_forall in Hfind. split; [done|].
    intros [Hp _]. destruct (Hfind x); [by eapply list_elem_of_lookup_2 | done].
Qed.

Lemma elem_of_first_positions (common : gset Z) k ids p :
  p ∈ first_positions common k ids
  ↔ ∃ x, k ≤ p ∧ ids !! (p - k) = Some x ∧ x ∈ common
         ∧ ∀ q, q < p - k → ids !! q ≠ Some x.
Proof.
  revert common k; induction ids as [|y ids IH]; intros common k; simpl.
  - split; [by intros ?%elem_of_nil | by intros (x & _ & ? & _)].
  - assert (∀ common' : gset Z,
              (∀ x, x ∈ common' ↔ x ∈ common ∧ x ≠ y) →
              p ∈ first_positions common' (S k) ids
              ↔ ∃ x, k < p ∧ (y :: ids) !! (p - k) = Some x ∧ x ∈ common
                     ∧ ∀ q, q < p - k → (y :: ids) !! q ≠ Some x) as Htl.
    { intros common' Hcommon'. rewrite IH. split.
      - intros (x & Hp & Hx & [Hc Hy]%Hcommon' & Hfirst). exists x.
        split; [lia|]. split.
        { replace (p - k) with (S (p - S k)) by lia. done. }
        split; [done|]. intros [|q] Hq; simpl; [congruence|].
        apply Hfirst. lia.
      - intros (x & Hp & Hx & Hc & Hfirst). exists x.
        replace (p - k) with (S (p - S k)) in Hx, Hfirst by lia.
        split; [lia|]. split; [done|]. split.
        + apply Hcommon'. split; [done|]. intros ->.
          by apply (Hfirst 0); [lia|].
        + intros q Hq. apply (Hfirst (S q)). lia. }
    destruct (decide (y ∈ common)) as [Hy|Hy].
    + rewrite elem_of_cons, (Htl (common ∖ {[y]}))
        by (intros x; rewrite elem_of_difference, not_elem_of_singleton; done).
      split.
      * intros [->|(x & ? & ? & ? & ?)].
        -- exists y. rewrite Nat.sub_diag. split; [done|]. split; [done|].
           split; [done|]. intros q Hq. lia.
        -- exists x. split; [lia|done].
      * intros (x & Hp & Hx & Hc & Hfirst).
        destruct (decide (p = k)) as [->|]; [by left|right].
        exists x. split; [lia|done].
    + rewrite (Htl common) by (intros x; split; [intros Hx; split; [done|]; by intros ->
                                               | tauto]).
      split.
      * intros (x & ? & ? & ? & ?). exists x. split; [lia|done].
      * intros (x & Hp & Hx & Hc & Hfirst). exists x.
        destruct (decide (p = k)) as [->|]; [|split; [lia|done]].
        rewrite Nat.sub_diag in Hx. simpl in Hx. by simplify_eq.
Qed.

Lemma first_positions_sorted (common : gset Z) k ids :
  Sorted (≤) (first_positions common k ids).
Proof.
  revert common k; induction ids as [|y ids IH]; intros common k; simpl; [constructor|].
  destruct (decide (y ∈ common)); [|done].
  constructor; [done|].
  destruct (first_positions (common ∖ {[y]}) (S k) ids) as [|p l] eqn:Hl; constructor.
  assert (p ∈ first_positions (common ∖ {[y]}) (S k) ids) as Hp by (rewrite Hl; left).
  apply elem_of_first_positions in Hp as (? & ? & _). lia.
Qed.

Lemma first_positions_NoDup (common : gset Z) k ids :
  NoDup (first_positions common k ids).
Proof.
  revert common k; induction ids as [|y ids IH]; intros common k; simpl; [constructor|].
  destruct (decide (y ∈ common)); [|done].
  constructor; [|done].
  intros (? & ? & _)%elem_of_first_positions. lia.
Qed.

(** The ids at the first positions are the common ids in the order of
    their first occurrence. *)
Lemma first_positions_first_common (common : gset Z) k ids :
  Forall2 (λ p x, k ≤ p ∧ ids !! (p - k) = Some x)
          (first_positions common k ids) (first_common common ids).
Proof.
  revert common k; induction ids as [|y ids IH]; intros common k; simpl; [constructor|].
  assert (∀ common' : gset Z,
            Forall2 (λ p x, k ≤ p ∧ (y :: ids) !! (p - k) = Some x)
              (first_positions common' (S k) ids) (first_common common' ids)) as Htl.
  { intros common'. eapply Forall2_impl; [apply IH|]. intros p x [Hp Hx]. split; [lia|].
    replace (p - k) with (S (p - S k)) by lia. done. }
  destruct (decide (y ∈ common)); [|done].
  constructor; [|done]. split; [done|]. by rewrite Nat.sub_diag.
Qed.

Lemma first_positions_lookup (common : gset Z) ids :
  Forall2 (λ p x, ids !! p = Some x)
          (first_positions common 0 ids) (first_common common ids).
Proof.
  eapply Forall2_impl; [apply first_positions_first_common|].
  intros p x [_ Hx]. by rewrite Nat.sub_0_r in Hx.
Qed.

Lemma elem_of_first_common (common : gset Z) ids x :
  x ∈ first_common common ids ↔ x ∈ common ∧ x ∈ ids.
Proof.
  revert common; induction ids as [|y ids IH]; intros common; simpl.
  - rewrite !elem_of_nil. tauto.
  - destruct (decide (y ∈ common)).
    + rewrite !elem_of_cons, IH, elem_of_difference, not_elem_of_singleton.
      destruct (decide (x = y)) as [->|]; tauto.
    + rewrite IH, elem_of_cons. split; [tauto|].
      intros [Hx [->|Hin]]; [done | tauto].
Qed.

Lemma first_common_NoDup (common : gset Z) ids : NoDup (first_common common ids).
Proof.
  revert common; induction ids as [|y ids IH]; intros common; simpl; [constructor|].
  destruct (decide (y ∈ common)); [|done].
  constructor; [|done].
  rewrite elem_of_first_common, elem_of_difference, not_elem_of_singleton. tauto.
Qed.

Lemma length_first_common (common : gset Z) ids :
  (∀ x, x ∈ common → x ∈ ids) → length (first_common common ids) = size common.
Proof.
  intros Hsub. unfold size, set_size. simpl.
  apply Permutation_length, NoDup_Permutation.
  - apply first_common_NoDup.
  - apply NoDup_elements.
  - intros x. rewrite elem_of_first_common, elem_of_elements.
    split; [by intros [? _] | auto].
Qed.

Lemma length_first_positions (common : gset Z) ids :
  (∀ x, x ∈ common → x ∈ ids) → length (first_positions common 0 ids) = size common.
Proof.
  intros Hsub. rewrite <- (length_first_common common ids Hsub).
  eapply Forall2_length, first_positions_lookup.
Qed.

(** Position [i] of two sorted position lists names the same neuron for
    every [i] exactly when the two sessions list the common neurons in the
    same order of first occurrence. *)
Lemma same_neuron_first_common ids_a ids_b (common : gset Z) :
  (∀ x, x ∈ common → x ∈ ids_a) → (∀ x, x ∈ common → x ∈ ids_b) →
  same_neuron ids_a ids_b (first_positions common 0 ids_a)
                          (first_positions common 0 ids_b)
  ↔ first_common common ids_b = first_common common ids_a.
Proof.
  intros Ha Hb.
  pose proof (first_positions_lookup common ids_a) as Hla.
  pose proof (first_positions_lookup common ids_b) as Hlb.
  split.
  - intros Hsame. apply list_eq. intros i.
    destruct (first_common common ids_b !! i) as [y|] eqn:Hy.
    + destruct (Forall2_lookup_r _ _ _ _ _ Hlb Hy) as (pb & Hpb & Hyb).
      assert (i < length (first_common common ids_a)) as Hi.
      { rewrite length_first_common by done.
        rewrite <- (length_first_common common ids_b) by done.
        by eapply lookup_lt_Some. }
      apply lookup_lt_is_Some in Hi as [x Hx].
      destruct (Forall2_lookup_r _ _ _ _ _ Hla Hx) as (pa & Hpa & Hxa).
      specialize (Hsame i pa pb Hpa Hpb). rewrite Hx. congruence.
    + symmetry. apply lookup_ge_None. apply lookup_ge_None in Hy.
      rewrite length_first_common in Hy by done.
      by rewrite length_first_common.
  - intros Heq i pa pb Hpa Hpb.
    destruct (Forall2_lookup_l _ _ _ _ _ Hla Hpa) as (x & Hx & ->).
    destruct (Forall2_lookup_l _ _ _ _ _ Hlb Hpb) as (y & Hy & ->).
    rewrite Heq in Hy. congruence.
Qed.

Section alignment.
Context `{PySetIter}.
Import AllenCaMovieDataset.

Lemma set_iter_NoDup (X : gset Z) : NoDup (set_iter X).
Proof. rewrite set_iter_perm. apply NoDup_elements. Qed.

Lemma elem_of_set_iter (X : gset Z) x : x ∈ set_iter X ↔ x ∈ X.
Proof. rewrite set_iter_perm. apply elem_of_elements. Qed.

Lemma length_set_iter (X : gset Z) : length (set_iter X) = size X.
Proof. by rewrite set_iter_perm. Qed.

(** The sorted position list of a session is the list of the positions
    that hold the first occurrence of a common neuron, in ascending order:
    the order in which the set was iterated has no effect on it. *)
Lemma session_indices_first ids (common : gset Z) :
  (∀ x, x ∈ common → x ∈ ids) →
  session_indices ids common = Ok (first_positions common 0 ids).
Proof.
  intros Hsub. unfold session_indices.
  assert (∃ ps, comprehension (py_index ids) (set_iter common) = Ok ps) as [ps Hps].
  { assert (Forall (λ x, x ∈ ids) (set_iter common)) as Hall.
    { apply Forall_forall. intros x Hx%elem_of_set_iter. auto. }
    induction Hall as [|x l Hx _ [ps Hps]]; simpl.
    - by exists [].
    - destruct (py_index_elem_of ids x Hx) as (p & Hp & _).
      exists (p :: ps). by rewrite Hp, Hps. }
  rewrite Hps. apply comprehension_Ok in Hps as Hlook.
  simpl. f_equal. unfold py_sort.
  apply (Sorted_unique (≤)); [apply _ .. | | |].
  - apply Sorted_merge_sort, _.
  - apply first_positions_sorted.
  - rewrite merge_sort_Permutation.
    apply NoDup_Permutation.
    + apply NoDup_alt. intros i j p Hi Hj.
      destruct (Forall2_lookup_r _ _ _ _ _ Hlook Hi) as (x & Hxi & [Hx _]%py_index_Ok).
      destruct (Forall2_lookup_r _ _ _ _ _ Hlook Hj) as (y & Hyj & [Hy _]%py_index_Ok).
      assert (x = y) as -> by congruence.
      eapply NoDup_lookup; [apply set_iter_NoDup | done..].
    + apply first_positions_NoDup.
    + intros p. rewrite elem_of_first_positions, Nat.sub_0_r. split.
      * intros (i & Hi)%list_elem_of_lookup.
        destruct (Forall2_lookup_r _ _ _ _ _ Hlook Hi)
          as (x & Hxi & [Hx Hfirst]%py_index_Ok).
        exists x. split; [lia|]. split; [done|]. split; [|done].
        apply elem_of_set_iter. by eapply list_elem_of_lookup_2.
      * intros (x & _ & Hx & Hc & Hfirst).
        apply elem_of_set_iter, list_elem_of_lookup in Hc as (i & Hi).
        destruct (Forall2_lookup_l _ _ _ _ _ Hlook Hi) as (q & Hq & Hqx).
        assert (py_index ids x = Ok p) as Hp by (by apply py_index_Ok).
        assert (q = p) as -> by congruence.
        by eapply list_elem_of_lookup_2.
Qed.

(** C1, as amended.  The three position lists of a container hold, in
    ascending order, the positions at which the common neurons occur first
    in their session; each has the length of the common set, and none
    depends on the order in which the set is iterated.  Position [i] of two
    of the lists refers to the same neuron for every [i] exactly when the
    two sessions list the common neurons in the same order of first
    occurrence. *)
Theorem container_indices_same_order (neurons : list string) (ids1 ids2 ids3 : list Z) :
  iloc neurons 0 ≫= _convert_to_nums = Ok ids1 →
  iloc neurons 1 ≫= _convert_to_nums = Ok ids2 →
  iloc neurons 2 ≫= _convert_to_nums = Ok ids3 →
  ∃ indices1 indices2 indices3,
    container_indices neurons = Ok [indices1; indices2; indices3]
    ∧ indices1 = first_positions (common_neurons ids1 ids2 ids3) 0 ids1
    ∧ indices2 = first_positions (common_neurons ids1 ids2 ids3) 0 ids2
    ∧ indices3 = first_positions (common_neurons ids1 ids2 ids3) 0 ids3
    ∧ length indices1 = size (common_neurons ids1 ids2 ids3)
    ∧ length indices2 = size (common_neurons ids1 ids2 ids3)
    ∧ length indices3 = size (common_neurons ids1 ids2 ids3)
    ∧ (same_neuron ids1 ids2 indices1 indices2
       ↔ first_common (common_neurons ids1 ids2 ids3) ids2
         = first_common (common_neurons ids1 ids2 ids3) ids1)
    ∧ (same_neuron ids1 ids3 indices1 indices3
       ↔ first_common (common_neurons ids1 ids2 ids3) ids3
         = first_common (common_neurons ids1 ids2 ids3) ids1)
    ∧ (same_neuron ids2 ids3 indices2 indices3
       ↔ first_common (common_neurons ids1 ids2 ids3) ids3
         = first_common (common_neurons ids1 ids2 ids3) ids2).
Proof.
  intros Hp1 Hp2 Hp3.
  set (common := common_neurons ids1 ids2 ids3) in *.
  assert (∀ x, x ∈ common → x ∈ ids1 ∧ x ∈ ids2 ∧ x ∈ ids3) as Hsub.
  { intros x. unfold common, common_neurons.
    rewrite !elem_of_intersection, !elem_of_list_to_set. tauto. }
  eexists _, _, _. split.
  { unfold container_indices. rewrite Hp1, Hp2, Hp3. simpl.
    fold common.
    rewrite !session_indices_first by apply Hsub.
    simpl. reflexivity. }
  split; [done|]. split; [done|]. split; [done|].
  split; [apply length_first_positions, Hsub|].
  split; [apply length_first_positions, Hsub|].
  split; [apply length_first_positions, Hsub|].
  split; [apply same_neuron_first_common; apply Hsub|].
  split; apply same_neuron_first_common; apply Hsub.
Qed.
End alignment.

(** ** Row count of the pseudo-mouse *)

Lemma insert_key_perm x l : insert_key x l ≡ₚ x :: l.
Proof.
  induction l as [|y l IH]; simpl; [done|].
  destruct (String.leb x.2 y.2); [done|].
  rewrite IH. apply Permutation_swap.
Qed.

Lemma foldr_insert_key_perm l : foldr insert_key [] l ≡ₚ l.
Proof.
  induction l as [|x l IH]; simpl; [done|].
  by rewrite insert_key_perm, IH.
Qed.

Lemma fst_imap_pair {K} (g : nat → nat) (keys : list K) :
  fst <$> imap (λ i k, (g i, k)) keys = g <$> seq 0 (length keys).
Proof.
  revert g; induction keys as [|k keys IH]; intros g; simpl; [done|].
  f_equal. rewrite <- fmap_S_seq, <- list_fmap_compose. apply (IH (g ∘ S)).
Qed.

Lemma argsort_perm keys : argsort keys ≡ₚ seq 0 (length keys).
Proof.
  unfold argsort. rewrite foldr_insert_key_perm.
  rewrite (fst_imap_pair id). by rewrite list_fmap_id.
Qed.

Lemma length_concat_rows {A} (blocks : list (ndarray A)) :
  length (concat (nd_rows <$> blocks)) = sum_list (shape0 <$> blocks).
Proof.
  induction blocks as [|b blocks IH]; [done|].
  rewrite !fmap_cons. cbn [concat sum_list_with].
  by rewrite length_app, IH.
Qed.

Lemma concatenate_rows {A} (blocks : list (ndarray A)) (m : ndarray A) :
  concatenate blocks = Ok m → shape0 m = sum_list (shape0 <$> blocks).
Proof.
  unfold concatenate. destruct blocks as [|b rest]; [done|].
  destruct (forallb _ rest); [|done]. intros [= <-].
  exact (length_concat_rows (b :: rest)).
Qed.

Lemma take_rows_shape0 {A} (m b : ndarray A) idx :
  take_rows m idx = Ok b → shape0 b = length idx.
Proof.
  unfold take_rows. intros (rows & Hrows & [= <-])%bind_Ok.
  unfold shape0; simpl. by eapply comprehension_length.
Qed.

Section row_count.
Context `{PySetIter} {A : Type}.
Import AllenCaMovieDataset.

Lemma session_indices_length ids (common : gset Z) idx :
  session_indices ids common = Ok idx → length idx = size common.
Proof.
  unfold session_indices. intros (ps & Hps & ->)%fmap_Ok.
  unfold py_sort. rewrite merge_sort_Permutation.
  apply comprehension_length in Hps. rewrite Hps. apply length_set_iter.
Qed.

Lemma container_indices_lengths neurons indices :
  container_indices neurons = Ok indices →
  ∃ ids1 ids2 ids3,
    iloc neurons 0 ≫= _convert_to_nums = Ok ids1
    ∧ iloc neurons 1 ≫= _convert_to_nums = Ok ids2
    ∧ iloc neurons 2 ≫= _convert_to_nums = Ok ids3
    ∧ length indices = 3
    ∧ Forall (λ idx, length idx = size (common_neurons ids1 ids2 ids3)) indices.
Proof.
  unfold container_indices.
  intros (ids1 & H1 & (ids2 & H2 & (ids3 & H3 & Hrest)%bind_Ok)%bind_Ok)%bind_Ok.
  apply bind_Ok in Hrest as (i1 & Hi1 & (i2 & Hi2 & (i3 & Hi3 & [= <-])%bind_Ok)%bind_Ok).
  exists ids1, ids2, ids3. repeat split; try done.
  repeat constructor; by eapply session_indices_length.
Qed.

(** The blocks of one container: three of them, each with as many rows as
    the container has common neurons. *)
Lemma container_blocks_rows summary (traces : gmap Z (list (ndarray A))) c blocks :
  container_blocks summary traces c = Ok blocks →
  ∃ X, container_common summary c = Ok X
       ∧ length blocks = 3
       ∧ Forall (λ b, shape0 b = size X) blocks.
Proof.
  unfold container_blocks.
  set (rows := filter (λ r, exp r = c) summary).
  intros (indices & Hind & (mat & Hmat & Hblocks)%bind_Ok)%bind_Ok.
  destruct (container_indices_lengths _ _ Hind)
    as (ids1 & ids2 & ids3 & H1 & H2 & H3 & Hlen & Hall).
  exists (common_neurons ids1 ids2 ids3).
  split; [unfold container_common; fold rows; by rewrite H1, H2, H3|].
  apply comprehension_Ok in Hblocks.
  assert (Forall (λ b, shape0 b = size (common_neurons ids1 ids2 ids3)) blocks) as Hshape.
  { apply Forall_forall. intros b (k & Hk)%list_elem_of_lookup.
    destruct (Forall2_lookup_r _ _ _ _ _ Hblocks Hk) as ([n i] & _ & Hb).
    apply bind_Ok in Hb as (m & _ & (idx & Hidx & Hb)%bind_Ok).
    apply take_rows_shape0 in Hb. rewrite Hb.
    rewrite Forall_forall in Hall. apply Hall.
    unfold iloc in Hidx. destruct (indices !! i) eqn:Hi; [|done].
    simpl in Hidx. simplify_eq. by eapply list_elem_of_lookup_2. }
  split; [|done].
  (* as many blocks as rows, at least three rows, and no position beyond 2 *)
  apply Forall2_length in Hblocks as Hn.
  unfold enumerate in Hn. rewrite length_imap in Hn.
  rewrite <- Hn, (Permutation_length (argsort_perm _)), length_seq, length_fmap.
  assert (3 ≤ length rows) as Hge.
  { apply bind_Ok in H3 as (s3 & Hs3 & _). unfold iloc in Hs3.
    destruct ((neurons <$> rows) !! 2) eqn:Hl; [|done].
    apply lookup_lt_Some in Hl. by rewrite length_fmap in Hl. }
  assert (length rows - 1 ∈ argsort (session_type <$> rows)) as Hin.
  { rewrite argsort_perm, length_fmap. apply elem_of_seq. lia. }
  apply list_elem_of_lookup in Hin as (n & Hn').
  assert (enumerate (argsort (session_type <$> rows)) !! n = Some (n, length rows - 1))
    as Hen.
  { unfold enumerate. rewrite list_lookup_imap, Hn'. done. }
  destruct (Forall2_lookup_l _ _ _ _ _ Hblocks Hen) as (b & _ & Hb).
  apply bind_Ok in Hb as (m & _ & (idx & Hidx & _)%bind_Ok).
  unfold iloc in Hidx. destruct (indices !! (length rows - 1)) eqn:Hi; [|done].
  apply lookup_lt_Some in Hi. lia.
Qed.

(** C2, as amended.  The pseudo-mouse has three rows per common neuron:
    its row count is three times the sum, over the included containers, of
    the size of the container's common-neuron set. *)
Theorem pseudo_mice_row_count area exp_containers summary
    (traces : gmap Z (list (ndarray A))) (pseudo_mouse : ndarray A) :
  _get_pseudo_mice area exp_containers summary traces = Ok pseudo_mouse →
  ∃ commons : list (gset Z),
    Forall2 (λ c X, container_common summary c = Ok X)
            (included_containers area exp_containers summary) commons
    ∧ shape0 pseudo_mouse = 3 * sum_list (size <$> commons).
Proof.
  unfold _get_pseudo_mice, included_containers.
  intros (bss & Hbss & Hcat)%bind_Ok.
  rewrite (concatenate_rows _ _ Hcat). clear Hcat.
  apply comprehension_Ok in Hbss.
  induction Hbss as [|c bs cs bss Hc _ (commons & Hcommons & Hsum)]; simpl.
  - exists []. split; [constructor | done].
  - destruct (container_blocks_rows _ _ _ _ Hc) as (X & HX & Hlen & Hshape).
    exists (X :: commons). split; [by constructor|].
    rewrite fmap_app, sum_list_with_app, Hsum. simpl.
    destruct bs as [|b1 [|b2 [|b3 [|]]]]; simplify_eq/=.
    apply Forall_cons in Hshape as [E1 (E2 & (E3 & _)%Forall_cons)%Forall_cons].
    rewrite E1, E2, E3. lia.
Qed.
End row_count.

(** ** Excluded genetic lines *)

Lemma filter_filter_absorb {T} (P Q : T → Prop)
    `{∀ x, Decision (P x)} `{∀ x, Decision (Q x)} (l : list T) :
  (∀ x, x ∈ l → P x → Q x) → filter P (filter Q l) = filter P l.
Proof.
  induction l as [|x l IH]; intros Himp; [done|].
  assert (filter P (filter Q l) = filter P l) as IH'.
  { apply IH. intros y Hy. apply Himp. by right. }
  rewrite (filter_cons Q), (filter_cons P).
  destruct (decide (Q x)) as [HQ|HQ].
  - rewrite filter_cons. by rewrite IH'.
  - destruct (decide (P x)) as [HP|HP]; [|done].
    destruct HQ. apply Himp; [by left | done].
Qed.

Lemma area_filter_excluded exp_containers area r :
  excluded_line r → ¬ AllenCaMovieDataset.area_filter exp_containers area r.
Proof.
  unfold excluded_line, AllenCaMovieDataset.area_filter.
  destruct (str_contains "SSt" (cre_line r)), (str_contains "Pvalb" (cre_line r)),
    (str_contains "Vip" (cre_line r)); simpl; rewrite ?andb_false_r; tauto.
Qed.

Section exclusion.
Context `{PySetIter} {A : Type}.
Import AllenCaMovieDataset.

Lemma _get_pseudo_mice_loop area exp_containers summary
    (traces : gmap Z (list (ndarray A))) :
  _get_pseudo_mice area exp_containers summary traces
  = (pseudo_mouse ← comprehension (container_blocks summary traces)
                      (included_containers area exp_containers summary);
     concatenate (concat pseudo_mouse)).
Proof. reflexivity. Qed.

Lemma elem_of_included_containers area exp_containers summary c :
  c ∈ included_containers area exp_containers summary
  ↔ ∃ r, r ∈ summary ∧ area_filter exp_containers area r ∧ exp r = c.
Proof.
  unfold included_containers.
  rewrite elem_of_set_iter, elem_of_list_to_set, list_elem_of_fmap.
  split.
  - intros (r & -> & [Hpass Hr]%list_elem_of_filter). eauto.
  - intros (r & Hr & Hpass & <-). exists r. split; [done|].
    by apply list_elem_of_filter.
Qed.

(** C3, as amended.  Exclusion works per container: when every row of
    container [c] carries an excluded marker, [c] is not among the containers
    that are assembled and the result is the one obtained from the table
    without the rows of [c].  When the table has no other row, no block is
    produced at all and the final concatenation raises [ValueError]. *)
Theorem excluded_container_contributes_nothing area exp_containers summary
    (traces : gmap Z (list (ndarray A))) (c : Z) :
  (∀ r, r ∈ summary → exp r = c → excluded_line r) →
  (c ∉ included_containers area exp_containers summary)
  ∧ _get_pseudo_mice area exp_containers summary traces
    = _get_pseudo_mice area exp_containers (filter (λ r, exp r ≠ c) summary) traces
  ∧ ((∀ r, r ∈ summary → exp r = c) →
     _get_pseudo_mice area exp_containers summary traces = Raise ValueError).
Proof.
  intros Hexcl.
  assert (∀ r, r ∈ summary → area_filter exp_containers area r → exp r ≠ c) as Hne.
  { intros r Hr Hpass Hc. by eapply area_filter_excluded; [apply Hexcl|]. }
  assert (c ∉ included_containers area exp_containers summary) as Hnotin.
  { intros (r & Hr & Hpass & Hc)%elem_of_included_containers. by eapply Hne. }
  split; [done|]. split.
  - rewrite !_get_pseudo_mice_loop.
    assert (included_containers area exp_containers (filter (λ r, exp r ≠ c) summary)
            = included_containers area exp_containers summary) as ->.
    { unfold included_containers.
      by rewrite (filter_filter_absorb _ (λ r, exp r ≠ c) summary). }
    erewrite comprehension_ext; [done|].
    apply Forall_forall. intros c' Hc'.
    assert (c' ≠ c) as Hcc by (by intros ->).
    unfold container_blocks.
    rewrite (filter_filter_absorb (λ r, exp r = c') (λ r, exp r ≠ c) summary); [done|].
    by intros r _ ->.
  - intros Hall. rewrite _get_pseudo_mice_loop.
    destruct (included_containers area exp_containers summary) as [|c' l] eqn:Hl;
      [done|].
    destruct Hnotin.
    assert (c' ∈ included_containers area exp_containers summary) as Hc'
      by (rewrite Hl; left).
    apply elem_of_included_containers in Hc' as (r & Hr & _ & <-).
    rewrite (Hall r Hr). left.
Qed.
End exclusion.

(** ** The temporal split *)

Lemma py_slice_bound_nat n i :
  (0 ≤ i)%Z → Z.to_nat i ≤ n → py_slice_bound n i = Z.to_nat i.
Proof.
  intros Hi Hn. unfold py_slice_bound.
  destruct (decide (i < 0)%Z); [lia|]. lia.
Qed.

(** The bounds of repeat [j] are not clamped when the repeat lies within
    the row. *)
Lemma repeat_bounds T L j :
  (1 ≤ j)%Z → Z.to_nat j * L ≤ T →
  py_slice_bound T ((j - 1) * Z.of_nat L) = Z.to_nat (j - 1) * L
  ∧ py_slice_bound T (j * Z.of_nat L) = Z.to_nat j * L.
Proof.
  intros Hj HT.
  assert (Z.to_nat ((j - 1) * Z.of_nat L) = Z.to_nat (j - 1) * L) as E1 by nia.
  assert (Z.to_nat (j * Z.of_nat L) = Z.to_nat j * L) as E2 by nia.
  split.
  - rewrite py_slice_bound_nat; [done | nia | nia].
  - rewrite py_slice_bound_nat; [done | nia | nia].
Qed.

Lemma repeat_width T L j :
  (1 ≤ j)%Z → Z.to_nat j * L ≤ T →
  py_slice_bound T (j * Z.of_nat L) - py_slice_bound T ((j - 1) * Z.of_nat L) = L.
Proof.
  intros Hj HT. destruct (repeat_bounds T L j Hj HT) as [-> ->]. nia.
Qed.

Lemma repeat_columns_block {A} L j (row : list A) :
  (1 ≤ j)%Z → Z.to_nat j * L ≤ length row →
  AllenCaMoviesDataset.repeat_columns L j row
  = take L (drop (Z.to_nat (j - 1) * L) row).
Proof.
  intros Hj HT. unfold AllenCaMoviesDataset.repeat_columns, py_slice.
  destruct (repeat_bounds (length row) L j Hj HT) as [-> ->].
  f_equal. nia.
Qed.

(** Consecutive repeats, concatenated, are one stretch of the row. *)
Lemma concat_blocks {A} L (row : list A) (a n : nat) :
  concat ((λ j, take L (drop (j * L) row)) <$> seq a n)
  = take (n * L) (drop (a * L) row).
Proof.
  revert a; induction n as [|n IH]; intros a; simpl; [done|].
  rewrite IH. rewrite <- (take_take_drop _ L (n * L)).
  rewrite drop_drop. do 3 f_equal. lia.
Qed.

Lemma take_rows_rows {A} (m sampled : ndarray A) idx :
  take_rows m idx = Ok sampled →
  nd_cols sampled = nd_cols m ∧ ∀ row, row ∈ nd_rows sampled → row ∈ nd_rows m.
Proof.
  unfold take_rows. intros (rows & Hrows & [= <-])%bind_Ok. simpl.
  split; [done|]. intros row (k & Hk)%list_elem_of_lookup.
  apply comprehension_Ok in Hrows.
  destruct (Forall2_lookup_r _ _ _ _ _ Hrows Hk) as (i & _ & Hi).
  destruct (nd_rows m !! i) eqn:Hmi; [|done]. simpl in Hi. simplify_eq.
  by eapply list_elem_of_lookup_2.
Qed.

Section split.
Context `{PySetIter} `{NumpyRandom} {A B : Type}.
Context `{TorchFloat A}.
Import AllenCaMoviesDataset.

(** The train block of a row: nine repeats, the held-out one left out. *)
Lemma train_columns_concat L (r : Z) (row : list A) :
  (1 ≤ r ≤ 10)%Z → 10 * L ≤ length row →
  concat ((λ j, repeat_columns L j row) <$> filter (λ j, j ≠ r) (seqZ 1 10))
  = take (Z.to_nat (r - 1) * L) row
    ++ take ((10 - Z.to_nat r) * L) (drop (Z.to_nat r * L) row).
Proof.
  intros Hr Hlen.
  assert (take (Z.to_nat (r - 1) * L) row
          = concat ((λ j, take L (drop (j * L) row)) <$> seq 0 (Z.to_nat (r - 1))))
    as -> by (by rewrite concat_blocks).
  rewrite <- (concat_blocks L row (Z.to_nat r) (10 - Z.to_nat r)).
  assert (r = 1 ∨ r = 2 ∨ r = 3 ∨ r = 4 ∨ r = 5 ∨ r = 6 ∨ r = 7 ∨ r = 8
          ∨ r = 9 ∨ r = 10)%Z as Hcases by lia.
  assert (∀ j, (1 ≤ j ≤ 10)%Z →
               repeat_columns L j row = take L (drop (Z.to_nat (j - 1) * L) row))
    as Hblock.
  { intros j Hj. apply repeat_columns_block; [lia | nia]. }
  repeat (destruct Hcases as [-> | Hcases]); try subst r;
    (set (kept := filter _ (seqZ 1 10)); vm_compute in kept; subst kept;
     cbn [fmap list_fmap concat];
     rewrite !Hblock by lia;
     repeat match goal with
       | |- context [Z.to_nat ?z] =>
           let v := eval vm_compute in (Z.to_nat z) in change (Z.to_nat z) with v
       end;
     cbn [Nat.sub seq fmap list_fmap concat];
     rewrite ?app_nil_r, <- ?app_assoc; reflexivity).
Qed.

Lemma sum_repeat_widths T L (kept : list Z) :
  10 * L ≤ T → Forall (λ j, (1 ≤ j ≤ 10)%Z) kept →
  sum_list ((λ j, py_slice_bound T (j * Z.of_nat L)
                  - py_slice_bound T ((j - 1) * Z.of_nat L)) <$> kept)
  = length kept * L.
Proof.
  intros HT. induction 1 as [|j kept Hj _ IH]; [done|].
  rewrite fmap_cons. cbn [sum_list_with length]. rewrite IH.
  unfold id. rewrite repeat_width by (lia || nia). lia.
Qed.

Lemma train_width T L (r : Z) :
  (1 ≤ r ≤ 10)%Z → 10 * L ≤ T →
  sum_list ((λ j, py_slice_bound T (j * Z.of_nat L)
                  - py_slice_bound T ((j - 1) * Z.of_nat L))
              <$> filter (λ j, j ≠ r) (seqZ 1 10))
  = 9 * L.
Proof.
  intros Hr HT. rewrite sum_repeat_widths; [|done|].
  - f_equal.
    assert (r = 1 ∨ r = 2 ∨ r = 3 ∨ r = 4 ∨ r = 5 ∨ r = 6 ∨ r = 7 ∨ r = 8
            ∨ r = 9 ∨ r = 10)%Z as Hcases by lia.
    repeat (destruct Hcases as [-> | Hcases]); try subst r; reflexivity.
  - apply Forall_forall. intros j [_ Hj%elem_of_seqZ]%list_elem_of_filter. lia.
Qed.
Lemma sampled_row_length (pseudo_mice sampled : ndarray A) idx row :
  nd_wf pseudo_mice → take_rows pseudo_mice idx = Ok sampled →
  row ∈ nd_rows sampled → length row = shape1 pseudo_mice.
Proof.
  intros Hwf [_ Hrows]%take_rows_rows Hrow.
  unfold nd_wf in Hwf. rewrite Forall_forall in Hwf. by apply Hwf, Hrows.
Qed.

Lemma tensor_repeat_shape0 (r c : nat) (t : ndarray B) :
  shape0 (tensor_repeat r c t) = r * shape0 t.
Proof.
  unfold shape0, tensor_repeat. simpl.
  induction r as [|r IH]; simpl; [done|].
  by rewrite length_app, IH, length_fmap.
Qed.

Lemma transpose_shape0 (m : ndarray A) : shape0 (transpose m) = nd_cols m.
Proof. unfold shape0, transpose. simpl. by rewrite length_fmap, length_seq. Qed.

Lemma from_numpy_float_shape0 (m : ndarray A) : shape0 (from_numpy_float m) = shape0 m.
Proof. unfold shape0, from_numpy_float. simpl. by rewrite length_fmap. Qed.

Lemma from_numpy_float_shape1 (m : ndarray A) : shape1 (from_numpy_float m) = shape1 m.
Proof. done. Qed.

(** [_split] succeeds only for the two selectors, and then the sampled
    rows exist. *)
Lemma _split_Ok (self : Config) (pseudo_mice neural : ndarray A)
    (frame_feature index : ndarray B) (neurons_indices : list nat) L :
  _split self L neurons_indices pseudo_mice frame_feature = Ok (neural, index) →
  (split_flag self = "train"%string ∨ split_flag self = "test"%string)
  ∧ ∃ sampled, take_rows pseudo_mice neurons_indices = Ok sampled.
Proof.
  unfold _split.
  destruct (String.eqb (split_flag self) "train") eqn:Htrain.
  - apply String.eqb_eq in Htrain.
    intros (block & Hblock & _)%bind_Ok. split; [by left|].
    unfold train_block in Hblock.
    destruct (decide (1 ≤ test_repeat self ≤ 10)%Z); [|done].
    apply bind_Ok in Hblock as (sampled & Htake & _). eauto.
  - destruct (String.eqb (split_flag self) "test") eqn:Htest; [|done].
    apply String.eqb_eq in Htest.
    intros (sampled & Htake & _)%bind_Ok. split; [by right | eauto].
Qed.

(** The blocks that [_split] cuts, for a repeat length that fits ten times
    into the columns. *)
Lemma _split_blocks (self : Config) (pseudo_mice sampled : ndarray A)
    (frame_feature : ndarray B) (neurons_indices : list nat) (L : nat) :
  nd_wf pseudo_mice →
  (1 ≤ test_repeat self ≤ 10)%Z →
  10 * L ≤ shape1 pseudo_mice →
  take_rows pseudo_mice neurons_indices = Ok sampled →
  let r := Z.to_nat (test_repeat self) in
  (split_flag self = "test"%string →
   _split self L neurons_indices pseudo_mice frame_feature
   = Ok (from_numpy_float
           (transpose (mk_ndarray
              ((λ row, take L (drop ((r - 1) * L) row)) <$> nd_rows sampled) L)),
         tensor_repeat 1 1 frame_feature))
  ∧ (split_flag self = "train"%string →
     _split self L neurons_indices pseudo_mice frame_feature
     = Ok (from_numpy_float
             (transpose (mk_ndarray
                ((λ row, take ((r - 1) * L) row
                         ++ take ((10 - r) * L) (drop (r * L) row))
                   <$> nd_rows sampled) (9 * L))),
           tensor_repeat 9 1 frame_feature)).
Proof.
  intros Hwf Hr HT Htake r.
  assert (∀ row, row ∈ nd_rows sampled → length row = shape1 pseudo_mice) as Hlen.
  { intros row Hrow. by eapply sampled_row_length. }
  assert (nd_cols sampled = shape1 pseudo_mice) as Hcols
    by (by apply take_rows_rows in Htake as [-> _]).
  assert (r - 1 = Z.to_nat (test_repeat self - 1)) as Hr1 by lia.
  split.
  - intros Hflag. unfold _split. rewrite Hflag. simpl. rewrite Htake. simpl.
    do 4 f_equal. unfold col_slice. f_equal.
    + apply list_fmap_ext. intros i row Hrow%list_elem_of_lookup_2.
      change (py_slice _ _ row) with (repeat_columns L (test_repeat self) row).
      rewrite Hr1.
      apply repeat_columns_block; [lia|]. rewrite (Hlen row Hrow). nia.
    + rewrite Hcols. apply repeat_width; [lia | nia].
  - intros Hflag. unfold _split. rewrite Hflag. simpl. unfold train_block.
    destruct (decide (1 ≤ test_repeat self ≤ 10)%Z); [|done].
    rewrite Htake. simpl. do 4 f_equal. f_equal.
    + apply list_fmap_ext. intros i row Hrow%list_elem_of_lookup_2.
      rewrite Hr1.
      apply train_columns_concat; [done|]. by rewrite (Hlen row Hrow).
    + rewrite Hcols. by apply train_width.
Qed.

(** C4.  A dataset built from the source over a matrix of [T] columns, with
    the held-out repeat [r] between 1 and 10, records the repeat length
    [T / 10]; its neural block is, transposed and converted, the stretch of
    columns from [(r-1) * repeat_len] up to [r * repeat_len] of every sampled
    row for the selector test, and for the selector train the columns before
    that stretch followed by the columns of the later repeats up to
    [10 * repeat_len], so that the remainder is dropped.  For [T = 1000] and
    [r = 10] the test block is the columns from 900 on and the train block
    the columns before 900. *)
Theorem split_repeat_blocks (self : Config) (cortex : string)
    (exp_containers : list Z) (summary : list SummaryRow)
    (traces : gmap Z (list (ndarray A))) (frame_feature : ndarray B)
    (d : Dataset A B) (pseudo_mice : ndarray A) :
  __init__ self cortex exp_containers summary traces frame_feature None = Ok d →
  _get_pseudo_mice cortex exp_containers summary traces = Ok pseudo_mice →
  nd_wf pseudo_mice →
  (1 ≤ test_repeat self ≤ 10)%Z →
  let T := shape1 pseudo_mice in
  let repeat_len := T / 10 in
  let r := Z.to_nat (test_repeat self) in
  let test_columns (row : list A) := take repeat_len (drop ((r - 1) * repeat_len) row) in
  let train_columns (row : list A) :=
    take ((r - 1) * repeat_len) row
    ++ take ((10 - r) * repeat_len) (drop (r * repeat_len) row) in
  ∃ (sampled_indices : list nat) (sampled : ndarray A),
    movie_len d = Some repeat_len
    ∧ neurons_indices d = Some sampled_indices
    ∧ take_rows pseudo_mice sampled_indices = Ok sampled
    ∧ (split_flag self = "test"%string →
       neural d
       = from_numpy_float
           (transpose (mk_ndarray (test_columns <$> nd_rows sampled) repeat_len)))
    ∧ (split_flag self = "train"%string →
       neural d
       = from_numpy_float
           (transpose (mk_ndarray (train_columns <$> nd_rows sampled) (9 * repeat_len))))
    ∧ (T = 1000 → test_repeat self = 10%Z →
       repeat_len = 100
       ∧ ∀ row, row ∈ nd_rows sampled →
           test_columns row = drop 900 row ∧ train_columns row = take 900 row).
Proof.
  intros Hinit Hpm Hwf Hr T repeat_len r test_columns train_columns.
  unfold __init__ in Hinit.
  apply bind_Ok in Hinit
    as (pm & Hpm' & (idx & Hidx & ([n i] & Hsplit & [= <-])%bind_Ok)%bind_Ok).
  assert (pm = pseudo_mice) as -> by congruence.
  fold T in Hsplit. fold repeat_len in Hsplit.
  assert (10 * repeat_len ≤ T) as HT.
  { unfold repeat_len. pose proof (Nat.div_mod_eq T 10). lia. }
  destruct (_split_Ok _ _ _ _ _ _ _ Hsplit) as [_ [sampled Htake]].
  destruct (_split_blocks self pseudo_mice sampled frame_feature idx repeat_len
              Hwf Hr HT Htake) as [Htest Htrain].
  exists idx, sampled. cbn [movie_len neurons_indices neural].
  split; [done|]. split; [done|]. split; [done|].
  split; [|split].
  - intros Hflag. rewrite (Htest Hflag) in Hsplit. by injection Hsplit as <- _.
  - intros Hflag. rewrite (Htrain Hflag) in Hsplit. by injection Hsplit as <- _.
  - intros HT1000 Hr10.
    assert (repeat_len = 100) as HL by (unfold repeat_len; by rewrite HT1000).
    split; [done|]. intros row Hrow.
    assert (length row = 1000) as Hrowlen.
    { rewrite (sampled_row_length _ _ _ _ Hwf Htake Hrow). done. }
    unfold test_columns, train_columns, r. rewrite HL, Hr10.
    change (Z.to_nat 10) with 10. change ((10 - 1) * 100) with 900.
    change ((10 - 10) * 100) with 0. split.
    + apply take_ge. rewrite length_drop. lia.
    + rewrite take_0. apply app_nil_r.
Qed.

(** What [_split] returns, as row counts: the label rows are the rows of
    the feature table repeated 9 times or once; the neural rows are 9
    repeat lengths for the selector train and, for the selector test, the
    columns that lie in the slice. *)
Lemma _split_shapes (self : Config) (pseudo_mice neural : ndarray A)
    (frame_feature index : ndarray B) (neurons_indices : list nat) L :
  10 * L ≤ shape1 pseudo_mice →
  _split self L neurons_indices pseudo_mice frame_feature = Ok (neural, index) →
  (split_flag self = "train"%string
   ∧ shape0 index = 9 * shape0 frame_feature ∧ shape0 neural = 9 * L)
  ∨ (split_flag self = "test"%string
     ∧ shape0 index = 1 * shape0 frame_feature
     ∧ shape0 neural
       = py_slice_bound (shape1 pseudo_mice) (test_repeat self * Z.of_nat L)
         - py_slice_bound (shape1 pseudo_mice) ((test_repeat self - 1) * Z.of_nat L)).
Proof.
  intros HT. unfold _split.
  destruct (String.eqb (split_flag self) "train") eqn:Htrain.
  - apply String.eqb_eq in Htrain.
    intros (block & Hblock & [= <- <-])%bind_Ok. left.
    split; [done|]. split; [apply tensor_repeat_shape0|].
    rewrite from_numpy_float_shape0, transpose_shape0. unfold train_block in Hblock.
    destruct (decide (1 ≤ test_repeat self ≤ 10)%Z); [|done].
    apply bind_Ok in Hblock as (sampled & Htake & [= <-]). simpl.
    apply take_rows_rows in Htake as [-> _]. by apply train_width.
  - destruct (String.eqb (split_flag self) "test") eqn:Htest; [|done].
    apply String.eqb_eq in Htest.
    intros (sampled & Htake & [= <- <-])%bind_Ok. right.
    split; [done|]. split; [apply tensor_repeat_shape0|].
    rewrite from_numpy_float_shape0, transpose_shape0. simpl.
    by apply take_rows_rows in Htake as [-> _].
Qed.

(** C5, as amended.  The label tensor of a constructed dataset has 9 F rows
    for the selector train and F rows otherwise, F being the row count of the
    feature table.  A preloaded neural array is stored with the rows it has.
    Built from the source, the neural block has [9 * repeat_len] rows for the
    selector train and, for the selector test, as many rows as columns lie in
    the slice of the held-out repeat, which is [repeat_len] when the repeat
    is between 1 and 10.  Hence, when the feature table has [repeat_len]
    rows and the held-out repeat of a test split is between 1 and 10, the
    labels have [9 * repeat_len] or [1 * repeat_len] rows and as many rows as
    the neural block. *)
Theorem label_rows_match_neural_rows (self : Config) (cortex : string)
    (exp_containers : list Z) (summary : list SummaryRow)
    (traces : gmap Z (list (ndarray A))) (frame_feature : ndarray B)
    (preload : option (ndarray A)) (d : Dataset A B) :
  __init__ self cortex exp_containers summary traces frame_feature preload = Ok d →
  shape0 (continuous_index d)
  = (if String.eqb (split_flag self) "train" then 9 else 1) * shape0 frame_feature
  ∧ (∀ data, preload = Some data → __len__ d = shape0 data)
  ∧ (preload = None →
     ∃ (pseudo_mice : ndarray A) (repeat_len : nat),
       _get_pseudo_mice cortex exp_containers summary traces = Ok pseudo_mice
       ∧ repeat_len = shape1 pseudo_mice / 10
       ∧ movie_len d = Some repeat_len
       ∧ (split_flag self = "train"%string ∨ split_flag self = "test"%string)
       ∧ (split_flag self = "train"%string → __len__ d = 9 * repeat_len)
       ∧ (split_flag self = "test"%string →
          __len__ d
          = py_slice_bound (shape1 pseudo_mice) (test_repeat self * Z.of_nat repeat_len)
            - py_slice_bound (shape1 pseudo_mice)
                ((test_repeat self - 1) * Z.of_nat repeat_len))
       ∧ (split_flag self = "test"%string → (1 ≤ test_repeat self ≤ 10)%Z →
          __len__ d = 1 * repeat_len)
       ∧ (shape0 frame_feature = repeat_len →
          (split_flag self = "test"%string → (1 ≤ test_repeat self ≤ 10)%Z) →
          (split_flag self = "train"%string →
           shape0 (continuous_index d) = 9 * repeat_len
           ∧ shape0 (continuous_index d) = __len__ d)
          ∧ (split_flag self = "test"%string →
             shape0 (continuous_index d) = 1 * repeat_len
             ∧ shape0 (continuous_index d) = __len__ d))).
Proof.
  intros Hinit. unfold __init__ in Hinit.
  destruct preload as [data|].
  - injection Hinit as <-. unfold continuous_index, __len__. cbn [index neural].
    split; [|split; [|done]].
    + destruct (String.eqb (split_flag self) "train"); apply tensor_repeat_shape0.
    + by intros data' [= <-].
  - apply bind_Ok in Hinit
      as (pm & Hpm & (idx & Hidx & ([n i] & Hsplit & [= <-])%bind_Ok)%bind_Ok).
    unfold continuous_index, __len__. cbn [index neural movie_len].
    assert (10 * (shape1 pm / 10) ≤ shape1 pm) as HT.
    { pose proof (Nat.div_mod_eq (shape1 pm) 10). lia. }
    destruct (_split_shapes _ _ _ _ _ _ _ HT Hsplit)
      as [(Hflag & Hi & Hn) | (Hflag & Hi & Hn)]; rewrite Hflag, Hi.
    + split; [done|]. split; [done|]. intros _. exists pm, (shape1 pm / 10).
      split; [done|]. split; [done|]. split; [done|]. split; [by left|].
      split; [done|]. split; [by intros [=]|]. split; [by intros [=]|].
      intros HF _. split; [|by intros [=]]. intros _. rewrite HF, Hn. done.
    + split; [done|]. split; [done|]. intros _. exists pm, (shape1 pm / 10).
      split; [done|]. split; [done|]. split; [done|]. split; [by right|].
      split; [by intros [=]|]. split; [done|].
      assert ((1 ≤ test_repeat self ≤ 10)%Z → shape0 n = 1 * (shape1 pm / 10)) as Hfull.
      { intros Hr. rewrite Hn, repeat_width; [lia | lia | nia]. }
      split; [by intros _|].
      intros HF Hr. split; [by intros [=]|]. intros Htest.
      rewrite HF, (Hfull (Hr Htest)). done.
Qed.
End split.

(** ** Seeded sampling *)

Section sampling.
Context `{NumpyRandom}.

Lemma choice_arange (sampler : BitGenerator) (n size : nat) :
  choice sampler (arange n) size
  = if decide (n = 0) then (if decide (size = 0) then Ok [] else Raise ValueError)
    else Ok (integers sampler n size).
Proof.
  unfold choice, arange. rewrite length_seq.
  destruct (decide (n = 0)) as [|Hn]; [done|].
  rewrite (comprehension_total _ id).
  - by rewrite list_fmap_id.
  - eapply Forall_impl; [apply (integers_lt sampler n size); lia|].
    intros i Hi. simpl. by rewrite lookup_seq_lt.
Qed.

(** C6.  The sample drawn by the with-replacement choice is a function of
    the seed, the number of rows and the sample size alone: two
    constructions that agree on these three draw the same index sequence,
    whatever the other arguments, the entries of the matrix and the call
    site; over a non-empty population the sequence is returned, and it is
    the one the generator seeded afresh draws. *)
Theorem with_replacement_choice_deterministic {A A' : Type}
    (self self' : AllenCaMoviesDataset.Config)
    (pseudo_mice : ndarray A) (pseudo_mice' : ndarray A') :
  AllenCaMoviesDataset.seed self = AllenCaMoviesDataset.seed self' →
  AllenCaMoviesDataset.num_neurons self = AllenCaMoviesDataset.num_neurons self' →
  shape0 pseudo_mice = shape0 pseudo_mice' →
  AllenCaMoviesDataset._sample_neurons self pseudo_mice
  = AllenCaMoviesDataset._sample_neurons self' pseudo_mice'
  ∧ AllenCaMovieDataset.neurons_indices
      (AllenCaMoviesDataset.seed self) (AllenCaMoviesDataset.num_neurons self) pseudo_mice
    = AllenCaMovieDataset.neurons_indices
        (AllenCaMoviesDataset.seed self') (AllenCaMoviesDataset.num_neurons self')
        pseudo_mice'
  ∧ AllenCaMovieDataset.neurons_indices
      (AllenCaMoviesDataset.seed self) (AllenCaMoviesDataset.num_neurons self) pseudo_mice
    = AllenCaMoviesDataset._sample_neurons self pseudo_mice
  ∧ (0 < shape0 pseudo_mice →
     AllenCaMoviesDataset._sample_neurons self pseudo_mice
     = Ok (integers (PCG64 (AllenCaMoviesDataset.seed self)) (shape0 pseudo_mice)
             (AllenCaMoviesDataset.num_neurons self))).
Proof.
  intros Hseed Hk HN.
  unfold AllenCaMoviesDataset._sample_neurons, AllenCaMovieDataset.neurons_indices.
  rewrite Hseed, Hk, HN. repeat split.
  intros Hpos. rewrite choice_arange.
  destruct (decide (shape0 pseudo_mice' = 0)); [lia | done].
Qed.

(** The two halves that [np.array_split] cuts. *)
Lemma array_split_2 {T} (ary : list T) :
  ∃ s1 s2, array_split ary 2 = Ok [take s1 ary; take s2 (drop s1 ary)].
Proof.
  unfold array_split. destruct (decide (2 = 0)); [done|].
  pose proof (Nat.mod_upper_bound (length ary) 2).
  destruct (length ary mod 2) as [|[|e]]; [| |lia]; simpl; eauto.
Qed.

(** C7.  For every seed, population and sample size, the two groups of the
    disjoint permutation split are drawn without error, have no index in
    common and no index twice, hold at most [num_neurons] indices each, and
    together at most as many as there are rows. *)
Theorem disjoint_split_groups {A : Type} (seed num_neurons : nat)
    (pseudo_mice : ndarray A) :
  ∃ group0 group1 : list nat,
    AllenCaMoviesDisjointDataset._sample_neurons seed num_neurons 0 pseudo_mice
      = Ok group0
    ∧ AllenCaMoviesDisjointDataset._sample_neurons seed num_neurons 1 pseudo_mice
      = Ok group1
    ∧ (∀ i, i ∈ group0 → i ∉ group1)
    ∧ NoDup group0 ∧ NoDup group1
    ∧ length group0 ≤ num_neurons ∧ length group1 ≤ num_neurons
    ∧ size (list_to_set group0 ∪ list_to_set group1 : gset nat) ≤ shape0 pseudo_mice
    ∧ (∀ i, i ∈ group0 ++ group1 → i < shape0 pseudo_mice).
Proof.
  unfold AllenCaMoviesDisjointDataset._sample_neurons.
  set (p := permutation (Generator (PCG64 seed)) (shape0 pseudo_mice)).
  assert (p ≡ₚ seq 0 (shape0 pseudo_mice)) as Hperm by apply permutation_perm.
  assert (NoDup p) as Hnd by (rewrite Hperm; apply NoDup_seq).
  destruct (array_split_2 p) as (s1 & s2 & ->). simpl.
  exists (take num_neurons (take s1 p)), (take num_neurons (take s2 (drop s1 p))).
  assert (take num_neurons (take s1 p) ++ take num_neurons (take s2 (drop s1 p))
          `sublist_of` p) as Hsub.
  { rewrite <- (take_drop s1 p) at 3. apply sublist_app.
    - apply sublist_take.
    - etrans; [apply sublist_take|]. apply sublist_take. }
  assert (NoDup (take num_neurons (take s1 p)
                 ++ take num_neurons (take s2 (drop s1 p)))) as Hnd2.
  { by eapply sublist_NoDup. }
  apply NoDup_app in Hnd2 as (Hnd0 & Hdisj & Hnd1).
  repeat split; try done.
  - rewrite length_take. lia.
  - rewrite length_take. lia.
  - rewrite <- list_to_set_app_L, size_list_to_set.
    + apply sublist_length in Hsub. rewrite Hsub, Hperm. by rewrite length_seq.
    + by apply NoDup_app.
  - intros i Hi. eapply elem_of_sublist in Hi; [|done].
    rewrite Hperm in Hi. apply elem_of_seq in Hi. lia.
Qed.
End sampling.

Section oversized.
Context `{NumpyRandom} {A : Type}.

(** C8, as amended.  A sample size above the population is not refused.
    The with-replacement choice of more indices than there are rows returns
    [num_neurons] indices below the number of rows, necessarily with
    repeats, and raises [ValueError] only when there is no row; the disjoint
    split asked for more indices than the chosen half holds returns the
    whole half, whether or not the request exceeds the number of rows. *)
Theorem oversized_sample_is_drawn (self : AllenCaMoviesDataset.Config)
    (pseudo_mice : ndarray A) (group : Z) (halves : list (list nat)) (half : list nat) :
  array_split
    (permutation (Generator (PCG64 (AllenCaMoviesDataset.seed self))) (shape0 pseudo_mice))
    2 = Ok halves →
  py_getitem halves group = Ok half →
  (shape0 pseudo_mice < AllenCaMoviesDataset.num_neurons self →
   0 < shape0 pseudo_mice →
   ∃ neurons_indices,
     AllenCaMoviesDataset._sample_neurons self pseudo_mice = Ok neurons_indices
     ∧ length neurons_indices = AllenCaMoviesDataset.num_neurons self
     ∧ Forall (λ i, i < shape0 pseudo_mice) neurons_indices
     ∧ ¬ NoDup neurons_indices)
  ∧ (shape0 pseudo_mice < AllenCaMoviesDataset.num_neurons self →
     shape0 pseudo_mice = 0 →
     AllenCaMoviesDataset._sample_neurons self pseudo_mice = Raise ValueError)
  ∧ (length half < AllenCaMoviesDataset.num_neurons self →
     AllenCaMoviesDisjointDataset._sample_neurons
       (AllenCaMoviesDataset.seed self) (AllenCaMoviesDataset.num_neurons self)
       group pseudo_mice = Ok half
     ∧ length half ≤ shape0 pseudo_mice).
Proof.
  intros Hsplit Hhalf.
  unfold AllenCaMoviesDataset._sample_neurons. rewrite choice_arange.
  assert (length half ≤ shape0 pseudo_mice) as Hhalflen.
  { destruct (array_split_2 (permutation
      (Generator (PCG64 (AllenCaMoviesDataset.seed self))) (shape0 pseudo_mice)))
      as (s1 & s2 & Hs). rewrite Hs in Hsplit. injection Hsplit as <-.
    assert (∀ h, h ∈ [take s1 (permutation (Generator (PCG64 (AllenCaMoviesDataset.seed self)))
                                (shape0 pseudo_mice));
                      take s2 (drop s1 (permutation
                                (Generator (PCG64 (AllenCaMoviesDataset.seed self)))
                                (shape0 pseudo_mice)))] →
                 length h ≤ shape0 pseudo_mice) as Hall.
    { intros h Hh.
      trans (length (permutation (Generator (PCG64 (AllenCaMoviesDataset.seed self)))
                       (shape0 pseudo_mice)));
        [|by rewrite permutation_perm, length_seq].
      apply sublist_length.
      apply elem_of_cons in Hh as [->|Hh]; [apply sublist_take|].
      apply list_elem_of_singleton in Hh as ->.
      etrans; [apply sublist_take | apply sublist_drop]. }
    apply Hall. unfold py_getitem in Hhalf.
    destruct (py_norm_index _ group) as [n|]; [|done]. simpl in Hhalf.
    destruct (_ !! n) eqn:Hn; [|done]. simpl in Hhalf. simplify_eq.
    by eapply list_elem_of_lookup_2. }
  split; [|split].
  - intros Hk HN. destruct (decide (shape0 pseudo_mice = 0)); [lia|].
    eexists. split; [done|]. split; [apply integers_length|].
    split; [by apply integers_lt|].
    intros Hnd.
    assert (integers (Generator (PCG64 (AllenCaMoviesDataset.seed self)))
              (shape0 pseudo_mice) (AllenCaMoviesDataset.num_neurons self)
            ⊆+ seq 0 (shape0 pseudo_mice)) as Hsub.
    { apply NoDup_submseteq; [done|]. intros i Hi. apply elem_of_seq.
      pose proof (integers_lt (Generator (PCG64 (AllenCaMoviesDataset.seed self)))
                    (shape0 pseudo_mice) (AllenCaMoviesDataset.num_neurons self) HN) as Hlt.
      rewrite Forall_forall in Hlt. specialize (Hlt i Hi). lia. }
    apply submseteq_length in Hsub.
    rewrite integers_length, length_seq in Hsub. lia.
  - intros Hk ->. simpl.
    destruct (decide (AllenCaMoviesDataset.num_neurons self = 0)); [lia|done].
  - intros Hk. split; [|done].
    unfold AllenCaMoviesDisjointDataset._sample_neurons.
    rewrite Hsplit. simpl. rewrite Hhalf. simpl.
    f_equal. apply take_ge. lia.
Qed.
End oversized.

(** ** The split selector *)

Section selector.
Context `{PySetIter} `{NumpyRandom} {A B : Type}.
Context `{TorchFloat A}.
Import AllenCaMoviesDataset.

(** Built from the source, a split selector other than train and test makes
    [_split] raise [ValueError]: no dataset is returned. *)
Lemma _split_unrecognized (self : Config) (movie_len : nat) (neurons_indices : list nat)
    (pseudo_mice : ndarray A) (frame_feature : ndarray B) :
  split_flag self ≠ "train"%string → split_flag self ≠ "test"%string →
  _split self movie_len neurons_indices pseudo_mice frame_feature = Raise ValueError.
Proof.
  intros Htrain Htest. unfold _split.
  apply String.eqb_neq in Htrain, Htest. by rewrite Htrain, Htest.
Qed.

(** X1.  Built from the source, a split selector other than train and test
    never yields a dataset: the construction raises. *)
Lemma __init___unrecognized (self : Config) cortex exp_containers summary
    (traces : gmap Z (list (ndarray A))) (frame_feature : ndarray B) :
  split_flag self ≠ "train"%string → split_flag self ≠ "test"%string →
  ∃ e, __init__ self cortex exp_containers summary traces frame_feature None = Raise e.
Proof.
  intros Htrain Htest. unfold __init__.
  destruct (_get_pseudo_mice _ _ _ _) as [pm|e]; simpl; [|eauto].
  destruct (_sample_neurons self pm) as [idx|e]; simpl; [|eauto].
  rewrite _split_unrecognized by done. simpl. eauto.
Qed.

(** With a preloaded file every selector is accepted: one that is not
    train is treated as test. *)
Lemma __init___preload (self : Config) cortex exp_containers summary
    (traces : gmap Z (list (ndarray A))) (frame_feature : ndarray B) (data : ndarray A) :
  split_flag self ≠ "train"%string →
  __init__ self cortex exp_containers summary traces frame_feature (Some data)
  = Ok (mk_dataset self None None data (tensor_repeat 1 1 frame_feature)).
Proof.
  intros Htrain%String.eqb_neq. unfold __init__. by rewrite Htrain.
Qed.
End selector.

(** ** The pseudo-mouse of the disjoint variant *)

Section disjoint_pseudo_mice.
Context {A : Type} (movie_entry : string → result (string * option (Z * Z))).
Import AllenCaMoviesDisjointDataset.

Lemma py_getitem_elem_of {T} (l : list T) (i : Z) (x : T) :
  py_getitem l i = Ok x → x ∈ l.
Proof.
  unfold py_getitem. destruct (py_norm_index (length l) i) as [n|]; [|done]. simpl.
  destruct (l !! n) eqn:Hn; [|done]. simpl. intros [= <-].
  by eapply list_elem_of_lookup_2.
Qed.

Lemma _get_neural_data_stored num_movie (mat : gmap string (mat_var A)) ev :
  _get_neural_data movie_entry num_movie mat = Ok ev → stored_session mat ev.
Proof.
  unfold _get_neural_data.
  intros ([key mat_index] & _ & (var & Hvar & Hev)%bind_Ok)%bind_Ok.
  destruct (mat !! key) as [var'|] eqn:Hkey; [|done]. simpl in Hvar. simplify_eq.
  exists key. destruct mat_index as [[i j]|], var as [cells|sessions]; try done.
  - left. apply bind_Ok in Hev as (row & Hrow%py_getitem_elem_of & Hev%py_getitem_elem_of).
    eauto.
  - right. apply py_getitem_elem_of in Hev. eauto.
Qed.

(** C10.  The pseudo-mouse of the disjoint variant stacks one stored session
    matrix per file, in the order of the files: its arguments are the files
    alone (no metadata table, hence no exclusion filter and no alignment),
    and its row count is the sum of the row counts of these matrices. *)
Theorem disjoint_pseudo_mice_rows area num_movie
    (list_mice : list (gmap string (mat_var A))) (pseudo_mouse : ndarray A) :
  _get_pseudo_mice movie_entry area num_movie list_mice = Ok pseudo_mouse →
  ∃ events : list (ndarray A),
    Forall2 (λ mat ev, _get_neural_data movie_entry num_movie mat = Ok ev
                       ∧ stored_session mat ev) list_mice events
    ∧ nd_rows pseudo_mouse = concat (nd_rows <$> events)
    ∧ shape0 pseudo_mouse = sum_list (shape0 <$> events).
Proof.
  unfold _get_pseudo_mice. intros (events & Hev & Hstack)%bind_Ok.
  exists events. split; [|split].
  - apply comprehension_Ok in Hev.
    eapply Forall2_impl; [done|]. intros mat ev Hmat.
    simpl in Hmat. split; [exact Hmat | exact (_get_neural_data_stored _ _ _ Hmat)].
  - unfold vstack, concatenate in Hstack.
    destruct events as [|ev events]; [done|].
    destruct (forallb _ events); [|done]. by injection Hstack as <-.
  - by apply concatenate_rows.
Qed.
End disjoint_pseudo_mice.

(** * Further properties *)

(** ** The position lists, whatever the iteration order *)

Lemma py_sort_perm l1 l2 : l1 ≡ₚ l2 → py_sort l1 = py_sort l2.
Proof.
  intros Hperm. unfold py_sort. apply (Sorted_unique (≤)); [apply _ ..| | |].
  - apply Sorted_merge_sort, _.
  - apply Sorted_merge_sort, _.
  - by rewrite !merge_sort_Permutation.
Qed.

Lemma py_index_not_elem_of ids x : x ∉ ids → py_index ids x = Raise ValueError.
Proof.
  intros Hx. unfold py_index.
  destruct (list_find (λ y, y = x) ids) as [[i y]|] eqn:Hfind; [|done].
  apply list_find_Some in Hfind as (Hi & -> & _).
  destruct Hx. by eapply list_elem_of_lookup_2.
Qed.

(** The position of the first occurrence, 0 for an absent id. *)
Lemma comprehension_py_index ids (l : list Z) :
  comprehension (py_index ids) l
  = if decide (Forall (λ x, x ∈ ids) l)
    then Ok ((λ x, match py_index ids x with Ok p => p | Raise _ => 0 end) <$> l)
    else Raise ValueError.
Proof.
  induction l as [|x l IH]; simpl.
  - by destruct (decide (Forall (λ x, x ∈ ids) [])) as [|[]].
  - destruct (decide (x ∈ ids)) as [Hx|Hx].
    + destruct (py_index_elem_of ids x Hx) as (p & Hp & _). rewrite Hp, IH. simpl.
      destruct (decide (Forall (λ x, x ∈ ids) l)) as [Hl|Hl]; simpl.
      * destruct (decide (Forall _ (x :: l))) as [|[]]; [done | by constructor].
      * destruct (decide (Forall _ (x :: l))) as [Hxl|]; [|done].
        by apply Forall_cons in Hxl as [_ ?].
    + rewrite (py_index_not_elem_of ids x Hx). simpl.
      destruct (decide (Forall _ (x :: l))) as [Hxl|]; [|done].
      by apply Forall_cons in Hxl as [? _].
Qed.

Lemma session_indices_any_order (S1 S2 : PySetIter) ids (common : gset Z) :
  AllenCaMovieDataset.session_indices (H := S1) ids common
  = AllenCaMovieDataset.session_indices (H := S2) ids common.
Proof.
  unfold AllenCaMovieDataset.session_indices. rewrite !comprehension_py_index.
  assert (@set_iter S1 common ≡ₚ @set_iter S2 common) as Hperm.
  { by rewrite !set_iter_perm. }
  destruct (decide (Forall (λ x, x ∈ ids) (@set_iter S1 common))) as [H1|H1],
           (decide (Forall (λ x, x ∈ ids) (@set_iter S2 common))) as [H2|H2]; simpl.
  - f_equal. apply py_sort_perm. by rewrite Hperm.
  - destruct H2. by rewrite <- Hperm.
  - destruct H1. by rewrite Hperm.
  - done.
Qed.

(** X2.  The position lists of a container are the same under any two
    iteration orders of the common set, errors included. *)
Theorem container_indices_any_order (S1 S2 : PySetIter) (neurons : list string) :
  AllenCaMovieDataset.container_indices (H := S1) neurons
  = AllenCaMovieDataset.container_indices (H := S2) neurons.
Proof.
  unfold AllenCaMovieDataset.container_indices.
  destruct (iloc neurons 0 ≫= _) as [ids1|]; [|done].
  destruct (iloc neurons 1 ≫= _) as [ids2|]; [|done].
  destruct (iloc neurons 2 ≫= _) as [ids3|]; [|done]. simpl.
  by rewrite (session_indices_any_order S1 S2 ids1),
             (session_indices_any_order S1 S2 ids2),
             (session_indices_any_order S1 S2 ids3).
Qed.

(** What a position list is, for one session. *)
Lemma session_indices_invariants `{PySetIter} ids (common : gset Z) idx :
  AllenCaMovieDataset.session_indices ids common = Ok idx →
  Sorted (≤) idx ∧ NoDup idx ∧ length idx = size common
  ∧ (∀ x, x ∈ common ↔ ∃ p, p ∈ idx ∧ ids !! p = Some x)
  ∧ (∀ p x, p ∈ idx → ids !! p = Some x → ∀ q, q < p → ids !! q ≠ Some x).
Proof.
  unfold AllenCaMovieDataset.session_indices. intros (ps & Hps & ->)%fmap_Ok.
  apply comprehension_Ok in Hps as Hlook.
  assert (py_sort ps ≡ₚ ps) as Hsort by apply merge_sort_Permutation.
  assert (∀ p, p ∈ ps ↔ ∃ x, x ∈ common ∧ py_index ids x = Ok p) as Hmem.
  { intros p. split.
    - intros (i & Hi)%list_elem_of_lookup.
      destruct (Forall2_lookup_r _ _ _ _ _ Hlook Hi) as (x & Hx & Hxp).
      exists x. split; [|done]. apply elem_of_set_iter. by eapply list_elem_of_lookup_2.
    - intros (x & (i & Hi)%elem_of_set_iter%list_elem_of_lookup & Hxp).
      destruct (Forall2_lookup_l _ _ _ _ _ Hlook Hi) as (q & Hq & Hxq).
      assert (q = p) as -> by congruence. by eapply list_elem_of_lookup_2. }
  split; [apply Sorted_merge_sort, _|]. split; [|split; [|split]].
  - rewrite Hsort. apply NoDup_alt. intros i j p Hi Hj.
    destruct (Forall2_lookup_r _ _ _ _ _ Hlook Hi) as (x & Hxi & Hx).
    destruct (Forall2_lookup_r _ _ _ _ _ Hlook Hj) as (y & Hyj & Hy).
    apply py_index_Ok in Hx as [Hx _]. apply py_index_Ok in Hy as [Hy _].
    assert (x = y) as -> by congruence.
    eapply NoDup_lookup; [apply set_iter_NoDup | done..].
  - rewrite Hsort. apply comprehension_length in Hps. rewrite Hps.
    apply length_set_iter.
  - intros x. split.
    + intros Hx.
      apply elem_of_set_iter, list_elem_of_lookup in Hx as (i & Hi).
      destruct (Forall2_lookup_l _ _ _ _ _ Hlook Hi) as (p & Hp & Hxp).
      exists p. split; [rewrite Hsort; by eapply list_elem_of_lookup_2|].
      by apply py_index_Ok in Hxp as [? _].
    + intros (p & Hp & Hpx). rewrite Hsort in Hp.
      apply Hmem in Hp as (y & Hy & Hyp). apply py_index_Ok in Hyp as [Hyp _].
      by assert (x = y) as -> by congruence.
  - intros p x Hp Hpx. rewrite Hsort in Hp.
    apply Hmem in Hp as (y & Hy & Hyp). apply py_index_Ok in Hyp as [Hyp Hfirst].
    by assert (x = y) as -> by congruence.
Qed.

Section indices_invariants.
Context `{PySetIter}.
Import AllenCaMovieDataset.

(** X3.  Whenever the position lists of a container are returned, each of
    the three is ascending without repeats, has one position per common
    neuron, and its positions are exactly the first occurrences of the common
    neurons in the session's id list. *)
Theorem container_indices_invariants (neurons : list string) (indices : list (list nat)) :
  container_indices neurons = Ok indices →
  ∃ ids1 ids2 ids3,
    iloc neurons 0 ≫= _convert_to_nums = Ok ids1
    ∧ iloc neurons 1 ≫= _convert_to_nums = Ok ids2
    ∧ iloc neurons 2 ≫= _convert_to_nums = Ok ids3
    ∧ Forall2 (λ ids idx,
         Sorted (≤) idx ∧ NoDup idx
         ∧ length idx = size (common_neurons ids1 ids2 ids3)
         ∧ (∀ x, x ∈ common_neurons ids1 ids2 ids3 ↔ ∃ p, p ∈ idx ∧ ids !! p = Some x)
         ∧ (∀ p x, p ∈ idx → ids !! p = Some x → ∀ q, q < p → ids !! q ≠ Some x))
        [ids1; ids2; ids3] indices.
Proof.
  unfold container_indices.
  intros (ids1 & H1 & (ids2 & H2 & (ids3 & H3 & Hrest)%bind_Ok)%bind_Ok)%bind_Ok.
  apply bind_Ok in Hrest as (i1 & Hi1 & (i2 & Hi2 & (i3 & Hi3 & [= <-])%bind_Ok)%bind_Ok).
  exists ids1, ids2, ids3. repeat split; try done.
  do 3 (constructor; [by apply session_indices_invariants|]).
  constructor.
Qed.
End indices_invariants.

(** ** The pseudo-mouse, whatever the iteration order *)

Lemma list_elem_of_concat {T} (x : T) (ls : list (list T)) :
  x ∈ concat ls ↔ ∃ l, x ∈ l ∧ l ∈ ls.
Proof.
  induction ls as [|l ls IH]; simpl.
  - split; [by intros ?%elem_of_nil | by intros (l & _ & ?%elem_of_nil)].
  - rewrite elem_of_app, IH. split.
    + intros [Hx | (l' & Hx & Hl')]; [exists l; split; [done | left]|].
      exists l'. split; [done | by right].
    + intros (l' & Hx & [->|Hl']%elem_of_cons); [by left | right; eauto].
Qed.

Lemma concat_perm {T} (l1 l2 : list (list T)) : l1 ≡ₚ l2 → concat l1 ≡ₚ concat l2.
Proof.
  induction 1 as [|x l1 l2 _ IH|x y l|l1 l2 l3 _ IH1 _ IH2]; simpl.
  - done.
  - by rewrite IH.
  - rewrite !app_assoc. by rewrite (Permutation_app_comm y x).
  - by rewrite IH1.
Qed.

Lemma comprehension_perm {T U} (f : T → result U) (l1 l2 : list T) (k1 : list U) :
  l1 ≡ₚ l2 → comprehension f l1 = Ok k1 →
  ∃ k2, comprehension f l2 = Ok k2 ∧ k1 ≡ₚ k2.
Proof.
  intros Hperm. revert k1.
  induction Hperm as [|x l1 l2 _ IH|x y l|l1 l2 l3 _ IH1 _ IH2]; intros k1; simpl.
  - intros [= <-]. by exists [].
  - intros (u & Hu & (k & Hk & [= <-])%bind_Ok)%bind_Ok.
    destruct (IH k Hk) as (k2 & Hk2 & Hkk). exists (u :: k2).
    rewrite Hu, Hk2. simpl. split; [done | by constructor].
  - intros (u & Hu & (k & (v & Hv & (k' & Hk' & [= <-])%bind_Ok)%bind_Ok & [= <-])%bind_Ok)%bind_Ok.
    exists (v :: u :: k'). rewrite Hv, Hu, Hk'. simpl. split; [done | apply Permutation_swap].
  - intros Hk1. destruct (IH1 k1 Hk1) as (k2 & Hk2 & H12).
    destruct (IH2 k2 Hk2) as (k3 & Hk3 & H23). exists k3. split; [done | by etrans].
Qed.

Lemma concatenate_perm {T} (blocks1 blocks2 : list (ndarray T)) (m1 : ndarray T) :
  blocks1 ≡ₚ blocks2 → concatenate blocks1 = Ok m1 →
  ∃ m2, concatenate blocks2 = Ok m2
        ∧ nd_rows m1 ≡ₚ nd_rows m2 ∧ nd_cols m1 = nd_cols m2.
Proof.
  intros Hperm Hcat.
  assert (blocks1 ≠ [] ∧ Forall (λ b, nd_cols b = nd_cols m1) blocks1
          ∧ nd_rows m1 = concat (nd_rows <$> blocks1)) as (Hne & Hcols & Hrows).
  { unfold concatenate in Hcat. destruct blocks1 as [|b rest]; [done|].
    destruct (forallb _ rest) eqn:Hall; [|done]. injection Hcat as <-. simpl.
    split; [done|]. split; [|done]. constructor; [done|].
    apply Forall_forall. intros b' Hb'.
    rewrite forallb_forall in Hall. apply Nat.eqb_eq, Hall.
    by apply list_elem_of_In. }
  rewrite Hperm in Hcols.
  destruct blocks2 as [|b rest].
  { apply Permutation_nil_r in Hperm. done. }
  apply Forall_cons in Hcols as [Hb Hrest].
  exists (mk_ndarray (concat (nd_rows <$> b :: rest)) (nd_cols b)).
  unfold concatenate.
  assert (forallb (λ m', nd_cols m' =? nd_cols b) rest = true) as ->.
  { apply forallb_forall. intros b' Hb'%list_elem_of_In. apply Nat.eqb_eq.
    rewrite Forall_forall in Hrest. rewrite (Hrest b' Hb'). done. }
  split; [done|]. split; [|by rewrite Hb].
  rewrite Hrows. apply (concat_perm (nd_rows <$> blocks1) (nd_rows <$> b :: rest)).
  by rewrite Hperm.
Qed.

Lemma container_blocks_any_order {A} (S1 S2 : PySetIter) summary
    (traces : gmap Z (list (ndarray A))) c :
  AllenCaMovieDataset.container_blocks (H := S1) summary traces c
  = AllenCaMovieDataset.container_blocks (H := S2) summary traces c.
Proof.
  unfold AllenCaMovieDataset.container_blocks, AllenCaMovieDataset.container_indices.
  destruct (iloc _ 0 ≫= _) as [ids1|]; [|done].
  destruct (iloc _ 1 ≫= _) as [ids2|]; [|done].
  destruct (iloc _ 2 ≫= _) as [ids3|]; [|done]. simpl.
  by rewrite (session_indices_any_order S1 S2 ids1),
             (session_indices_any_order S1 S2 ids2),
             (session_indices_any_order S1 S2 ids3).
Qed.

(** X4.  The order in which the set of containers is iterated only changes
    the order of the rows: a pseudo-mouse returned under one iteration order
    is returned under any other, with the same rows up to a permutation and
    the same column count. *)
Theorem pseudo_mice_any_order {A} (S1 S2 : PySetIter) area exp_containers summary
    (traces : gmap Z (list (ndarray A))) (pseudo_mouse : ndarray A) :
  AllenCaMovieDataset._get_pseudo_mice (H := S1) area exp_containers summary traces
    = Ok pseudo_mouse →
  ∃ pseudo_mouse',
    AllenCaMovieDataset._get_pseudo_mice (H := S2) area exp_containers summary traces
      = Ok pseudo_mouse'
    ∧ nd_rows pseudo_mouse ≡ₚ nd_rows pseudo_mouse'
    ∧ shape0 pseudo_mouse = shape0 pseudo_mouse'
    ∧ shape1 pseudo_mouse = shape1 pseudo_mouse'.
Proof.
  unfold AllenCaMovieDataset._get_pseudo_mice.
  intros (bss & Hbss & Hcat)%bind_Ok.
  set (X := list_to_set (exp <$> filter _ summary) : gset Z) in *.
  assert (@set_iter S1 X ≡ₚ @set_iter S2 X) as Hperm by (by rewrite !set_iter_perm).
  destruct (comprehension_perm _ _ _ _ Hperm Hbss) as (bss' & Hbss' & Hbb).
  destruct (concatenate_perm (concat bss) (concat bss') _ (concat_perm _ _ Hbb) Hcat)
    as (m2 & Hm2 & Hrows & Hcols).
  exists m2. split; [|split; [done|split; [|done]]].
  - erewrite comprehension_ext; [rewrite Hbss'; exact Hm2|].
    apply Forall_forall. intros c _. symmetry. apply container_blocks_any_order.
  - unfold shape0. by rewrite Hrows.
Qed.

(** ** What a returned pseudo-mouse says about the table and the files *)

Section requirements.
Context `{PySetIter} {A : Type}.
Import AllenCaMovieDataset.

Lemma container_blocks_sessions summary (traces : gmap Z (list (ndarray A))) c blocks :
  container_blocks summary traces c = Ok blocks →
  length (filter (λ r, exp r = c) summary) = 3
  ∧ ∃ mat, traces !! c = Some mat
      ∧ Forall2 (λ session b, ∃ idx, take_rows session idx = Ok b) (take 3 mat) blocks.
Proof.
  intros Hblocks.
  destruct (container_blocks_rows _ _ _ _ Hblocks) as (X & _ & Hlen & _).
  unfold container_blocks in Hblocks.
  apply bind_Ok in Hblocks as (indices & _ & (mat & Hmat & Hcomp)%bind_Ok).
  apply comprehension_Ok in Hcomp.
  apply Forall2_length in Hcomp as Hn.
  unfold enumerate in Hn.
  rewrite length_imap, (Permutation_length (argsort_perm _)), length_seq, length_fmap in Hn.
  split; [lia|].
  destruct (traces !! c) as [mat'|]; [|done]. simpl in Hmat. simplify_eq.
  exists mat. split; [done|].
  apply Forall2_same_length_lookup. split.
  - rewrite length_take, Hlen.
    assert (enumerate (argsort (session_type <$> filter (λ r, exp r = c) summary)) !! 2
            = Some (2, argsort (session_type <$> filter (λ r, exp r = c) summary) !!! 2))
      as Hen.
    { unfold enumerate. rewrite list_lookup_imap.
      rewrite (list_lookup_lookup_total_lt _ 2); [done|].
      rewrite (Permutation_length (argsort_perm _)), length_seq, length_fmap. lia. }
    destruct (Forall2_lookup_l _ _ _ _ _ Hcomp Hen) as (b & _ & Hb).
    apply bind_Ok in Hb as (m & Hm & _). unfold iloc in Hm.
    destruct (mat !! 2) eqn:Hm2; [|done]. apply lookup_lt_Some in Hm2. lia.
  - intros n session b Hsession Hb.
    apply lookup_take_Some in Hsession as [Hsession Hn3].
    destruct (Forall2_lookup_r _ _ _ _ _ Hcomp Hb) as ([n' i] & Hni & Hbn).
    unfold enumerate in Hni. rewrite list_lookup_imap in Hni.
    destruct (argsort _ !! n) eqn:Hi; [|done]. simpl in Hni. simplify_eq.
    apply bind_Ok in Hbn as (m & Hm & (idx & _ & Hb')%bind_Ok).
    unfold iloc in Hm. rewrite Hsession in Hm. simpl in Hm. simplify_eq. eauto.
Qed.

(** X5.  A pseudo-mouse is returned only if every included container has
    exactly three rows in the table and a trace file with at least three
    sessions. *)
Theorem pseudo_mice_three_sessions area exp_containers summary
    (traces : gmap Z (list (ndarray A))) (pseudo_mouse : ndarray A) (c : Z) :
  _get_pseudo_mice area exp_containers summary traces = Ok pseudo_mouse →
  c ∈ included_containers area exp_containers summary →
  length (filter (λ r, exp r = c) summary) = 3
  ∧ ∃ mat, traces !! c = Some mat ∧ 3 ≤ length mat.
Proof.
  rewrite _get_pseudo_mice_loop. intros (bss & Hbss & _)%bind_Ok Hc.
  apply comprehension_Ok in Hbss.
  apply list_elem_of_lookup in Hc as (i & Hi).
  destruct (Forall2_lookup_l _ _ _ _ _ Hbss Hi) as (blocks & _ & Hblocks).
  destruct (container_blocks_rows _ _ _ _ Hblocks) as (_ & _ & Hlen & _).
  destruct (container_blocks_sessions _ _ _ _ Hblocks) as (Hrows & mat & Hmat & Hsess).
  split; [done|]. exists mat. split; [done|].
  apply Forall2_length in Hsess. rewrite length_take in Hsess. lia.
Qed.

(** X6.  A returned pseudo-mouse is rectangular whenever the stored session
    matrices are, and every row of it is a row of one of the first three
    sessions of an included container. *)
Theorem pseudo_mice_rectangular area exp_containers summary
    (traces : gmap Z (list (ndarray A))) (pseudo_mouse : ndarray A) :
  _get_pseudo_mice area exp_containers summary traces = Ok pseudo_mouse →
  (∀ c mat session, traces !! c = Some mat → session ∈ mat → nd_wf session) →
  nd_wf pseudo_mouse
  ∧ ∀ row, row ∈ nd_rows pseudo_mouse →
      ∃ c mat session,
        c ∈ included_containers area exp_containers summary
        ∧ traces !! c = Some mat ∧ session ∈ take 3 mat
        ∧ row ∈ nd_rows session ∧ nd_cols session = shape1 pseudo_mouse.
Proof.
  rewrite _get_pseudo_mice_loop. intros (bss & Hbss & Hcat)%bind_Ok Hwf.
  apply comprehension_Ok in Hbss.
  assert (Forall (λ b, nd_cols b = nd_cols pseudo_mouse) (concat bss)
          ∧ nd_rows pseudo_mouse = concat (nd_rows <$> concat bss)) as (Hcols & Hrows).
  { unfold concatenate in Hcat. destruct (concat bss) as [|b rest]; [done|].
    destruct (forallb _ rest) eqn:Hall; [|done]. injection Hcat as <-. simpl.
    split; [|done]. constructor; [done|].
    apply Forall_forall. intros b' Hb'.
    rewrite forallb_forall in Hall. apply Nat.eqb_eq, Hall.
    by apply list_elem_of_In. }
  assert (∀ row, row ∈ nd_rows pseudo_mouse →
      ∃ c mat session,
        c ∈ included_containers area exp_containers summary
        ∧ traces !! c = Some mat ∧ session ∈ take 3 mat
        ∧ row ∈ nd_rows session ∧ nd_cols session = shape1 pseudo_mouse) as Hsrc.
  { intros row Hrow. rewrite Hrows in Hrow.
    apply list_elem_of_concat in Hrow as (rows & Hrow & Hrows').
    apply list_elem_of_fmap in Hrows' as (b & -> & Hb).
    apply list_elem_of_concat in Hb as (blocks & Hb & Hblocks).
    apply list_elem_of_lookup in Hblocks as (i & Hi).
    destruct (Forall2_lookup_r _ _ _ _ _ Hbss Hi) as (c & Hc & Hcb).
    destruct (container_blocks_sessions _ _ _ _ Hcb) as (_ & mat & Hmat & Hsess).
    apply list_elem_of_lookup in Hb as (n & Hn).
    destruct (Forall2_lookup_r _ _ _ _ _ Hsess Hn) as (session & Hsession & idx & Htake).
    exists c, mat, session.
    split; [by eapply list_elem_of_lookup_2|]. split; [done|].
    split; [by eapply list_elem_of_lookup_2|].
    apply take_rows_rows in Htake as [Hc' Hsub].
    split; [by apply Hsub|].
    rewrite <- Hc'. rewrite Forall_forall in Hcols. apply Hcols.
    apply list_elem_of_concat. exists blocks.
    split; by eapply list_elem_of_lookup_2. }
  split; [|done].
  apply Forall_forall. intros row Hrow.
  destruct (Hsrc row Hrow) as (c & mat & session & _ & Hmat & Hsession & Hrs & Hcs).
  assert (nd_wf session) as Hs.
  { eapply Hwf; [done|]. eapply elem_of_sublist; [done | apply sublist_take]. }
  unfold nd_wf in Hs. rewrite Forall_forall in Hs.
  unfold shape1 in Hcs. rewrite <- Hcs. by apply Hs.
Qed.

(** X7.  When no row of the table passes the filter, nothing is assembled
    and the final concatenation raises [ValueError]. *)
Theorem pseudo_mice_no_container area exp_containers summary
    (traces : gmap Z (list (ndarray A))) :
  (∀ r, r ∈ summary → ¬ area_filter exp_containers area r) →
  _get_pseudo_mice area exp_containers summary traces = Raise ValueError.
Proof.
  intros Hnone. rewrite _get_pseudo_mice_loop.
  destruct (included_containers area exp_containers summary) as [|c l] eqn:Hl; [done|].
  assert (c ∈ included_containers area exp_containers summary) as Hc
    by (rewrite Hl; left).
  apply elem_of_included_containers in Hc as (r & Hr & Hpass & _).
  by destruct (Hnone r Hr).
Qed.
End requirements.

(** ** The filter on the genetic line *)

Lemma prefix_spec (pat s : string) :
  String.prefix pat s = true ↔ ∃ rest, s = String.append pat rest.
Proof.
  revert s; induction pat as [|c pat IH]; intros [|c' s]; simpl.
  - split; [by exists EmptyString | done].
  - split; [by exists (String c' s) | done].
  - split; [done | by intros (? & ?)].
  - destruct (Ascii.ascii_dec c c') as [->|Hne].
    + rewrite IH. split; intros (rest & Hrest); exists rest.
      * simpl. by rewrite Hrest.
      * simpl in Hrest. by injection Hrest.
    + split; [done|]. intros (rest & Hrest). simpl in Hrest. by injection Hrest.
Qed.

Lemma str_contains_spec (pat s : string) :
  str_contains pat s = true
  ↔ ∃ before rest, s = String.append before (String.append pat rest).
Proof.
  induction s as [|c s IH].
  - change (str_contains pat EmptyString)
      with (String.prefix pat EmptyString || false).
    rewrite orb_false_r, prefix_spec. split.
    + intros (rest & Hrest). by exists EmptyString, rest.
    + intros ([|c before] & rest & Hs); [eauto | done].
  - change (str_contains pat (String c s))
      with (String.prefix pat (String c s) || str_contains pat s).
    rewrite orb_true_iff, prefix_spec, IH. split.
    + intros [(rest & Hrest) | (before & rest & ->)].
      * by exists EmptyString, rest.
      * by exists (String c before), rest.
    + intros ([|c' before] & rest & Hs); [left; eauto | right].
      simpl in Hs. injection Hs as -> ->. eauto.
Qed.

(** X8.  A row passes the filter exactly when its container has a trace
    file, its target is the requested area, and none of SSt, Pvalb and Vip
    occurs, with this very spelling, as a substring of its genetic line. *)
Theorem area_filter_spec (exp_containers : list Z) (area : string) (r : SummaryRow) :
  AllenCaMovieDataset.area_filter exp_containers area r = true
  ↔ exp r ∈ exp_containers ∧ target r = area
    ∧ ∀ marker, marker ∈ ["SSt"; "Pvalb"; "Vip"]%string →
        ¬ ∃ before rest,
            cre_line r = String.append before (String.append marker rest).
Proof.
  unfold AllenCaMovieDataset.area_filter.
  rewrite !andb_true_iff, !negb_true_iff, bool_decide_eq_true, String.eqb_eq.
  split.
  - intros ((((Hexp & Htarget) & H1) & H2) & H3). split; [done|]. split; [done|].
    intros marker Hm Hsub. apply str_contains_spec in Hsub.
    set_unfold in Hm. destruct Hm as [->|[->|[->|[]]]]; congruence.
  - intros (Hexp & Htarget & Hnone).
    assert (∀ marker, marker ∈ ["SSt"; "Pvalb"; "Vip"]%string →
                      str_contains marker (cre_line r) = false) as Hfalse.
    { intros marker Hm. destruct (str_contains marker (cre_line r)) eqn:Hc; [|done].
      destruct (Hnone marker Hm). by apply str_contains_spec. }
    repeat split; try done; apply Hfalse; set_solver.
Qed.

(** ** Parsing the neuron lists *)

Lemma str_remove_app c (a b : string) :
  str_remove c (String.append a b) = String.append (str_remove c a) (str_remove c b).
Proof.
  induction a as [|c' a IH]; simpl; [done|].
  destruct (Ascii.eqb c' c); simpl; by rewrite IH.
Qed.

Lemma str_remove_comm c1 c2 (s : string) :
  str_remove c1 (str_remove c2 s) = str_remove c2 (str_remove c1 s).
Proof.
  induction s as [|c s IH]; simpl; [done|].
  destruct (Ascii.eqb c c2) eqn:E2, (Ascii.eqb c c1) eqn:E1; simpl;
    rewrite ?E1, ?E2, ?IH; done.
Qed.

Lemma str_remove_cons_eq c (s : string) : str_remove c (String c s) = str_remove c s.
Proof. simpl. by rewrite Ascii.eqb_refl. Qed.

(** X9.  A new line, an opening or a closing bracket is ignored wherever it
    stands in the encoded list: it does not separate two numbers, so that the
    digits on its two sides are read as one number. *)
Theorem _convert_to_nums_ignores (c : ascii) (before rest : string) :
  c ∈ ["010"; "["; "]"]%char →
  AllenCaMovieDataset._convert_to_nums (String.append before (String c rest))
  = AllenCaMovieDataset._convert_to_nums (String.append before rest).
Proof.
  intros Hc. unfold AllenCaMovieDataset._convert_to_nums. do 2 f_equal.
  set_unfold in Hc. destruct Hc as [->|[->|[->|[]]]].
  - by rewrite !str_remove_app, str_remove_cons_eq.
  - rewrite !(str_remove_comm "[" "010"). f_equal. f_equal.
    by rewrite !str_remove_app, str_remove_cons_eq.
  - rewrite !(str_remove_comm "]" "["), !(str_remove_comm "]" "010"). do 2 f_equal.
    by rewrite !str_remove_app, str_remove_cons_eq.
Qed.

Lemma str_all_app p (a b : string) :
  str_all p (String.append a b) = str_all p a && str_all p b.
Proof. induction a as [|c a IH]; simpl; [done|]. by rewrite IH, andb_assoc. Qed.

Lemma str_all_impl (p q : ascii → bool) (s : string) :
  (∀ c, p c = true → q c = true) → str_all p s = true → str_all q s = true.
Proof.
  intros Hpq. induction s as [|c s IH]; simpl; [done|].
  rewrite !andb_true_iff. intros [Hc Hs]. auto.
Qed.

Lemma str_remove_absent c (s : string) :
  str_all (λ c', negb (Ascii.eqb c' c)) s = true → str_remove c s = s.
Proof.
  induction s as [|c' s IH]; simpl; [done|].
  rewrite andb_true_iff, negb_true_iff. intros [-> Hs]. by rewrite IH.
Qed.

Lemma append_cons x (a b : string) :
  String.append (String x a) b = String x (String.append a b).
Proof. reflexivity. Qed.

Lemma append_assoc (a b c : string) :
  String.append (String.append a b) c = String.append a (String.append b c).
Proof. induction a as [|x a IH]; [done|]. by rewrite !append_cons, IH. Qed.

Lemma append_empty_r (a : string) : String.append a EmptyString = a.
Proof. induction a as [|x a IH]; [done|]. by rewrite append_cons, IH. Qed.

(** What the characters of the encoding are to the parser. *)
Lemma is_digit_char c :
  is_digit c = true →
  is_space c = false ∧ Ascii.eqb c "010" = false ∧ Ascii.eqb c "[" = false
  ∧ Ascii.eqb c "]" = false ∧ Ascii.eqb c "-" = false ∧ Ascii.eqb c "+" = false.
Proof. destruct c as [[] [] [] [] [] [] [] []]; vm_compute; intros; done. Qed.

Lemma is_blank_char c :
  is_blank c = true →
  is_space c = true ∧ Ascii.eqb c "010" = false ∧ Ascii.eqb c "[" = false
  ∧ Ascii.eqb c "]" = false.
Proof. destruct c as [[] [] [] [] [] [] [] []]; vm_compute; intros; done. Qed.

Lemma show_uint_digits d : str_all is_digit (NilEmpty.string_of_uint d) = true.
Proof. induction d; simpl; [done | by rewrite IHd ..]. Qed.

Lemma digits_value_uint d acc :
  digits_value (Z.of_nat acc) true (list_ascii_of_string (NilEmpty.string_of_uint d))
  = Some (Z.of_nat (Nat.of_uint_acc d acc)).
Proof.
  revert acc; induction d as [|d IH|d IH|d IH|d IH|d IH|d IH|d IH|d IH|d IH|d IH];
    intros acc; [done|..];
    cbn [NilEmpty.string_of_uint list_ascii_of_string digits_value Nat.of_uint_acc];
    rewrite Nat.tail_mul_spec;
    match goal with
    | |- context [digit_of ?c] =>
        let v := eval vm_compute in (digit_of c) in change (digit_of c) with v
    end;
    cbv iota;
    rewrite <- IH; f_equal; lia.
Qed.

(** A run that starts with a digit has the value it has after a digit. *)
Lemma digits_value_first acc c l :
  is_digit c = true → digits_value acc false (c :: l) = digits_value acc true (c :: l).
Proof. unfold is_digit. simpl. by destruct (digit_of c). Qed.

Lemma show_nat_nonempty n : show_nat n ≠ EmptyString.
Proof.
  unfold show_nat.
  assert (Nat.to_uint n ≠ Decimal.Nil) as Hnil.
  { rewrite <- (Unsigned.of_to n) at 1. rewrite Unsigned.to_of. apply unorm_nonnil. }
  by destruct (Nat.to_uint n).
Qed.

Lemma py_int_show_nat n : py_int (list_ascii_of_string (show_nat n)) = Ok (Z.of_nat n).
Proof.
  pose proof (show_nat_nonempty n) as Hne.
  pose proof (show_uint_digits (Nat.to_uint n)) as Hdigits.
  pose proof (digits_value_uint (Nat.to_uint n) 0) as Hvalue.
  fold (show_nat n) in Hdigits, Hvalue.
  change (Nat.of_uint_acc (Nat.to_uint n) 0) with (Nat.of_uint (Nat.to_uint n)) in Hvalue.
  rewrite Unsigned.of_to in Hvalue.
  destruct (show_nat n) as [|c s]; [done|]. simpl in Hdigits.
  apply andb_true_iff in Hdigits as [Hc _].
  destruct (is_digit_char c Hc) as (_ & _ & _ & _ & Hminus & Hplus).
  unfold py_int. cbn [list_ascii_of_string]. rewrite Hminus, Hplus.
  cbn [list_ascii_of_string] in Hvalue. change (Z.of_nat 0) with 0%Z in Hvalue.
  by rewrite (digits_value_first _ _ _ Hc), Hvalue.
Qed.

Lemma str_split_aux_blank (gap s : string) :
  str_all is_blank gap = true →
  str_split_aux [] (String.append gap s) = str_split_aux [] s.
Proof.
  induction gap as [|c gap IH]; [done|]. rewrite append_cons. simpl.
  rewrite andb_true_iff. intros [Hc Hgap].
  destruct (is_blank_char c Hc) as (-> & _). auto.
Qed.

Lemma str_split_aux_token cur (tok s : string) :
  str_all is_digit tok = true →
  str_split_aux cur (String.append tok s)
  = str_split_aux (reverse (list_ascii_of_string tok) ++ cur) s.
Proof.
  revert cur; induction tok as [|c tok IH]; intros cur; [done|].
  rewrite append_cons. simpl.
  rewrite andb_true_iff. intros [Hc Htok].
  destruct (is_digit_char c Hc) as (-> & _). rewrite IH by done.
  by rewrite reverse_cons, <- app_assoc.
Qed.

Lemma str_split_aux_end cur (s : string) :
  cur ≠ [] →
  s = EmptyString ∨ (∃ c s', s = String c s' ∧ is_space c = true) →
  str_split_aux cur s = reverse cur :: str_split_aux [] s.
Proof.
  intros Hcur [->|(c & s' & -> & Hc)]; simpl.
  - by destruct cur.
  - rewrite Hc. by destruct cur.
Qed.

(** The encoding, without its brackets. *)
Lemma str_split_items (items : list (string * nat)) (trail : string) :
  Forall (λ item, str_all is_blank item.1 = true) items →
  Forall (λ item, item.1 ≠ EmptyString) (tail items) →
  str_all is_blank trail = true →
  str_split_aux []
    (String.append
       (foldr (λ '(gap, n) s, String.append gap (String.append (show_nat n) s))
              EmptyString items) trail)
  = (λ item, list_ascii_of_string (show_nat item.2)) <$> items.
Proof.
  intros Hblank Hgaps Htrail.
  induction items as [|[gap n] items IH]; simpl.
  - change (str_split_aux [] trail = []).
    rewrite <- (append_empty_r trail). by rewrite str_split_aux_blank.
  - apply Forall_cons in Hblank as [Hgap Hblank]. simpl in Hgap, Hgaps.
    rewrite !append_assoc, str_split_aux_blank by done.
    rewrite str_split_aux_token by apply show_uint_digits.
    rewrite app_nil_r. rewrite str_split_aux_end.
    + rewrite reverse_involutive. f_equal. apply IH; [done|].
      destruct items as [|? items]; [constructor|].
      by apply Forall_cons in Hgaps as [_ ?].
    + intros Hnil. apply (f_equal reverse) in Hnil.
      rewrite reverse_involutive in Hnil. simpl in Hnil.
      pose proof (show_nat_nonempty n). by destruct (show_nat n).
    + destruct items as [|[gap' n'] items]; simpl.
      * destruct trail as [|c trail]; [by left|right].
        simpl in Htrail. apply andb_true_iff in Htrail as [Hc _].
        destruct (is_blank_char c Hc) as (Hsp & _). eauto.
      * apply Forall_cons in Hgaps as [Hne _]. apply Forall_cons in Hblank as [Hb _].
        simpl in Hne, Hb. destruct gap' as [|c gap']; [done|right]. simpl in Hb.
        apply andb_true_iff in Hb as [Hc _].
        destruct (is_blank_char c Hc) as (Hsp & _). simpl. eauto.
Qed.

Lemma items_chars (items : list (string * nat)) :
  Forall (λ item, str_all is_blank item.1 = true) items →
  str_all (λ c, is_digit c || is_blank c)
    (foldr (λ '(gap, n) s, String.append gap (String.append (show_nat n) s))
           EmptyString items) = true.
Proof.
  induction 1 as [|[gap n] items Hgap _ IH]; simpl; [done|].
  rewrite !str_all_app, IH, !andb_true_r. apply andb_true_iff. split.
  - eapply str_all_impl; [|exact Hgap]. intros c ->. apply orb_true_r.
  - eapply str_all_impl; [|apply show_uint_digits]. by intros c ->.
Qed.

(** X10.  An id list written in brackets, each id in decimal digits after
    blanks (any number before the first id and before the closing bracket,
    at least one between two ids), is read back as the ids. *)
Theorem _convert_to_nums_show_ids (items : list (string * nat)) (trail : string) :
  Forall (λ item, str_all is_blank item.1 = true) items →
  Forall (λ item, item.1 ≠ EmptyString) (tail items) →
  str_all is_blank trail = true →
  AllenCaMovieDataset._convert_to_nums (show_ids items trail)
  = Ok ((λ item, Z.of_nat item.2) <$> items).
Proof.
  intros Hblank Hgaps Htrail.
  unfold AllenCaMovieDataset._convert_to_nums, show_ids.
  set (body := foldr _ EmptyString items).
  assert (str_all (λ c, is_digit c || is_blank c) (String.append body trail) = true)
    as Hchars.
  { rewrite str_all_app. unfold body. rewrite items_chars by done. simpl.
    eapply str_all_impl; [|exact Htrail]. intros c ->. apply orb_true_r. }
  assert (∀ c, c ∈ ["010"; "["; "]"]%char →
               str_all (λ c', negb (Ascii.eqb c' c)) (String.append body trail) = true)
    as Hnone.
  { intros c Hc. eapply str_all_impl; [|exact Hchars]. intros c' Hc'.
    apply orb_true_iff in Hc' as [Hd|Hb].
    - destruct (is_digit_char c' Hd) as (_ & H1 & H2 & H3 & _).
      set_unfold in Hc. destruct Hc as [->|[->|[->|[]]]]; by rewrite ?H1, ?H2, ?H3.
    - destruct (is_blank_char c' Hb) as (_ & H1 & H2 & H3).
      set_unfold in Hc. destruct Hc as [->|[->|[->|[]]]]; by rewrite ?H1, ?H2, ?H3. }
  rewrite <- append_assoc.
  assert (str_remove "]" (str_remove "[" (str_remove "010"
            (String "[" (String.append (String.append body trail) (String "]" EmptyString)))))
          = String.append body trail) as ->.
  { cbn [str_remove]. change (Ascii.eqb "[" "010") with false. cbn iota.
    rewrite str_remove_app, (str_remove_absent "010") by (apply Hnone; set_solver).
    cbn [str_remove]. change (Ascii.eqb "]" "010") with false. cbn iota.
    change (Ascii.eqb "[" "[") with true. cbn iota.
    rewrite str_remove_app, (str_remove_absent "[") by (apply Hnone; set_solver).
    cbn [str_remove]. change (Ascii.eqb "]" "[") with false. cbn iota.
    rewrite str_remove_app, (str_remove_absent "]") by (apply Hnone; set_solver).
    cbn [str_remove]. change (Ascii.eqb "]" "]") with true. cbn iota.
    apply append_empty_r. }
  unfold str_split, body. rewrite str_split_items by done.
  rewrite (comprehension_total _ (λ tok, match py_int tok with Ok z => z | Raise _ => 0%Z end)).
  - f_equal. rewrite <- list_fmap_compose. apply list_fmap_ext.
    intros i item _. simpl. by rewrite py_int_show_nat.
  - apply Forall_fmap, Forall_forall. intros item _. simpl. by rewrite py_int_show_nat.
Qed.

(** ** Labels *)

Lemma lookup_concat_replicate {T} (l : list T) (r i : nat) :
  i < r * length l → concat (replicate r l) !! i = l !! (i mod length l).
Proof.
  revert i; induction r as [|r IH]; intros i Hi; [lia|]. simpl.
  destruct (decide (i < length l)) as [Hlt|Hge].
  - rewrite lookup_app_l by done. by rewrite Nat.mod_small.
  - rewrite lookup_app_r by lia. rewrite IH by lia. f_equal.
    assert (length l ≠ 0) as Hne by lia.
    replace i with ((i - length l) + 1 * length l) at 2 by lia.
    by rewrite Nat.Div0.mod_add.
Qed.

Lemma tensor_repeat_rows {T} (r : nat) (t : ndarray T) :
  nd_rows (tensor_repeat r 1 t) = concat (replicate r (nd_rows t)).
Proof.
  unfold tensor_repeat. simpl. do 2 f_equal.
  rewrite <- (list_fmap_id (nd_rows t)) at 2. apply list_fmap_ext.
  intros i row _. simpl. apply app_nil_r.
Qed.

Lemma tensor_repeat_lookup {T} (r : nat) (t : ndarray T) (i : nat) :
  i < r * shape0 t →
  nd_rows (tensor_repeat r 1 t) !! i = nd_rows t !! (i mod shape0 t).
Proof. intros Hi. rewrite tensor_repeat_rows. by apply lookup_concat_replicate. Qed.

Section labels.
Context `{PySetIter} `{NumpyRandom} {A B : Type}.
Context `{TorchFloat A}.

(** X11.  In every dataset that [AllenCaMoviesDataset] constructs, from the
    source or from a preloaded file, the labels are the frame features
    repeated in order: label row [t] is the feature row [t mod F] of the [F]
    frames, over 9 F rows for the selector train and F rows otherwise. *)
Theorem labels_repeat_frames (self : AllenCaMoviesDataset.Config) cortex exp_containers
    summary (traces : gmap Z (list (ndarray A))) (frame_feature : ndarray B)
    (preload : option (ndarray A)) (d : AllenCaMoviesDataset.Dataset A B) :
  AllenCaMoviesDataset.__init__ self cortex exp_containers summary traces
    frame_feature preload = Ok d →
  shape0 (AllenCaMoviesDataset.continuous_index d)
  = (if String.eqb (AllenCaMoviesDataset.split_flag self) "train" then 9 else 1)
    * shape0 frame_feature
  ∧ shape1 (AllenCaMoviesDataset.continuous_index d) = shape1 frame_feature
  ∧ ∀ t, t < shape0 (AllenCaMoviesDataset.continuous_index d) →
      nd_rows (AllenCaMoviesDataset.continuous_index d) !! t
      = nd_rows frame_feature !! (t mod shape0 frame_feature).
Proof.
  intros Hinit.
  assert (AllenCaMoviesDataset.index d
          = tensor_repeat
              (if String.eqb (AllenCaMoviesDataset.split_flag self) "train" then 9 else 1)
              1 frame_feature) as Hindex.
  { unfold AllenCaMoviesDataset.__init__ in Hinit. destruct preload as [data|].
    - injection Hinit as <-. simpl.
      by destruct (String.eqb (AllenCaMoviesDataset.split_flag self) "train").
    - apply bind_Ok in Hinit
        as (pm & _ & (idx & _ & ([n i] & Hsplit & [= <-])%bind_Ok)%bind_Ok).
      simpl. unfold AllenCaMoviesDataset._split in Hsplit.
      destruct (String.eqb (AllenCaMoviesDataset.split_flag self) "train").
      + by apply bind_Ok in Hsplit as (? & _ & [= _ <-]).
      + destruct (String.eqb (AllenCaMoviesDataset.split_flag self) "test"); [|done].
        by apply bind_Ok in Hsplit as (? & _ & [= _ <-]). }
  unfold AllenCaMoviesDataset.continuous_index. rewrite Hindex.
  split; [apply tensor_repeat_shape0|]. split.
  - unfold shape1, tensor_repeat. simpl. lia.
  - intros t Ht. rewrite tensor_repeat_shape0 in Ht. by apply tensor_repeat_lookup.
Qed.
End labels.

(** ** The sampled block and its transpose *)

Lemma lookup_omap_all {T U} (f : T → option U) (l : list T) (n : nat) :
  Forall (λ x, is_Some (f x)) l → omap f l !! n = l !! n ≫= f.
Proof.
  intros Hall. revert n. induction Hall as [|x l [y Hy] _ IH]; intros n; [done|].
  cbn [omap list_omap]. rewrite Hy. destruct n as [|n]; simpl; [done | apply IH].
Qed.

Lemma length_omap_all {T U} (f : T → option U) (l : list T) :
  Forall (λ x, is_Some (f x)) l → length (omap f l) = length l.
Proof.
  induction 1 as [|x l [y Hy] _ IH]; [done|].
  cbn [omap list_omap]. rewrite Hy. simpl. by rewrite IH.
Qed.

Lemma wf_column {T} (m : ndarray T) (j : nat) :
  nd_wf m → j < nd_cols m → Forall (λ row, is_Some (row !! j)) (nd_rows m).
Proof.
  intros Hwf Hj. eapply Forall_impl; [exact Hwf|].
  intros row Hrow. simpl in Hrow. apply lookup_lt_is_Some. lia.
Qed.

(** Entry [(j, n)] of the transpose is entry [(n, j)]. *)
Lemma transpose_entry {T} (m : ndarray T) (j n : nat) :
  nd_wf m → j < nd_cols m →
  nd_rows (transpose m) !! j ≫= (λ row, row !! n)
  = nd_rows m !! n ≫= (λ row, row !! j).
Proof.
  intros Hwf Hj. unfold transpose. simpl.
  rewrite list_lookup_fmap, lookup_seq_lt by done. simpl.
  by apply lookup_omap_all, wf_column.
Qed.

Lemma transpose_wf {T} (m : ndarray T) : nd_wf m → nd_wf (transpose m).
Proof.
  intros Hwf. unfold nd_wf, transpose. simpl.
  apply Forall_fmap, Forall_forall. intros j Hj%elem_of_seq. simpl.
  apply length_omap_all, wf_column; [done | lia].
Qed.

Lemma py_slice_bound_le n i : py_slice_bound n i ≤ n.
Proof. unfold py_slice_bound. destruct (decide (i < 0)%Z); lia. Qed.

Lemma col_slice_wf {T} (start stop : Z) (m : ndarray T) :
  nd_wf m → nd_wf (col_slice start stop m).
Proof.
  intros Hwf. unfold nd_wf, col_slice. simpl.
  apply Forall_fmap. eapply Forall_impl; [exact Hwf|].
  intros row Hrow. simpl in *. unfold py_slice.
  rewrite length_take, length_drop, Hrow.
  pose proof (py_slice_bound_le (nd_cols m) stop). lia.
Qed.

Lemma take_rows_wf {T} (m sampled : ndarray T) idx :
  nd_wf m → take_rows m idx = Ok sampled → nd_wf sampled.
Proof.
  intros Hwf Htake. apply take_rows_rows in Htake as [Hcols Hsub].
  unfold nd_wf in *. rewrite Forall_forall in *. intros row Hrow.
  rewrite Hcols. by apply Hwf, Hsub.
Qed.

Lemma take_rows_lookup {T} (m sampled : ndarray T) idx n :
  take_rows m idx = Ok sampled →
  nd_rows sampled !! n = idx !! n ≫= (λ i, nd_rows m !! i).
Proof.
  unfold take_rows. intros (rows & Hrows & [= <-])%bind_Ok. simpl.
  apply comprehension_Ok in Hrows.
  destruct (idx !! n) as [i|] eqn:Hi; simpl.
  - destruct (Forall2_lookup_l _ _ _ _ _ Hrows Hi) as (row & -> & Hrow).
    destruct (nd_rows m !! i); simpl in Hrow; by simplify_eq.
  - apply lookup_ge_None. apply lookup_ge_None in Hi.
    apply Forall2_length in Hrows. lia.
Qed.

Section test_split.
Context {A B : Type}.
Context `{TorchFloat A}.
Import AllenCaMoviesDataset.

Lemma from_numpy_float_wf (m : ndarray A) : nd_wf m → nd_wf (from_numpy_float m).
Proof.
  intros Hwf. unfold nd_wf, from_numpy_float. simpl.
  apply Forall_fmap. eapply Forall_impl; [exact Hwf|].
  intros row Hrow. simpl. by rewrite length_fmap.
Qed.

(** An entry of the converted array is the conversion of the entry. *)
Lemma from_numpy_float_entry (m : ndarray A) (t n : nat) :
  nd_rows (from_numpy_float m) !! t ≫= (λ row, row !! n)
  = float <$> (nd_rows m !! t ≫= (λ row, row !! n)).
Proof.
  unfold from_numpy_float. simpl. rewrite list_lookup_fmap.
  destruct (nd_rows m !! t) as [row|]; simpl; [|done].
  by rewrite list_lookup_fmap.
Qed.

(** X12.  The test split, entry by entry.  For a rectangular pseudo-mouse
    and a held-out repeat between 1 and 10, [self.neural] has one row per
    frame of a repeat and one column per sampled neuron; its entry at frame
    [t] and column [n] is the 32-bit float that [.float()] makes of the
    activity of the [n]-th sampled neuron at column
    [(r - 1) * movie_len + t] of the pseudo-mouse, and label row [t] is
    feature row [t] when the feature table has one row per frame. *)
Theorem test_split_entries (self : Config) (pseudo_mice neural : ndarray A)
    (frame_feature index : ndarray B) (neurons_indices : list nat) :
  nd_wf pseudo_mice →
  split_flag self = "test"%string →
  (1 ≤ test_repeat self ≤ 10)%Z →
  _split self (shape1 pseudo_mice / 10) neurons_indices pseudo_mice frame_feature
    = Ok (neural, index) →
  nd_wf neural
  ∧ shape0 neural = shape1 pseudo_mice / 10
  ∧ shape1 neural = length neurons_indices
  ∧ (∀ t n, t < shape1 pseudo_mice / 10 → n < length neurons_indices →
       ∃ i row x,
         neurons_indices !! n = Some i ∧ nd_rows pseudo_mice !! i = Some row
         ∧ row !! ((Z.to_nat (test_repeat self) - 1) * (shape1 pseudo_mice / 10) + t)
           = Some x
         ∧ nd_rows neural !! t ≫= (λ frame, frame !! n) = Some (float x))
  ∧ (shape0 frame_feature = shape1 pseudo_mice / 10 →
     ∀ t, t < shape1 pseudo_mice / 10 →
       nd_rows index !! t = nd_rows frame_feature !! t).
Proof.
  intros Hwf Hflag Hr Hsplit. unfold _split in Hsplit. rewrite Hflag in Hsplit.
  simpl in Hsplit. apply bind_Ok in Hsplit as (sampled & Htake & [= <- <-]).
  set (L := shape1 pseudo_mice / 10) in *.
  assert (10 * L ≤ shape1 pseudo_mice) as HT.
  { unfold L. pose proof (Nat.div_mod_eq (shape1 pseudo_mice) 10). lia. }
  set (block := col_slice _ _ sampled).
  assert (nd_wf sampled) as Hswf by (by eapply take_rows_wf).
  assert (nd_wf block) as Hbwf by (by apply col_slice_wf).
  assert (nd_cols sampled = shape1 pseudo_mice) as Hcols
    by (by apply take_rows_rows in Htake as [-> _]).
  assert (nd_cols block = L) as HbL.
  { unfold block, col_slice. simpl. rewrite Hcols. apply repeat_width; [lia | nia]. }
  assert (length (nd_rows sampled) = length neurons_indices) as Hrows.
  { apply take_rows_shape0 in Htake. exact Htake. }
  split; [by apply from_numpy_float_wf, transpose_wf|].
  split; [by rewrite from_numpy_float_shape0, transpose_shape0|].
  split; [unfold shape1, transpose, block, col_slice; simpl; by rewrite length_fmap|].
  split.
  - intros t n Ht Hn.
    destruct (lookup_lt_is_Some_2 neurons_indices n Hn) as [i Hi].
    assert (is_Some (nd_rows sampled !! n)) as [row Hrow]
      by (apply lookup_lt_is_Some; lia).
    pose proof (take_rows_lookup _ _ _ n Htake) as Hlook.
    rewrite Hrow, Hi in Hlook. simpl in Hlook.
    assert (length row = shape1 pseudo_mice) as Hlen.
    { eapply sampled_row_length; [done..|]. by eapply list_elem_of_lookup_2. }
    assert (is_Some (row !! ((Z.to_nat (test_repeat self) - 1) * L + t))) as [x Hx].
    { apply lookup_lt_is_Some. nia. }
    exists i, row, x. split; [done|]. split; [done|]. split; [done|].
    rewrite from_numpy_float_entry, transpose_entry by (done || lia).
    unfold block, col_slice. simpl. rewrite list_lookup_fmap, Hrow. simpl.
    change (py_slice _ _ row) with (repeat_columns L (test_repeat self) row).
    rewrite repeat_columns_block by (lia || nia).
    rewrite lookup_take_lt by done. rewrite lookup_drop.
    replace (Z.to_nat (test_repeat self - 1)) with (Z.to_nat (test_repeat self) - 1)
      by lia.
    by rewrite Hx.
  - intros HF t Ht. rewrite tensor_repeat_lookup by (rewrite HF; lia).
    rewrite Nat.mod_small by lia. done.
Qed.

(** X13.  The held-out repeat is not checked.  With the selector test, a
    held-out repeat 0, or one whose first column lies beyond the last
    column, yields a neural block without any row while the labels keep the
    rows of the feature table. *)
Theorem test_split_out_of_range (self : Config) (pseudo_mice sampled : ndarray A)
    (frame_feature : ndarray B) (movie_len : nat) (neurons_indices : list nat) :
  split_flag self = "test"%string →
  take_rows pseudo_mice neurons_indices = Ok sampled →
  test_repeat self = 0%Z
  ∨ (Z.of_nat (shape1 pseudo_mice) ≤ (test_repeat self - 1) * Z.of_nat movie_len)%Z →
  ∃ neural index,
    _split self movie_len neurons_indices pseudo_mice frame_feature = Ok (neural, index)
    ∧ shape0 neural = 0
    ∧ shape0 index = shape0 frame_feature.
Proof.
  intros Hflag Htake Hrange. unfold _split. rewrite Hflag. simpl. rewrite Htake. simpl.
  eexists _, _. split; [done|]. split.
  - rewrite from_numpy_float_shape0, transpose_shape0. unfold col_slice. simpl.
    apply take_rows_rows in Htake as [-> _].
    unfold py_slice_bound. unfold shape1 in Hrange.
    repeat case_decide; lia || nia.
  - rewrite tensor_repeat_shape0. lia.
Qed.
End test_split.

(** ** Datasets built from the source *)

Section from_source.
Context `{PySetIter} `{NumpyRandom} {A B : Type}.
Context `{TorchFloat A}.
Import AllenCaMoviesDataset.

Lemma _split_columns (self : Config) (pseudo_mice neural : ndarray A)
    (frame_feature index : ndarray B) (neurons_indices : list nat) L :
  _split self L neurons_indices pseudo_mice frame_feature = Ok (neural, index) →
  shape1 neural = length neurons_indices.
Proof.
  unfold _split.
  destruct (String.eqb (split_flag self) "train").
  - intros (block & Hblock & [= <- _])%bind_Ok. unfold train_block in Hblock.
    destruct (decide (1 ≤ test_repeat self ≤ 10)%Z); [|done].
    apply bind_Ok in Hblock as (sampled & Htake & [= <-]).
    apply take_rows_shape0 in Htake.
    unfold shape1, transpose. simpl. by rewrite length_fmap.
  - destruct (String.eqb (split_flag self) "test"); [|done].
    intros (sampled & Htake & [= <- _])%bind_Ok.
    apply take_rows_shape0 in Htake.
    unfold shape1, transpose, col_slice. simpl. by rewrite length_fmap.
Qed.

(** X14.  A dataset built from the source records the sample it drew: as
    many row positions of the pseudo-mouse as neurons were asked for, each
    within the pseudo-mouse, and these are the draws of the generator seeded
    with [seed]; the repeat length is a tenth of the column count, and with
    the selector test the input dimension is the number of neurons asked
    for. *)
Theorem built_dataset_sample (self : Config) cortex exp_containers summary
    (traces : gmap Z (list (ndarray A))) (frame_feature : ndarray B) (d : Dataset A B) :
  __init__ self cortex exp_containers summary traces frame_feature None = Ok d →
  ∃ pseudo_mice sample,
    _get_pseudo_mice cortex exp_containers summary traces = Ok pseudo_mice
    ∧ config d = self
    ∧ movie_len d = Some (shape1 pseudo_mice / 10)
    ∧ neurons_indices d = Some sample
    ∧ length sample = num_neurons self
    ∧ Forall (λ i, i < shape0 pseudo_mice) sample
    ∧ (0 < num_neurons self →
       0 < shape0 pseudo_mice
       ∧ sample = integers (PCG64 (seed self)) (shape0 pseudo_mice) (num_neurons self))
    ∧ (split_flag self = "test"%string → input_dimension d = num_neurons self).
Proof.
  unfold __init__.
  intros (pm & Hpm & (idx & Hidx & ([n i] & Hsplit & [= <-])%bind_Ok)%bind_Ok)%bind_Ok.
  exists pm, idx. simpl.
  unfold _sample_neurons in Hidx. rewrite choice_arange in Hidx.
  assert (length idx = num_neurons self ∧ Forall (λ i, i < shape0 pm) idx
          ∧ (0 < num_neurons self →
             0 < shape0 pm
             ∧ idx = integers (PCG64 (seed self)) (shape0 pm) (num_neurons self)))
    as (Hlen & Hlt & Hdraw).
  { destruct (decide (shape0 pm = 0)) as [Hz|Hnz].
    - destruct (decide (num_neurons self = 0)) as [Hk|]; [|done].
      injection Hidx as <-. split; [done|]. split; [constructor | lia].
    - injection Hidx as <-. split; [apply integers_length|].
      split; [apply integers_lt; lia|]. intros _. split; [lia | done]. }
  repeat split; try done.
  - by apply Hdraw.
  - by apply Hdraw.
  - intros _. unfold input_dimension. simpl.
    rewrite (_split_columns _ _ _ _ _ _ _ Hsplit). done.
Qed.
End from_source.

(** ** The disjoint split *)

Lemma array_split_2_halves {T} (ary : list T) :
  array_split ary 2
  = Ok [take (length ary - length ary / 2) ary; drop (length ary - length ary / 2) ary].
Proof.
  unfold array_split. destruct (decide (2 = 0)); [done|].
  pose proof (Nat.div_mod_eq (length ary) 2) as Hdm.
  pose proof (Nat.mod_upper_bound (length ary) 2) as Hmod.
  remember (length ary / 2) as q eqn:Hq. remember (length ary mod 2) as e eqn:He.
  clear Hq He. destruct e as [|[|e]]; [| |lia]; simpl.
  - replace (length ary - q) with q by lia.
    do 3 f_equal. apply take_ge. rewrite length_drop. lia.
  - replace (length ary - q) with (q + 1) by lia.
    do 3 f_equal. apply take_ge. rewrite length_drop. lia.
Qed.

Section disjoint_sampler.
Context `{NumpyRandom} {A : Type}.
Import AllenCaMoviesDisjointDataset.

Lemma _sample_neurons_groups (seed num_neurons : nat) (pseudo_mice : ndarray A) :
  let p := permutation (Generator (PCG64 seed)) (shape0 pseudo_mice) in
  let h := shape0 pseudo_mice - shape0 pseudo_mice / 2 in
  _sample_neurons seed num_neurons 0 pseudo_mice = Ok (take num_neurons (take h p))
  ∧ _sample_neurons seed num_neurons 1 pseudo_mice = Ok (take num_neurons (drop h p))
  ∧ length p = shape0 pseudo_mice ∧ NoDup p.
Proof.
  intros p h. unfold _sample_neurons. fold p.
  assert (length p = shape0 pseudo_mice) as Hlen.
  { unfold p. by rewrite permutation_perm, length_seq. }
  rewrite array_split_2_halves, Hlen. fold h.
  split; [done|]. split; [done|]. split; [done|].
  unfold p. rewrite permutation_perm. apply NoDup_seq.
Qed.

(** X15.  The sizes of the two groups and the group selector.  Group 0 is
    drawn from the first, larger half of the permutation and holds
    min(num_neurons, N - N/2) indices, group 1 from the second half and holds
    min(num_neurons, N/2); the selectors -2 and -1 name the same groups, and
    any other selector raises [IndexError]. *)
Theorem disjoint_sample_sizes (seed num_neurons : nat) (pseudo_mice : ndarray A) :
  (∃ group0, _sample_neurons seed num_neurons 0 pseudo_mice = Ok group0
     ∧ length group0 = num_neurons `min` (shape0 pseudo_mice - shape0 pseudo_mice / 2))
  ∧ (∃ group1, _sample_neurons seed num_neurons 1 pseudo_mice = Ok group1
       ∧ length group1 = num_neurons `min` (shape0 pseudo_mice / 2))
  ∧ _sample_neurons seed num_neurons (-2) pseudo_mice
    = _sample_neurons seed num_neurons 0 pseudo_mice
  ∧ _sample_neurons seed num_neurons (-1) pseudo_mice
    = _sample_neurons seed num_neurons 1 pseudo_mice
  ∧ ∀ group, (group < -2 ∨ 2 ≤ group)%Z →
      _sample_neurons seed num_neurons group pseudo_mice = Raise IndexError.
Proof.
  destruct (_sample_neurons_groups seed num_neurons pseudo_mice) as (H0 & H1 & Hlen & _).
  split; [|split; [|split; [|split]]].
  - eexists. split; [exact H0|]. rewrite !length_take, Hlen. lia.
  - eexists. split; [exact H1|]. rewrite length_take, length_drop, Hlen.
    pose proof (Nat.div_mod_eq (shape0 pseudo_mice) 2).
    pose proof (Nat.mod_upper_bound (shape0 pseudo_mice) 2). lia.
  - unfold _sample_neurons. by rewrite array_split_2_halves.
  - unfold _sample_neurons. by rewrite array_split_2_halves.
  - intros group Hgroup. unfold _sample_neurons. rewrite array_split_2_halves. simpl.
    unfold py_getitem, py_norm_index. simpl.
    repeat case_decide; try lia; done.
Qed.

(** X16.  When at least half of the rows, rounded up, are asked for, the two
    groups together hold every row of the pseudo-mouse exactly once. *)
Theorem disjoint_groups_cover (seed num_neurons : nat) (pseudo_mice : ndarray A)
    (group0 group1 : list nat) :
  shape0 pseudo_mice - shape0 pseudo_mice / 2 ≤ num_neurons →
  _sample_neurons seed num_neurons 0 pseudo_mice = Ok group0 →
  _sample_neurons seed num_neurons 1 pseudo_mice = Ok group1 →
  group0 ++ group1 ≡ₚ seq 0 (shape0 pseudo_mice).
Proof.
  intros Hk Hg0 Hg1.
  destruct (_sample_neurons_groups seed num_neurons pseudo_mice) as (H0 & H1 & Hlen & _).
  set (p := permutation (Generator (PCG64 seed)) (shape0 pseudo_mice)) in *.
  set (h := shape0 pseudo_mice - shape0 pseudo_mice / 2) in *.
  assert (group0 = take num_neurons (take h p)) as -> by congruence.
  assert (group1 = take num_neurons (drop h p)) as -> by congruence.
  rewrite (take_ge (take _ _)) by (rewrite length_take; lia).
  rewrite (take_ge (drop _ _)).
  - rewrite take_drop. apply permutation_perm.
  - rewrite length_drop, Hlen. unfold h in *.
    pose proof (Nat.div_mod_eq (shape0 pseudo_mice) 2).
    pose proof (Nat.mod_upper_bound (shape0 pseudo_mice) 2). lia.
Qed.
End disjoint_sampler.

Section disjoint_datasets.
Context `{NumpyRandom} {A B : Type}.
Context `{TorchFloat A}.
Context (movie_entry : string → result (string * option (Z * Z))).
Import AllenCaMoviesDisjointDataset.

Lemma __init___sample num_movie cortex group (self : AllenCaMoviesDataset.Config)
    (list_mice : list (gmap string (mat_var A))) (frame_feature : ndarray B)
    (d : Dataset A B) :
  __init__ movie_entry num_movie cortex group self list_mice frame_feature = Ok d →
  ∃ pseudo_mice sample,
    _get_pseudo_mice movie_entry cortex num_movie list_mice = Ok pseudo_mice
    ∧ _sample_neurons (AllenCaMoviesDataset.seed self)
        (AllenCaMoviesDataset.num_neurons self) group pseudo_mice = Ok sample
    ∧ AllenCaMoviesDataset.neurons_indices (base d) = Some sample
    ∧ AllenCaMoviesDisjointDataset.group d = group.
Proof.
  unfold __init__.
  intros (pm & Hpm & (idx & Hidx & ([n i] & Hsplit & [= <-])%bind_Ok)%bind_Ok)%bind_Ok.
  by exists pm, idx.
Qed.

(** X17.  Two disjoint datasets built from the same files with the same seed,
    one for group 0 and one for group 1, never sample the same row of the
    pseudo-mouse, and neither samples a row twice or more rows than its
    [num_neurons]. *)
Theorem disjoint_datasets_share_no_neuron num_movie cortex
    (self self' : AllenCaMoviesDataset.Config)
    (list_mice : list (gmap string (mat_var A))) (frame_feature : ndarray B)
    (d0 d1 : Dataset A B) :
  AllenCaMoviesDataset.seed self = AllenCaMoviesDataset.seed self' →
  __init__ movie_entry num_movie cortex 0 self list_mice frame_feature = Ok d0 →
  __init__ movie_entry num_movie cortex 1 self' list_mice frame_feature = Ok d1 →
  ∃ sample0 sample1,
    AllenCaMoviesDataset.neurons_indices (base d0) = Some sample0
    ∧ AllenCaMoviesDataset.neurons_indices (base d1) = Some sample1
    ∧ NoDup (sample0 ++ sample1)
    ∧ (∀ i, i ∈ sample0 → i ∉ sample1)
    ∧ length sample0 ≤ AllenCaMoviesDataset.num_neurons self
    ∧ length sample1 ≤ AllenCaMoviesDataset.num_neurons self'.
Proof.
  intros Hseed Hd0 Hd1.
  destruct (__init___sample _ _ _ _ _ _ _ Hd0) as (pm & s0 & Hpm & Hs0 & Hn0 & _).
  destruct (__init___sample _ _ _ _ _ _ _ Hd1) as (pm' & s1 & Hpm' & Hs1 & Hn1 & _).
  assert (pm' = pm) as -> by congruence.
  exists s0, s1.
  destruct (_sample_neurons_groups (AllenCaMoviesDataset.seed self)
              (AllenCaMoviesDataset.num_neurons self) pm) as (Hg0 & _ & _ & Hnd).
  destruct (_sample_neurons_groups (AllenCaMoviesDataset.seed self')
              (AllenCaMoviesDataset.num_neurons self') pm) as (_ & Hg1 & _ & _).
  rewrite <- Hseed in Hg1.
  set (p := permutation (Generator (PCG64 (AllenCaMoviesDataset.seed self))) (shape0 pm)) in *.
  set (h := shape0 pm - shape0 pm / 2) in *.
  assert (s0 = take (AllenCaMoviesDataset.num_neurons self) (take h p)) as ->
    by congruence.
  assert (s1 = take (AllenCaMoviesDataset.num_neurons self') (drop h p)) as ->
    by congruence.
  assert (NoDup (take (AllenCaMoviesDataset.num_neurons self) (take h p)
                 ++ take (AllenCaMoviesDataset.num_neurons self') (drop h p))) as Hnd2.
  { eapply sublist_NoDup; [exact Hnd|].
    trans (take h p ++ drop h p); [|by rewrite take_drop].
    apply sublist_app; apply sublist_take. }
  repeat split; try done.
  - by apply NoDup_app in Hnd2 as (_ & ? & _).
  - rewrite length_take. lia.
  - rewrite length_take. lia.
Qed.
End disjoint_datasets.

(** ** [AllenCaMovieDataset] *)

Section movie_dataset.
Context `{PySetIter} `{NumpyRandom} {A B : Type}.
Context `{TorchFloat A}.
Context (fit_transform : ndarray A → ndarray A).
Import AllenCaMovieDataset.

(** X18.  The dataset without a split keeps every time step: built from
    the source without PCA, it has one row per column of the pseudo-mouse
    (no remainder is dropped) and one column per requested neuron, while its
    labels are the feature table ten times over, in order; with PCA it has at
    most 32 columns; a preloaded array is taken as it is. *)
Theorem movie_dataset_shape area exp_containers summary
    (traces : gmap Z (list (ndarray A))) (frame_feature : ndarray B)
    (num_neurons seed : nat) (pca : bool) (load : option (ndarray A))
    (d : Dataset A B) :
  __init__ fit_transform area exp_containers summary traces frame_feature
    num_neurons seed pca load = Ok d →
  shape0 (continuous_index d) = 10 * shape0 frame_feature
  ∧ (∀ t, t < 10 * shape0 frame_feature →
       nd_rows (continuous_index d) !! t
       = nd_rows frame_feature !! (t mod shape0 frame_feature))
  ∧ (∀ data, load = Some data → neural d = data)
  ∧ (load = None →
     ∃ pseudo_data,
       _get_pseudo_mice area exp_containers summary traces = Ok pseudo_data
       ∧ (pca = false →
          __len__ d = shape1 pseudo_data ∧ input_dimension d = num_neurons)
       ∧ (pca = true → input_dimension d ≤ 32)).
Proof.
  unfold __init__. intros (data & Hneural & [= <-])%bind_Ok.
  unfold continuous_index, __len__, input_dimension, _get_index.
  cbn [neural index].
  split; [apply tensor_repeat_shape0|].
  split; [intros t Ht; by apply tensor_repeat_lookup|].
  split; [intros data' ->; by injection Hneural|].
  intros ->.
  apply bind_Ok in Hneural as (pm & Hpm & (idx & Hidx & Hrest)%bind_Ok).
  exists pm. split; [done|]. split.
  - intros ->. apply bind_Ok in Hrest as (sampled & Htake & [= <-]).
    rewrite from_numpy_float_shape0, transpose_shape0. unfold shape1, transpose. simpl.
    apply take_rows_rows in Htake as Hcols. destruct Hcols as [-> _].
    split; [done|]. apply take_rows_shape0 in Htake. unfold shape0 in Htake.
    rewrite Htake. unfold neurons_indices in Hidx. rewrite choice_arange in Hidx.
    destruct (decide (shape0 pm = 0)).
    + destruct (decide (num_neurons = 0)) as [->|]; [|done]. by injection Hidx as <-.
    + injection Hidx as <-. apply integers_length.
  - intros ->. apply bind_Ok in Hrest as (sampled & Htake & [= <-]).
    unfold shape1, from_numpy_float, col_slice, py_slice_bound. cbn [nd_cols].
    repeat case_decide; lia.
Qed.
End movie_dataset.

(** * Runs on concrete inputs *)

Local Open Scope string_scope.

(** Three sessions that list an id twice: the common neurons are 1 and 2,
    first met at the positions 0 and 2, 0 and 1, 0 and 1, in this order in
    every session. *)
Lemma container_indices_same_order_witness :
  ∃ indices1 indices2 indices3,
    AllenCaMovieDataset.container_indices (H := elements_iter)
      ["[1 1 2]"; "[1 2 2]"; "[1 2 5]"] = Ok [indices1; indices2; indices3]
    ∧ indices1 = [0; 2] ∧ indices2 = [0; 1] ∧ indices3 = [0; 1]
    ∧ same_neuron [1; 1; 2]%Z [1; 2; 2]%Z indices1 indices2
    ∧ same_neuron [1; 1; 2]%Z [1; 2; 5]%Z indices1 indices3
    ∧ same_neuron [1; 2; 2]%Z [1; 2; 5]%Z indices2 indices3.
Proof.
  destruct (container_indices_same_order (H := elements_iter)
              ["[1 1 2]"; "[1 2 2]"; "[1 2 5]"]
              [1; 1; 2]%Z [1; 2; 2]%Z [1; 2; 5]%Z)
    as (i1 & i2 & i3 & Hc & H1 & H2 & H3 & _ & _ & _ & S12 & S13 & S23).
  - reflexivity.
  - reflexivity.
  - reflexivity.
  - exists i1, i2, i3. split; [exact Hc|].
    split; [rewrite H1; vm_compute; reflexivity|].
    split; [rewrite H2; vm_compute; reflexivity|].
    split; [rewrite H3; vm_compute; reflexivity|].
    split; [apply S12; vm_compute; reflexivity|].
    split; [apply S13; vm_compute; reflexivity|].
    apply S23. vm_compute. reflexivity.
Defined.

(** C1 as stated fails: with sessions [1,2], [2,1], [1,2] every position
    list is [0,1], and position 0 is neuron 1 in the first session and
    neuron 2 in the second. *)
Lemma container_indices_misaligned :
  ¬ (∀ (S : PySetIter) (neurons : list string) (ids1 ids2 ids3 : list Z)
       (indices1 indices2 indices3 : list nat),
       iloc neurons 0 ≫= AllenCaMovieDataset._convert_to_nums = Ok ids1 →
       iloc neurons 1 ≫= AllenCaMovieDataset._convert_to_nums = Ok ids2 →
       iloc neurons 2 ≫= AllenCaMovieDataset._convert_to_nums = Ok ids3 →
       AllenCaMovieDataset.container_indices neurons
         = Ok [indices1; indices2; indices3] →
       same_neuron ids1 ids2 indices1 indices2
       ∧ same_neuron ids1 ids3 indices1 indices3
       ∧ same_neuron ids2 ids3 indices2 indices3).
Proof.
  intros Hclaim.
  destruct (Hclaim elements_iter ["[1 2]"; "[2 1]"; "[1 2]"]
              [1; 2]%Z [2; 1]%Z [1; 2]%Z [0; 1] [0; 1] [0; 1]) as (H12 & _);
    [reflexivity..|].
  specialize (H12 0 0 0 eq_refl eq_refl). discriminate H12.
Qed.

(** On the container of section 8 the pseudo-mouse has nine rows, three
    for each of the common neurons 2, 5 and 7. *)
Lemma pseudo_mice_row_count_witness :
  ∃ commons : list (gset Z),
    Forall2 (λ c X, container_common summary_8 c = Ok X)
            (included_containers (H := elements_iter) "VISp" [7%Z] summary_8) commons
    ∧ 9 = 3 * sum_list (size <$> commons).
Proof.
  apply (pseudo_mice_row_count (H := elements_iter) "VISp" [7%Z] summary_8 traces_8
           (mk_ndarray [[110; 111]; [120; 121]; [130; 131];
                        [200; 201]; [210; 211]; [220; 221];
                        [310; 311]; [320; 321]; [330; 331]] 2)).
  vm_compute. reflexivity.
Defined.

(** C2 as stated fails: the same container has three common neurons and
    contributes nine rows. *)
Lemma pseudo_mice_rows_not_sum :
  ¬ (∀ (S : PySetIter) (area : string) (exp_containers : list Z)
       (summary : list SummaryRow) (traces : gmap Z (list (ndarray nat)))
       (pseudo_mouse : ndarray nat) (commons : list (gset Z)),
       AllenCaMovieDataset._get_pseudo_mice area exp_containers summary traces
         = Ok pseudo_mouse →
       Forall2 (λ c X, container_common summary c = Ok X)
               (included_containers area exp_containers summary) commons →
       shape0 pseudo_mouse = sum_list (size <$> commons)).
Proof.
  intros Hclaim.
  specialize (Hclaim elements_iter "VISp" [7%Z] summary_8 traces_8 _
                [{[2%Z; 5%Z; 7%Z]}] eq_refl).
  assert (9 = 3) as Habs; [|discriminate Habs].
  apply Hclaim. constructor; [|constructor].
  vm_compute. reflexivity.
Qed.

(** Container 9 has a single row, of an excluded line: the pseudo-mouse is
    the one of the table without it. *)
Lemma excluded_container_contributes_nothing_witness :
  (9%Z ∉ included_containers (H := elements_iter) "VISp" [7%Z; 9%Z] summary_excluded)
  ∧ AllenCaMovieDataset._get_pseudo_mice (H := elements_iter)
      "VISp" [7%Z; 9%Z] summary_excluded traces_8
    = AllenCaMovieDataset._get_pseudo_mice (H := elements_iter)
        "VISp" [7%Z; 9%Z] summary_8 traces_8.
Proof.
  destruct (excluded_container_contributes_nothing (H := elements_iter)
              "VISp" [7%Z; 9%Z] summary_excluded traces_8 9%Z) as (Hnot & Heq & _).
  - apply (proj1 (Forall_forall
                    (λ r, exp r = 9%Z → excluded_line r) summary_excluded)).
    apply (bool_decide_unpack _). vm_compute. exact I.
  - split; [exact Hnot | exact Heq].
Defined.

(** C3 as stated fails: a row of an excluded line that belongs to a container
    with a row that passes the filter is read.  Changing the neuron list of
    such a row changes the pseudo-mouse. *)
Lemma excluded_row_is_read :
  ¬ (∀ (S : PySetIter) (area : string) (exp_containers : list Z)
       (before after : list SummaryRow) (e : Z) (t line st n n' : string)
       (traces : gmap Z (list (ndarray nat))),
       excluded_line (mk_row e t line st n) →
       AllenCaMovieDataset._get_pseudo_mice area exp_containers
         (before ++ mk_row e t line st n :: after) traces
       = AllenCaMovieDataset._get_pseudo_mice area exp_containers
           (before ++ mk_row e t line st n' :: after) traces).
Proof.
  intros Hclaim.
  specialize (Hclaim elements_iter "VISp" [7%Z]
    [mk_row 7 "VISp" "Cux2-CreERT2" "three_session_A" "[1 2 5 7]"]
    [mk_row 7 "VISp" "Cux2-CreERT2" "three_session_C" "[1 2 5 7 9]"]
    7%Z "VISp" "Vip-IRES-Cre" "three_session_B" "[2 5 7 9]" "[2 5 9]" traces_8 I).
  vm_compute in Hclaim. discriminate Hclaim.
Qed.

(** Container 7 over 23 time steps, repeat 3 held out, rows 8 and 6
    sampled: the repeat length is 2 and the test block is the columns 4 and
    5 of the two rows. *)
Lemma split_repeat_blocks_witness :
  ∃ sampled : ndarray nat,
    take_rows (mk_ndarray ((λ b, seq b 23) <$>
                 [1100; 1200; 1300; 2000; 2100; 2200; 3100; 3200; 3300]) 23) [8; 6]
      = Ok sampled
    ∧ nd_rows sampled = [seq 3300 23; seq 3100 23]
    ∧ AllenCaMoviesDataset.__init__ (H := elements_iter) (H0 := lcg_random)
        (AllenCaMoviesDataset.mk_config 2 5 "test" 3) "VISp" [7%Z]
        summary_8 traces_23 frame_feature_2 None
      = Ok (AllenCaMoviesDataset.mk_dataset (AllenCaMoviesDataset.mk_config 2 5 "test" 3)
              (Some 2) (Some [8; 6]) (mk_ndarray [[3304; 3104]; [3305; 3105]] 2)
              (mk_ndarray [[7]; [8]] 1))
    ∧ mk_ndarray [[3304; 3104]; [3305; 3105]] 2
      = from_numpy_float
          (transpose (mk_ndarray ((λ row, take 2 (drop 4 row)) <$> nd_rows sampled) 2)).
Proof.
  destruct (split_repeat_blocks (H := elements_iter) (H0 := lcg_random)
              (AllenCaMoviesDataset.mk_config 2 5 "test" 3) "VISp" [7%Z]
              summary_8 traces_23 frame_feature_2
              (AllenCaMoviesDataset.mk_dataset
                 (AllenCaMoviesDataset.mk_config 2 5 "test" 3)
                 (Some 2) (Some [8; 6]) (mk_ndarray [[3304; 3104]; [3305; 3105]] 2)
                 (mk_ndarray [[7]; [8]] 1))
              (mk_ndarray ((λ b, seq b 23) <$>
                 [1100; 1200; 1300; 2000; 2100; 2200; 3100; 3200; 3300]) 23))
    as (idx & sampled & _ & Hidx & Htake & Htest & _).
  - vm_compute. reflexivity.
  - vm_compute. reflexivity.
  - vm_compute. repeat constructor.
  - simpl. lia.
  - injection Hidx as <-. exists sampled. split; [exact Htake|].
    split; [vm_compute in Htake; injection Htake as <-; reflexivity|].
    split; [vm_compute; reflexivity|]. exact (Htest eq_refl).
Defined.

(** The test split of container 7 over 23 time steps with repeat 10 held
    out and a feature table of two frames: two label rows and two neural
    rows. *)
Lemma label_rows_match_neural_rows_witness :
  ∃ d : AllenCaMoviesDataset.Dataset nat nat,
    AllenCaMoviesDataset.__init__ (H := elements_iter) (H0 := lcg_random)
      (AllenCaMoviesDataset.mk_config 2 5 "test" 10) "VISp" [7%Z]
      summary_8 traces_23 frame_feature_2 None = Ok d
    ∧ shape0 (AllenCaMoviesDataset.continuous_index d) = 1 * 2
    ∧ shape0 (AllenCaMoviesDataset.continuous_index d) = AllenCaMoviesDataset.__len__ d.
Proof.
  exists (AllenCaMoviesDataset.mk_dataset (AllenCaMoviesDataset.mk_config 2 5 "test" 10)
            (Some 2) (Some [8; 6]) (mk_ndarray [[3318; 3118]; [3319; 3119]] 2)
            (mk_ndarray [[7]; [8]] 1)).
  destruct (label_rows_match_neural_rows (H := elements_iter) (H0 := lcg_random)
              (AllenCaMoviesDataset.mk_config 2 5 "test" 10) "VISp" [7%Z]
              summary_8 traces_23 frame_feature_2 None
              (AllenCaMoviesDataset.mk_dataset
                 (AllenCaMoviesDataset.mk_config 2 5 "test" 10)
                 (Some 2) (Some [8; 6]) (mk_ndarray [[3318; 3118]; [3319; 3119]] 2)
                 (mk_ndarray [[7]; [8]] 1)))
    as (_ & _ & Hsource).
  - vm_compute. reflexivity.
  - split; [vm_compute; reflexivity|].
    destruct (Hsource eq_refl) as (pm & L & _ & _ & HL & _ & _ & _ & _ & Haligned).
    injection HL as <-.
    destruct Haligned as [_ Htest]; [reflexivity | simpl; lia |].
    exact (Htest eq_refl).
Defined.

(** C5 as stated fails: the held-out repeat is not checked.  With the
    selector test and the repeat 0 the labels have the two rows of the
    feature table and the neural block has none. *)
Lemma label_rows_not_aligned :
  ¬ (∀ (S : PySetIter) (R : NumpyRandom) (F : TorchFloat nat)
       (self : AllenCaMoviesDataset.Config) (cortex : string) (exp_containers : list Z)
       (summary : list SummaryRow) (traces : gmap Z (list (ndarray nat)))
       (frame_feature : ndarray nat) (preload : option (ndarray nat))
       (d : AllenCaMoviesDataset.Dataset nat nat) (repeat_len : nat),
       AllenCaMoviesDataset.__init__ self cortex exp_containers summary traces
         frame_feature preload = Ok d →
       AllenCaMoviesDataset.movie_len d = Some repeat_len →
       (AllenCaMoviesDataset.split_flag self = "train" →
        shape0 (AllenCaMoviesDataset.continuous_index d) = 9 * repeat_len
        ∧ shape0 (AllenCaMoviesDataset.continuous_index d)
          = AllenCaMoviesDataset.__len__ d)
       ∧ (AllenCaMoviesDataset.split_flag self = "test" →
          shape0 (AllenCaMoviesDataset.continuous_index d) = 1 * repeat_len
          ∧ shape0 (AllenCaMoviesDataset.continuous_index d)
            = AllenCaMoviesDataset.__len__ d)).
Proof.
  intros Hclaim.
  destruct (Hclaim elements_iter lcg_random nat_float
              (AllenCaMoviesDataset.mk_config 2 5 "test" 0) "VISp" [7%Z]
              summary_8 traces_23 frame_feature_2 None
              (AllenCaMoviesDataset.mk_dataset
                 (AllenCaMoviesDataset.mk_config 2 5 "test" 0)
                 (Some 2) (Some [8; 6]) (mk_ndarray [] 2) (mk_ndarray [[7]; [8]] 1))
              2) as [_ Htest].
  - vm_compute. reflexivity.
  - reflexivity.
  - destruct (Htest eq_refl) as [_ Hrows]. vm_compute in Hrows. discriminate Hrows.
Qed.

(** Two constructions with seed 3 and 5 neurons over two rows: the split
    selector, the held-out repeat and the entries differ, the sample does
    not. *)
Lemma with_replacement_choice_deterministic_witness :
  AllenCaMoviesDataset._sample_neurons (H0 := lcg_random)
    (AllenCaMoviesDataset.mk_config 5 3 "train" 10) pseudo_mice_23
  = AllenCaMoviesDataset._sample_neurons (H0 := lcg_random)
      (AllenCaMoviesDataset.mk_config 5 3 "test" 4) (mk_ndarray [[true]; [false]] 1)
  ∧ AllenCaMoviesDataset._sample_neurons (H0 := lcg_random)
      (AllenCaMoviesDataset.mk_config 5 3 "train" 10) pseudo_mice_23
    = Ok [1; 0; 1; 0; 0].
Proof.
  destruct (with_replacement_choice_deterministic (H := lcg_random)
              (AllenCaMoviesDataset.mk_config 5 3 "train" 10)
              (AllenCaMoviesDataset.mk_config 5 3 "test" 4)
              pseudo_mice_23 (mk_ndarray [[true]; [false]] 1)) as (Hsame & _ & _ & _).
  - reflexivity.
  - reflexivity.
  - reflexivity.
  - split; [exact Hsame | reflexivity].
Defined.

(** Five neurons asked of two rows: the choice returns five indices, and
    group 0 of the disjoint split returns its whole half, one index.  Five
    neurons asked of six rows: group 0 returns its whole half, three
    indices. *)
Lemma oversized_sample_is_drawn_witness :
  (∃ neurons_indices,
     AllenCaMoviesDataset._sample_neurons (H0 := lcg_random)
       (AllenCaMoviesDataset.mk_config 5 3 "train" 10) pseudo_mice_23 = Ok neurons_indices
     ∧ length neurons_indices = 5
     ∧ Forall (λ i, i < 2) neurons_indices
     ∧ ¬ NoDup neurons_indices)
  ∧ AllenCaMoviesDisjointDataset._sample_neurons (H := lcg_random) 3 5 0 pseudo_mice_23
    = Ok [1]
  ∧ AllenCaMoviesDisjointDataset._sample_neurons (H := lcg_random) 3 5 0
      (mk_ndarray [[100; 101]; [110; 111]; [120; 121]; [130; 131];
                   [400; 401]; [410; 411]] 2)
    = Ok [5; 0; 1].
Proof.
  destruct (oversized_sample_is_drawn (H := lcg_random)
              (AllenCaMoviesDataset.mk_config 5 3 "train" 10) pseudo_mice_23
              0%Z [[1]; [0]] [1]) as (Hchoice & _ & Hdisjoint).
  - reflexivity.
  - reflexivity.
  - destruct (oversized_sample_is_drawn (H := lcg_random)
                (AllenCaMoviesDataset.mk_config 5 3 "train" 10)
                (mk_ndarray [[100; 101]; [110; 111]; [120; 121]; [130; 131];
                             [400; 401]; [410; 411]] 2)
                0%Z [[5; 0; 1]; [2; 3; 4]] [5; 0; 1]) as (_ & _ & Hhalf).
    + vm_compute. reflexivity.
    + reflexivity.
    + split; [apply Hchoice; vm_compute; lia|].
      split; [apply Hdisjoint; vm_compute; lia | apply Hhalf; vm_compute; lia].
Defined.

(** C8 as stated fails on both samplers: with five neurons asked of two
    rows neither of them raises. *)
Lemma oversized_sample_not_refused :
  ¬ (∀ (R : NumpyRandom) (self : AllenCaMoviesDataset.Config) (pseudo_mice : ndarray nat),
       shape0 pseudo_mice < AllenCaMoviesDataset.num_neurons self →
       ∃ e, AllenCaMoviesDataset._sample_neurons self pseudo_mice = Raise e)
  ∧ ¬ (∀ (R : NumpyRandom) (seed num_neurons : nat) (group : Z)
         (pseudo_mice : ndarray nat) (halves : list (list nat)) (half : list nat),
         array_split (permutation (Generator (PCG64 seed)) (shape0 pseudo_mice)) 2
           = Ok halves →
         py_getitem halves group = Ok half →
         length half < num_neurons →
         ∃ e, AllenCaMoviesDisjointDataset._sample_neurons seed num_neurons group
                pseudo_mice = Raise e).
Proof.
  split.
  - intros Hclaim.
    destruct (Hclaim lcg_random (AllenCaMoviesDataset.mk_config 5 3 "train" 10)
                pseudo_mice_23) as [e He]; [vm_compute; lia|].
    vm_compute in He. discriminate He.
  - intros Hclaim.
    destruct (Hclaim lcg_random 3 5 0%Z pseudo_mice_23 [[1]; [0]] [1]) as [e He];
      [reflexivity | reflexivity | vm_compute; lia |].
    vm_compute in He. discriminate He.
Qed.

(** C9, at the failing input.  With a preloaded file the selector
    validation is accepted and the labels are those of the test split; built
    from the source, the same selector raises [ValueError]. *)
Lemma preload_accepts_unrecognized_selector :
  AllenCaMoviesDataset.__init__ (H := elements_iter) (H0 := lcg_random)
    (AllenCaMoviesDataset.mk_config 2 5 "validation" 10) "VISp" [7%Z]
    summary_8 traces_23 frame_feature_2 (Some pseudo_mice_23)
  = Ok (AllenCaMoviesDataset.mk_dataset
          (AllenCaMoviesDataset.mk_config 2 5 "validation" 10) None None
          pseudo_mice_23 (tensor_repeat 1 1 frame_feature_2))
  ∧ AllenCaMoviesDataset.__init__ (H := elements_iter) (H0 := lcg_random)
      (AllenCaMoviesDataset.mk_config 2 5 "validation" 10) "VISp" [7%Z]
      summary_8 traces_23 frame_feature_2 None
    = Raise ValueError.
Proof. split; vm_compute; reflexivity. Qed.

(** Two files of the first movie: the pseudo-mouse is the first session of
    the one on top of the first session of the other, 4 + 2 rows. *)
Lemma disjoint_pseudo_mice_rows_witness :
  ∃ events : list (ndarray nat),
    Forall2 (λ mat ev,
               AllenCaMoviesDisjointDataset._get_neural_data movie_entry_keys "one" mat
                 = Ok ev ∧ stored_session mat ev) list_mice_2 events
    ∧ events = [session_traces 1 4; session_traces 4 2]
    ∧ 6 = sum_list (shape0 <$> events).
Proof.
  destruct (disjoint_pseudo_mice_rows movie_entry_keys "VISp" "one" list_mice_2
              (mk_ndarray [[100; 101]; [110; 111]; [120; 121]; [130; 131];
                           [400; 401]; [410; 411]] 2))
    as (events & Hev & _ & Hrows).
  - vm_compute. reflexivity.
  - exists events. split; [exact Hev|]. split; [|exact Hrows].
    apply Forall2_cons_inv_l in Hev as (ev1 & evs & [He1 _] & Hev & ->).
    apply Forall2_cons_inv_l in Hev as (ev2 & evs' & [He2 _] & Hev & ->).
    apply Forall2_nil_inv_l in Hev as ->.
    vm_compute in He1, He2. by simplify_eq.
Defined.

(** Built from the source, the selector validation is refused. *)
Lemma __init___unrecognized_witness :
  ∃ e, AllenCaMoviesDataset.__init__ (H := elements_iter) (H0 := lcg_random)
         (AllenCaMoviesDataset.mk_config 2 5 "validation" 10) "VISp" [7%Z]
         summary_8 traces_23 frame_feature_2 None = Raise e.
Proof.
  apply (__init___unrecognized (H := elements_iter) (H0 := lcg_random)
           (AllenCaMoviesDataset.mk_config 2 5 "validation" 10)).
  - discriminate.
  - discriminate.
Defined.

(** The position lists of the sessions of section 8. *)
Lemma container_indices_invariants_witness :
  ∃ ids1 ids2 ids3 : list Z,
    iloc ["[1 2 5 7]"; "[2 5 7 9]"; "[1 2 5 7 9]"] 0
      ≫= AllenCaMovieDataset._convert_to_nums = Ok ids1
    ∧ iloc ["[1 2 5 7]"; "[2 5 7 9]"; "[1 2 5 7 9]"] 1
        ≫= AllenCaMovieDataset._convert_to_nums = Ok ids2
    ∧ iloc ["[1 2 5 7]"; "[2 5 7 9]"; "[1 2 5 7 9]"] 2
        ≫= AllenCaMovieDataset._convert_to_nums = Ok ids3
    ∧ Forall2 (λ (ids : list Z) (idx : list nat),
                 Sorted le idx ∧ NoDup idx
                 ∧ length idx = size (AllenCaMovieDataset.common_neurons ids1 ids2 ids3))
        [ids1; ids2; ids3] [[1; 2; 3]; [0; 1; 2]; [1; 2; 3]].
Proof.
  destruct (container_indices_invariants (H := elements_iter)
              ["[1 2 5 7]"; "[2 5 7 9]"; "[1 2 5 7 9]"]
              [[1; 2; 3]; [0; 1; 2]; [1; 2; 3]])
    as (ids1 & ids2 & ids3 & H1 & H2 & H3 & Hall).
  - vm_compute. reflexivity.
  - exists ids1, ids2, ids3. split; [exact H1|]. split; [exact H2|]. split; [exact H3|].
    eapply Forall2_impl; [exact Hall|].
    intros ids idx (Hsorted & Hnodup & Hlen & _). by repeat split.
Defined.

(** Two containers, iterated as 7, 3 and as 3, 7: the six rows of container
    3 come last in the one pseudo-mouse and first in the other. *)
Lemma pseudo_mice_any_order_witness :
  ∃ pseudo_mouse' : ndarray nat,
    AllenCaMovieDataset._get_pseudo_mice (H := reverse_iter)
      "VISp" [7%Z; 3%Z] summary_two traces_two = Ok pseudo_mouse'
    ∧ [[110; 111]; [120; 121]; [130; 131]; [200; 201]; [210; 211]; [220; 221];
       [310; 311]; [320; 321]; [330; 331]; [400; 401]; [410; 411]; [500; 501];
       [510; 511]; [600; 601]; [610; 611]] ≡ₚ nd_rows pseudo_mouse'
    ∧ take 2 (nd_rows pseudo_mouse') = [[400; 401]; [410; 411]].
Proof.
  destruct (pseudo_mice_any_order elements_iter reverse_iter
              "VISp" [7%Z; 3%Z] summary_two traces_two
              (mk_ndarray
                 [[110; 111]; [120; 121]; [130; 131]; [200; 201]; [210; 211]; [220; 221];
                  [310; 311]; [320; 321]; [330; 331]; [400; 401]; [410; 411]; [500; 501];
                  [510; 511]; [600; 601]; [610; 611]] 2))
    as (pm' & Hpm' & Hperm & _).
  - vm_compute. reflexivity.
  - exists pm'. split; [exact Hpm'|]. split; [exact Hperm|].
    vm_compute in Hpm'. injection Hpm' as <-. reflexivity.
Defined.

(** Container 7 of section 8 has three rows and a file of three sessions. *)
Lemma pseudo_mice_three_sessions_witness :
  length (filter (λ r, exp r = 7%Z) summary_8) = 3
  ∧ ∃ mat : list (ndarray nat), traces_8 !! 7%Z = Some mat ∧ (3 ≤ length mat)%nat.
Proof.
  apply (pseudo_mice_three_sessions (H := elements_iter) "VISp" [7%Z] summary_8 traces_8
           (mk_ndarray [[110; 111]; [120; 121]; [130; 131];
                        [200; 201]; [210; 211]; [220; 221];
                        [310; 311]; [320; 321]; [330; 331]] 2)).
  - vm_compute. reflexivity.
  - apply (bool_decide_unpack _). vm_compute. exact I.
Defined.

(** The pseudo-mouse of section 8 is rectangular, with two columns. *)
Lemma pseudo_mice_rectangular_witness :
  nd_wf (mk_ndarray [[110; 111]; [120; 121]; [130; 131];
                     [200; 201]; [210; 211]; [220; 221];
                     [310; 311]; [320; 321]; [330; 331]] 2).
Proof.
  apply (pseudo_mice_rectangular (H := elements_iter) "VISp" [7%Z] summary_8 traces_8).
  - vm_compute. reflexivity.
  - intros c mat session Hmat Hsession. unfold traces_8 in Hmat.
    apply lookup_singleton_Some in Hmat as [_ <-].
    apply (proj1 (Forall_forall nd_wf
                    [session_traces 1 4; session_traces 2 4; session_traces 3 5]));
      [|exact Hsession].
    repeat constructor.
Defined.

(** No row of the table of section 8 is of the area VISl. *)
Lemma pseudo_mice_no_container_witness :
  AllenCaMovieDataset._get_pseudo_mice (H := elements_iter) "VISl" [7%Z] summary_8 traces_8
  = Raise ValueError.
Proof.
  apply (pseudo_mice_no_container (H := elements_iter) "VISl" [7%Z] summary_8 traces_8).
  apply (proj1 (Forall_forall
                  (λ r, ¬ AllenCaMovieDataset.area_filter [7%Z] "VISl" r) summary_8)).
  apply (bool_decide_unpack _). vm_compute. exact I.
Defined.

(** A bracket between the digits 2 and 3 is dropped and 23 is read. *)
Lemma _convert_to_nums_ignores_witness :
  AllenCaMovieDataset._convert_to_nums (String.append "[1 2" (String "[" "3]"))
  = AllenCaMovieDataset._convert_to_nums (String.append "[1 2" "3]")
  ∧ AllenCaMovieDataset._convert_to_nums (String.append "[1 2" "3]") = Ok [1; 23]%Z.
Proof.
  split; [|reflexivity].
  apply (_convert_to_nums_ignores "[" "[1 2" "3]").
  apply (bool_decide_unpack _). vm_compute. exact I.
Defined.

(** The list "[1 22  5 ]". *)
Lemma _convert_to_nums_show_ids_witness :
  show_ids [("", 1); (" ", 22); ("  ", 5)] " " = "[1 22  5 ]"
  ∧ AllenCaMovieDataset._convert_to_nums (show_ids [("", 1); (" ", 22); ("  ", 5)] " ")
    = Ok [1; 22; 5]%Z.
Proof.
  split; [vm_compute; reflexivity|].
  apply (_convert_to_nums_show_ids [("", 1); (" ", 22); ("  ", 5)] " ").
  - repeat constructor.
  - repeat constructor; discriminate.
  - reflexivity.
Defined.

(** The test split of container 7 over 23 time steps: the labels are the two
    feature rows. *)
Lemma labels_repeat_frames_witness :
  ∃ d : AllenCaMoviesDataset.Dataset nat nat,
    AllenCaMoviesDataset.__init__ (H := elements_iter) (H0 := lcg_random)
      (AllenCaMoviesDataset.mk_config 2 5 "test" 10) "VISp" [7%Z]
      summary_8 traces_23 frame_feature_2 None = Ok d
    ∧ shape0 (AllenCaMoviesDataset.continuous_index d) = 2
    ∧ nd_rows (AllenCaMoviesDataset.continuous_index d) !! 1 = Some [8].
Proof.
  exists (AllenCaMoviesDataset.mk_dataset (AllenCaMoviesDataset.mk_config 2 5 "test" 10)
            (Some 2) (Some [8; 6]) (mk_ndarray [[3318; 3118]; [3319; 3119]] 2)
            (mk_ndarray [[7]; [8]] 1)).
  destruct (labels_repeat_frames (H := elements_iter) (H0 := lcg_random)
              (AllenCaMoviesDataset.mk_config 2 5 "test" 10) "VISp" [7%Z]
              summary_8 traces_23 frame_feature_2 None
              (AllenCaMoviesDataset.mk_dataset
                 (AllenCaMoviesDataset.mk_config 2 5 "test" 10)
                 (Some 2) (Some [8; 6]) (mk_ndarray [[3318; 3118]; [3319; 3119]] 2)
                 (mk_ndarray [[7]; [8]] 1)))
    as (Hrows & _ & Hrow).
  - vm_compute. reflexivity.
  - split; [vm_compute; reflexivity|]. split; [exact Hrows|].
    apply (Hrow 1). vm_compute. lia.
Defined.

(** Repeat 3 of a matrix of 23 columns, for the sample 1, 0, 1: two frames
    of three neurons. *)
Lemma test_split_entries_witness :
  nd_wf (transpose (mk_ndarray [[104; 105]; [4; 5]; [104; 105]] 2))
  ∧ shape0 (transpose (mk_ndarray [[104; 105]; [4; 5]; [104; 105]] 2)) = 2
  ∧ shape1 (transpose (mk_ndarray [[104; 105]; [4; 5]; [104; 105]] 2)) = 3
  ∧ ∃ i row x,
      [1; 0; 1] !! 1 = Some i ∧ nd_rows pseudo_mice_23 !! i = Some row
      ∧ row !! 5 = Some x
      ∧ nd_rows (transpose (mk_ndarray [[104; 105]; [4; 5]; [104; 105]] 2)) !! 1
          ≫= (λ frame, frame !! 1) = Some (float x).
Proof.
  destruct (test_split_entries (AllenCaMoviesDataset.mk_config 3 0 "test" 3)
              pseudo_mice_23 (transpose (mk_ndarray [[104; 105]; [4; 5]; [104; 105]] 2))
              frame_feature_2 (tensor_repeat 1 1 frame_feature_2) [1; 0; 1])
    as (Hwf & Hrows & Hcols & Hentry & _).
  - repeat constructor.
  - reflexivity.
  - simpl. lia.
  - vm_compute. reflexivity.
  - split; [exact Hwf|]. split; [exact Hrows|]. split; [exact Hcols|].
    apply (Hentry 1 1); vm_compute; lia.
Defined.

(** Held-out repeat 0, and held-out repeat 13 of a matrix of 23 columns with
    repeats of length 2: no neural row, two label rows. *)
Lemma test_split_out_of_range_witness :
  (∃ neural index,
     AllenCaMoviesDataset._split (AllenCaMoviesDataset.mk_config 3 0 "test" 0) 2 [1; 0; 1]
       pseudo_mice_23 frame_feature_2 = Ok (neural, index)
     ∧ shape0 neural = 0 ∧ shape0 index = shape0 frame_feature_2)
  ∧ (∃ neural index,
       AllenCaMoviesDataset._split (AllenCaMoviesDataset.mk_config 3 0 "test" 13) 2 [1; 0; 1]
         pseudo_mice_23 frame_feature_2 = Ok (neural, index)
       ∧ shape0 neural = 0 ∧ shape0 index = shape0 frame_feature_2).
Proof.
  split.
  - apply (test_split_out_of_range (AllenCaMoviesDataset.mk_config 3 0 "test" 0)
             pseudo_mice_23 (mk_ndarray [seq 100 23; seq 0 23; seq 100 23] 23)
             frame_feature_2 2 [1; 0; 1]).
    + reflexivity.
    + reflexivity.
    + left. reflexivity.
  - apply (test_split_out_of_range (AllenCaMoviesDataset.mk_config 3 0 "test" 13)
             pseudo_mice_23 (mk_ndarray [seq 100 23; seq 0 23; seq 100 23] 23)
             frame_feature_2 2 [1; 0; 1]).
    + reflexivity.
    + reflexivity.
    + right. vm_compute. discriminate.
Defined.

(** The test dataset of container 7 over 23 time steps, two neurons asked
    with seed 5: rows 8 and 6 of the nine are drawn. *)
Lemma built_dataset_sample_witness :
  ∃ pseudo_mice sample,
    AllenCaMoviesDataset._get_pseudo_mice (H := elements_iter)
      "VISp" [7%Z] summary_8 traces_23 = Ok pseudo_mice
    ∧ AllenCaMoviesDataset.neurons_indices
        (AllenCaMoviesDataset.mk_dataset (AllenCaMoviesDataset.mk_config 2 5 "test" 10)
           (Some 2) (Some [8; 6]) (mk_ndarray [[3318; 3118]; [3319; 3119]] 2)
           (mk_ndarray [[7]; [8]] 1)) = Some sample
    ∧ length sample = 2
    ∧ Forall (λ i, i < shape0 pseudo_mice) sample
    ∧ AllenCaMoviesDataset.input_dimension
        (AllenCaMoviesDataset.mk_dataset (AllenCaMoviesDataset.mk_config 2 5 "test" 10)
           (Some 2) (Some [8; 6]) (mk_ndarray [[3318; 3118]; [3319; 3119]] 2)
           (mk_ndarray [[7]; [8]] 1)) = 2.
Proof.
  destruct (built_dataset_sample (H := elements_iter) (H0 := lcg_random)
              (AllenCaMoviesDataset.mk_config 2 5 "test" 10) "VISp" [7%Z]
              summary_8 traces_23 frame_feature_2
              (AllenCaMoviesDataset.mk_dataset
                 (AllenCaMoviesDataset.mk_config 2 5 "test" 10)
                 (Some 2) (Some [8; 6]) (mk_ndarray [[3318; 3118]; [3319; 3119]] 2)
                 (mk_ndarray [[7]; [8]] 1)))
    as (pm & sample & Hpm & _ & _ & Hsample & Hlen & Hlt & _ & Hdim).
  - vm_compute. reflexivity.
  - exists pm, sample. split; [exact Hpm|]. split; [exact Hsample|].
    split; [exact Hlen|]. split; [exact Hlt|]. apply Hdim. reflexivity.
Defined.

(** Six rows, five neurons asked with seed 3: the groups are 5, 0, 1 and
    2, 3, 4. *)
Lemma disjoint_groups_cover_witness :
  [5; 0; 1] ++ [2; 3; 4] ≡ₚ seq 0 6.
Proof.
  apply (disjoint_groups_cover (H := lcg_random) 3 5
           (mk_ndarray [[100; 101]; [110; 111]; [120; 121]; [130; 131];
                        [400; 401]; [410; 411]] 2) [5; 0; 1] [2; 3; 4]).
  - vm_compute. lia.
  - vm_compute. reflexivity.
  - vm_compute. reflexivity.
Defined.

(** Two datasets over the two files of the first movie, seed 3, of two
    neurons for group 0 and three for group 1: rows 5, 0 and rows 2, 3, 4. *)
Lemma disjoint_datasets_share_no_neuron_witness :
  NoDup ([5; 0] ++ [2; 3; 4]) ∧ ∀ i, i ∈ [5; 0] → i ∉ [2; 3; 4].
Proof.
  destruct (disjoint_datasets_share_no_neuron (H := lcg_random) movie_entry_keys
              "one" "VISp"
              (AllenCaMoviesDataset.mk_config 2 3 "test" 1)
              (AllenCaMoviesDataset.mk_config 3 3 "test" 1)
              list_mice_2 frame_feature_2
              (AllenCaMoviesDisjointDataset.mk_dataset
                 (AllenCaMoviesDataset.mk_dataset
                    (AllenCaMoviesDataset.mk_config 2 3 "test" 1) (Some 0) (Some [5; 0])
                    (mk_ndarray [] 2) (mk_ndarray [[7]; [8]] 1)) 0)
              (AllenCaMoviesDisjointDataset.mk_dataset
                 (AllenCaMoviesDataset.mk_dataset
                    (AllenCaMoviesDataset.mk_config 3 3 "test" 1) (Some 0) (Some [2; 3; 4])
                    (mk_ndarray [] 3) (mk_ndarray [[7]; [8]] 1)) 1))
    as (sample0 & sample1 & H0 & H1 & Hnodup & Hdisjoint & _).
  - reflexivity.
  - vm_compute. reflexivity.
  - vm_compute. reflexivity.
  - simpl in H0, H1. injection H0 as <-. injection H1 as <-.
    split; [exact Hnodup | exact Hdisjoint].
Defined.

(** The dataset of container 7 without a split, two neurons asked with
    seed 5 and no PCA: two rows, one per time step, and twenty label rows. *)
Lemma movie_dataset_shape_witness :
  ∃ d : AllenCaMovieDataset.Dataset nat nat,
    AllenCaMovieDataset.__init__ (H := elements_iter) (H0 := lcg_random) (λ m, m)
      "VISp" [7%Z] summary_8 traces_8 frame_feature_2 2 5 false None = Ok d
    ∧ shape0 (AllenCaMovieDataset.continuous_index d) = 10 * 2
    ∧ AllenCaMovieDataset.input_dimension d = 2
    ∧ ∃ pseudo_data,
        AllenCaMovieDataset._get_pseudo_mice (H := elements_iter)
          "VISp" [7%Z] summary_8 traces_8 = Ok pseudo_data
        ∧ AllenCaMovieDataset.__len__ d = shape1 pseudo_data.
Proof.
  exists (AllenCaMovieDataset.mk_dataset (mk_ndarray [[330; 310]; [331; 311]] 2)
            (tensor_repeat 10 1 frame_feature_2)).
  destruct (movie_dataset_shape (H := elements_iter) (H0 := lcg_random) (λ m, m)
              "VISp" [7%Z] summary_8 traces_8 frame_feature_2 2 5 false None
              (AllenCaMovieDataset.mk_dataset (mk_ndarray [[330; 310]; [331; 311]] 2)
                 (tensor_repeat 10 1 frame_feature_2)))
    as (Hlabels & _ & _ & Hsource).
  - vm_compute. reflexivity.
  - destruct (Hsource eq_refl) as (pseudo_data & Hpseudo & Hplain & _).
    destruct (Hplain eq_refl) as [Hlen Hdim].
    split; [vm_compute; reflexivity|]. split; [exact Hlabels|]. split; [exact Hdim|].
    exists pseudo_data. split; [exact Hpseudo | exact Hlen].
Defined.
